(** * lxml_xpath_ipaddress: the IP predicates, address extraction and subnet test

    A shallow embedding of [lxml_xpath_ipaddress/__init__.py].  The module
    wraps Python's [ipaddress] module and swallows its exceptions, so the
    embedding has three layers:

    - a small model of the Python values, exceptions and string primitives
      the code relies on;
    - [Module ipaddress]: the constructors of the standard [ipaddress] module
      that the package calls (CPython 3.11, string arguments);
    - the package itself: the nine predicates, [ip_only], the memoised
      [_to_subnet], [in_subnet] and the functions bound into the XPath
      namespace.

    Python [str] is modelled by [string]: a sequence of characters with code
    points below 256.  Python [int] is [Z]. *)

From Stdlib Require Import String Ascii ZArith List Bool Lia.
Import ListNotations.

Open Scope string_scope.
Open Scope Z_scope.

(* ------------------------------------------------------------------------ *)
(** * Python exceptions and results *)
(* ------------------------------------------------------------------------ *)

(** The exception classes that can be raised on the paths modelled here. *)
Inductive exn : Type :=
| AddressValueError
| NetmaskValueError
| ValueError
| TypeError
| IndexError
| AttributeError
| OverflowError.

(** [AddressValueError] and [NetmaskValueError] are subclasses of
    [ValueError]: this is what [except ValueError] catches. *)
Definition is_ValueError (e : exn) : bool :=
  match e with
  | AddressValueError | NetmaskValueError | ValueError => true
  | _ => false
  end.

(** What [except (AddressValueError, NetmaskValueError)] catches. *)
Definition is_Address_or_Netmask_error (e : exn) : bool :=
  match e with
  | AddressValueError | NetmaskValueError => true
  | _ => false
  end.

(** A computation either returns a value or raises. *)
Inductive result (A : Type) : Type :=
| Ok (a : A)
| Raise (e : exn).
Arguments Ok {A} a.
Arguments Raise {A} e.

Definition bind {A B : Type} (r : result A) (k : A -> result B) : result B :=
  match r with
  | Ok a => k a
  | Raise e => Raise e
  end.

Notation "x <- r ;; k" := (bind r (fun x => k))
  (at level 61, r at next level, right associativity).
Notation "' p <- r ;; k" := (bind r (fun x => let 'p := x in k))
  (at level 61, p pattern, r at next level, right associativity).

(** [try: body  except <classes>: handler] where [caught] tells which
    exception classes the clause names. *)
Definition try_except {A : Type} (body : result A) (caught : exn -> bool)
           (handler : result A) : result A :=
  match body with
  | Ok a => Ok a
  | Raise e => if caught e then handler else Raise e
  end.

(** A bare [except:] catches everything. *)
Definition bare_except (e : exn) : bool := true.

Definition is_Ok {A : Type} (r : result A) : bool :=
  match r with Ok _ => true | Raise _ => false end.

(* ------------------------------------------------------------------------ *)
(** * Python values *)
(* ------------------------------------------------------------------------ *)

(** A value that is a [str] or [None]: the text of an lxml element, the
    argument of the predicates, the result of [ip_only]. *)
Definition pystr : Type := option string.

(** [str(x)] for such a value. *)
Definition py_str (x : pystr) : string :=
  match x with
  | Some s => s
  | None => "None"
  end.

(** The values the package's functions return. *)
Inductive pyval : Type :=
| PyNone
| PyBool (b : bool)
| PyStr (s : string).

(** Truth value testing, as used by [or]. *)
Definition truthy (v : pyval) : bool :=
  match v with
  | PyNone => false
  | PyBool b => b
  | PyStr s => negb (String.eqb s "")
  end.

(** [a or b]: [b] is evaluated only when [a] is falsy, and the result is
    one of the operands, not its truth value. *)
Definition py_or (a : result pyval) (b : result pyval) : result pyval :=
  x <- a ;; if truthy x then Ok x else b.

(* ------------------------------------------------------------------------ *)
(** * String primitives *)
(* ------------------------------------------------------------------------ *)

Definition code (c : ascii) : Z := Z.of_N (N_of_ascii c).

(** [c in s] for a one-character [c]. *)
Fixpoint str_contains (c : ascii) (s : string) : bool :=
  match s with
  | EmptyString => false
  | String d s' => Ascii.eqb d c || str_contains c s'
  end.

(** [s.split(sep)] for a one-character separator: never the empty list. *)
Fixpoint str_split (sep : ascii) (s : string) : list string :=
  match s with
  | EmptyString => [EmptyString]
  | String c s' =>
      if Ascii.eqb c sep then EmptyString :: str_split sep s'
      else match str_split sep s' with
           | [] => [String c EmptyString]
           | p :: ps => String c p :: ps
           end
  end.

(** [sep.join(parts)]. *)
Fixpoint str_join (sep : string) (parts : list string) : string :=
  match parts with
  | [] => EmptyString
  | [p] => p
  | p :: ps => p ++ sep ++ str_join sep ps
  end.

(** [s.partition(sep)]: the text before the first [sep], whether [sep] was
    found, and the text after it. *)
Fixpoint str_partition (sep : ascii) (s : string) : string * bool * string :=
  match s with
  | EmptyString => (EmptyString, false, EmptyString)
  | String c s' =>
      if Ascii.eqb c sep then (EmptyString, true, s')
      else let '(before, found, after) := str_partition sep s' in
           (String c before, found, after)
  end.

(** [s[0] == c], for a non-empty [s]. *)
Definition first_char_is (c : ascii) (s : string) : bool :=
  match s with
  | EmptyString => false
  | String d _ => Ascii.eqb d c
  end.

Definition is_decimal_digit (c : ascii) : bool :=
  (48 <=? code c) && (code c <=? 57).

Fixpoint str_forall (p : ascii -> bool) (s : string) : bool :=
  match s with
  | EmptyString => true
  | String c s' => p c && str_forall p s'
  end.

(** [s.isascii() and s.isdigit()]: [isdigit] is false on the empty string,
    and the only ASCII characters it accepts are 0 to 9. *)
Definition isascii_and_isdigit (s : string) : bool :=
  negb (String.eqb s "") && str_forall is_decimal_digit s.

(** The value of a digit in bases up to 16, upper or lower case. *)
Definition digit_value (c : ascii) : option Z :=
  let n := code c in
  if (48 <=? n) && (n <=? 57) then Some (n - 48)
  else if (97 <=? n) && (n <=? 102) then Some (n - 87)
  else if (65 <=? n) && (n <=? 70) then Some (n - 55)
  else None.

Fixpoint int_loop (base : Z) (s : string) (acc : Z) : result Z :=
  match s with
  | EmptyString => Ok acc
  | String c s' =>
      match digit_value c with
      | Some d => if d <? base then int_loop base s' (base * acc + d)
                  else Raise ValueError
      | None => Raise ValueError
      end
  end.

(** [sys.int_max_str_digits], at its default. *)
Definition int_max_str_digits : Z := 4300.

(** [int(s, base)] on unsigned digit strings, the only inputs the callers
    below let through: the empty string and foreign characters raise
    [ValueError], and so does, unless the base is a power of two, a text of
    more than [int_max_str_digits] digits. *)
Definition py_int (s : string) (base : Z) : result Z :=
  if String.eqb s "" then Raise ValueError
  else if negb (Z.land base (base - 1) =? 0)
          && (int_max_str_digits <? Z.of_nat (String.length s))
       then Raise ValueError
  else int_loop base s 0.

Definition digit_char (d : Z) : ascii :=
  if d <? 10 then ascii_of_N (Z.to_N (48 + d)) else ascii_of_N (Z.to_N (87 + d)).

Fixpoint format_loop (base : Z) (fuel : nat) (n : Z) (acc : string) : string :=
  match fuel with
  | O => acc
  | S fuel' =>
      let acc' := String (digit_char (n mod base)) acc in
      if n <? base then acc' else format_loop base fuel' (n / base) acc'
  end.

(** The digits of a non-negative [n] in the given base, most significant
    first and without padding: [str(n)] for base 10 and ['%x' % n] for base
    16.  A number has at most [log2 n + 1] digits. *)
Definition format_int (base : Z) (n : Z) : string :=
  format_loop base (S (Z.to_nat (Z.log2 n))) n EmptyString.

Definition str_of_int (n : Z) : string := format_int 10 n.
Definition hex_of_int (n : Z) : string := format_int 16 n.

Definition last_part (parts : list string) : string := last parts EmptyString.

(** [int.from_bytes(octets, 'big')]. *)
Definition int_from_bytes (octets : list Z) : Z :=
  fold_left (fun acc b => acc * 256 + b) octets 0.

(** The big-endian digits of [n] in base [2^width], [count] of them: the
    bytes of [n.to_bytes(count, 'big')] for [width = 8]. *)
Fixpoint big_endian (width : Z) (count : nat) (n : Z) : list Z :=
  match count with
  | O => []
  | S k => Z.land (Z.shiftr n (width * Z.of_nat k)) (2 ^ width - 1)
             :: big_endian width k n
  end.

(** [n.to_bytes(length, 'big')], which refuses a negative [n] and one that
    does not fit. *)
Definition int_to_bytes (n : Z) (length : nat) : result (list Z) :=
  if (n <? 0) || (2 ^ (8 * Z.of_nat length) <=? n) then Raise OverflowError
  else Ok (big_endian 8 length n).

(** [x.bit_length()]. *)
Definition bit_length (x : Z) : Z :=
  if x =? 0 then 0 else Z.log2 (Z.abs x) + 1.

(** Mapping a raising function over a list, left to right. *)
Fixpoint map_result {A B : Type} (f : A -> result B) (l : list A) : result (list B) :=
  match l with
  | [] => Ok []
  | x :: xs => y <- f x ;; ys <- map_result f xs ;; Ok (y :: ys)
  end.

(* ------------------------------------------------------------------------ *)
(** * The [ipaddress] module of the standard library *)
(* ------------------------------------------------------------------------ *)

(** The classes and functions of [ipaddress] that the package calls, for
    arguments that are a [str] or [None] (any other object is first turned
    into its [str]; integers and packed bytes are not modelled).  The
    per-class netmask caches are plain memoisation and are left out. *)
Module ipaddress.

(** The two address families, [_BaseV4] and [_BaseV6]. *)
Inductive family : Type := V4 | V6.

Definition family_eqb (a b : family) : bool :=
  match a, b with
  | V4, V4 | V6, V6 => true
  | _, _ => false
  end.

Definition _version (cls : family) : Z :=
  match cls with V4 => 4 | V6 => 6 end.

Definition _max_prefixlen (cls : family) : Z :=
  match cls with V4 => 32 | V6 => 128 end.

Definition _ALL_ONES (cls : family) : Z := 2 ^ _max_prefixlen cls - 1.

(** An [IPv4Address] or [IPv6Address] instance.  Only IPv6 addresses carry a
    scope id; it is [None] on every IPv4 address. *)
Record IPAddress : Type := Address {
  cls_of : family;
  _ip : Z;
  _scope_id : option string
}.

(** [_IPAddressBase._check_int_address]. *)
Definition _check_int_address (cls : family) (n : Z) : result unit :=
  if n <? 0 then Raise AddressValueError
  else if n >? _ALL_ONES cls then Raise AddressValueError
  else Ok tt.

(** The constructor of an address class applied to an integer. *)
Definition address_of_int (cls : family) (n : Z) : result IPAddress :=
  _ <- _check_int_address cls n ;;
  Ok (Address cls n None).

Module _BaseV4.

Definition _parse_octet (octet_str : string) : result Z :=
  if String.eqb octet_str "" then Raise ValueError
  else if negb (isascii_and_isdigit octet_str) then Raise ValueError
  else if (3 <? Z.of_nat (String.length octet_str)) then Raise ValueError
  else if negb (String.eqb octet_str "0")
          && first_char_is "0" octet_str
       then Raise ValueError
  else
    octet_int <- py_int octet_str 10 ;;
    if octet_int >? 255 then Raise ValueError else Ok octet_int.

Definition _ip_int_from_string (ip_str : string) : result Z :=
  if String.eqb ip_str "" then Raise AddressValueError
  else
    let octets := str_split "." ip_str in
    if negb (Nat.eqb (List.length octets) 4) then Raise AddressValueError
    else
      try_except
        (parsed <- map_result _parse_octet octets ;; Ok (int_from_bytes parsed))
        is_ValueError
        (Raise AddressValueError).

Definition _string_from_ip_int (ip_int : Z) : result string :=
  octets <- int_to_bytes ip_int 4 ;;
  Ok (str_join "." (map str_of_int octets)).

End _BaseV4.

(** [IPv4Address(address)]. *)
Definition IPv4Address (address : pystr) : result IPAddress :=
  let addr_str := py_str address in
  if str_contains "/" addr_str then Raise AddressValueError
  else
    ip <- _BaseV4._ip_int_from_string addr_str ;;
    Ok (Address V4 ip None).

Definition is_AddressValueError (e : exn) : bool :=
  match e with AddressValueError => true | _ => false end.

Definition is_NetmaskValueError (e : exn) : bool :=
  match e with NetmaskValueError => true | _ => false end.

Module _BaseV6.

Definition _HEXTET_COUNT : Z := 8.

(** Membership in [_HEX_DIGITS]. *)
Definition is_hex_digit (c : ascii) : bool :=
  let n := code c in
  ((48 <=? n) && (n <=? 57)) || ((65 <=? n) && (n <=? 70))
  || ((97 <=? n) && (n <=? 102)).

Definition _parse_hextet (hextet_str : string) : result Z :=
  if negb (str_forall is_hex_digit hextet_str) then Raise ValueError
  else if (4 <? Z.of_nat (String.length hextet_str)) then Raise ValueError
  else py_int hextet_str 16.

(** The loop that looks for the one empty part strictly between the two
    ends; [middle] is [parts[1:-1]] and [i] the index of its head. *)
Fixpoint _find_skip_index (middle : list string) (i : Z) (skip_index : option Z)
  : result (option Z) :=
  match middle with
  | [] => Ok skip_index
  | part :: rest =>
      if String.eqb part "" then
        match skip_index with
        | Some _ => Raise AddressValueError
        | None => _find_skip_index rest (i + 1) (Some i)
        end
      else _find_skip_index rest (i + 1) skip_index
  end.

(** The two loops [ip_int <<= 16; ip_int |= cls._parse_hextet(parts[i])]. *)
Fixpoint _parse_hextets (parts : list string) (ip_int : Z) : result Z :=
  match parts with
  | [] => Ok ip_int
  | part :: rest =>
      hextet <- _parse_hextet part ;;
      _parse_hextets rest (Z.lor (Z.shiftl ip_int 16) hextet)
  end.

Definition _ip_int_from_string (ip_str : string) : result Z :=
  if String.eqb ip_str "" then Raise AddressValueError
  else
    let parts := str_split ":" ip_str in
    let _min_parts := 3 in
    if Z.of_nat (List.length parts) <? _min_parts then Raise AddressValueError
    else
      parts <-
        (if str_contains "." (last_part parts) then
           ipv4 <- try_except (IPv4Address (Some (last_part parts)))
                              is_AddressValueError (Raise AddressValueError) ;;
           let ipv4_int := _ip ipv4 in
           Ok (removelast parts
                 ++ [hex_of_int (Z.land (Z.shiftr ipv4_int 16) 65535);
                     hex_of_int (Z.land ipv4_int 65535)])%list
         else Ok parts) ;;
      let len := Z.of_nat (List.length parts) in
      let _max_parts := _HEXTET_COUNT + 1 in
      if len >? _max_parts then Raise AddressValueError
      else
        skip_index <- _find_skip_index (removelast (tl parts)) 1 None ;;
        '(parts_hi, parts_lo, parts_skipped) <-
          match skip_index with
          | Some skip =>
              let parts_hi := skip in
              let parts_lo := len - skip - 1 in
              parts_hi <-
                (if String.eqb (hd "" parts) "" then
                   if negb (parts_hi - 1 =? 0) then Raise AddressValueError
                   else Ok (parts_hi - 1)
                 else Ok parts_hi) ;;
              parts_lo <-
                (if String.eqb (last_part parts) "" then
                   if negb (parts_lo - 1 =? 0) then Raise AddressValueError
                   else Ok (parts_lo - 1)
                 else Ok parts_lo) ;;
              let parts_skipped := _HEXTET_COUNT - (parts_hi + parts_lo) in
              if parts_skipped <? 1 then Raise AddressValueError
              else Ok (parts_hi, parts_lo, parts_skipped)
          | None =>
              if negb (len =? _HEXTET_COUNT) then Raise AddressValueError
              else if String.eqb (hd "" parts) "" then Raise AddressValueError
              else if String.eqb (last_part parts) "" then Raise AddressValueError
              else Ok (len, 0, 0)
          end ;;
        try_except
          (ip_int <- _parse_hextets (firstn (Z.to_nat parts_hi) parts) 0 ;;
           let ip_int := Z.shiftl ip_int (16 * parts_skipped) in
           _parse_hextets (skipn (Z.to_nat (len - parts_lo)) parts) ip_int)
          is_ValueError
          (Raise AddressValueError).

(** The state of the scan in [_compress_hextets]; [-1] stands for "no run". *)
Record run_state : Type := RunState {
  best_doublecolon_start : Z;
  best_doublecolon_len : Z;
  doublecolon_start : Z;
  doublecolon_len : Z
}.

Definition _scan_step (st : run_state) (index : Z) (hextet : string) : run_state :=
  if String.eqb hextet "0" then
    let len := doublecolon_len st + 1 in
    let start := if doublecolon_start st =? -1 then index else doublecolon_start st in
    if len >? best_doublecolon_len st
    then RunState start len start len
    else RunState (best_doublecolon_start st) (best_doublecolon_len st) start len
  else RunState (best_doublecolon_start st) (best_doublecolon_len st) (-1) 0.

Fixpoint _scan (hextets : list string) (index : Z) (st : run_state) : run_state :=
  match hextets with
  | [] => st
  | hextet :: rest => _scan rest (index + 1) (_scan_step st index hextet)
  end.

Definition _compress_hextets (hextets : list string) : list string :=
  let st := _scan hextets 0 (RunState (-1) 0 (-1) 0) in
  if best_doublecolon_len st >? 1 then
    let best_doublecolon_end := best_doublecolon_start st + best_doublecolon_len st in
    let hextets1 :=
      if best_doublecolon_end =? Z.of_nat (List.length hextets)
      then (hextets ++ [""])%list else hextets in
    let hextets2 :=
      (firstn (Z.to_nat (best_doublecolon_start st)) hextets1
         ++ [""] ++ skipn (Z.to_nat best_doublecolon_end) hextets1)%list in
    if best_doublecolon_start st =? 0 then "" :: hextets2 else hextets2
  else hextets.

(** For [0 <= ip_int]: the eight four-digit groups of ['%032x' % ip_int],
    each printed again with ['%x']. *)
Definition _string_from_ip_int (ip_int : Z) : result string :=
  if ip_int >? _ALL_ONES V6 then Raise ValueError
  else
    let hextets := map hex_of_int (big_endian 16 8 ip_int) in
    Ok (str_join ":" (_compress_hextets hextets)).

Definition _split_scope_id (ip_str : string) : result (string * option string) :=
  let '(addr, sep, scope_id) := str_partition "%" ip_str in
  if negb sep then Ok (addr, None)
  else if String.eqb scope_id "" || str_contains "%" scope_id
       then Raise AddressValueError
  else Ok (addr, Some scope_id).

End _BaseV6.

(** [IPv6Address(address)]. *)
Definition IPv6Address (address : pystr) : result IPAddress :=
  let addr_str := py_str address in
  if str_contains "/" addr_str then Raise AddressValueError
  else
    '(addr_str, scope_id) <- _BaseV6._split_scope_id addr_str ;;
    ip <- _BaseV6._ip_int_from_string addr_str ;;
    Ok (Address V6 ip scope_id).

(** [str(a)] for an address: [_BaseAddress.__str__], extended by
    [IPv6Address.__str__] with the scope id when there is a non-empty one. *)
Definition address_str (a : IPAddress) : result string :=
  match cls_of a with
  | V4 => _BaseV4._string_from_ip_int (_ip a)
  | V6 =>
      ip_str <- _BaseV6._string_from_ip_int (_ip a) ;;
      match _scope_id a with
      | Some scope => if String.eqb scope "" then Ok ip_str
                      else Ok (ip_str ++ "%" ++ scope)
      | None => Ok ip_str
      end
  end.

(** ** What the classes share: [_IPAddressBase] *)

(** [cls(address)] for the address class of a family. *)
Definition address_class (cls : family) (address : pystr) : result IPAddress :=
  match cls with
  | V4 => IPv4Address address
  | V6 => IPv6Address address
  end.

Definition _ip_int_from_string (cls : family) (ip_str : string) : result Z :=
  match cls with
  | V4 => _BaseV4._ip_int_from_string ip_str
  | V6 => _BaseV6._ip_int_from_string ip_str
  end.

Definition _ip_int_from_prefix (cls : family) (prefixlen : Z) : Z :=
  Z.lxor (_ALL_ONES cls) (Z.shiftr (_ALL_ONES cls) prefixlen).

Definition _count_righthand_zero_bits (number bits : Z) : Z :=
  if number =? 0 then bits
  else Z.min bits (bit_length (Z.land (Z.lnot number) (number - 1))).

Definition _prefix_from_ip_int (cls : family) (ip_int : Z) : result Z :=
  let trailing_zeroes := _count_righthand_zero_bits ip_int (_max_prefixlen cls) in
  let prefixlen := _max_prefixlen cls - trailing_zeroes in
  let leading_ones := Z.shiftr ip_int trailing_zeroes in
  let all_ones := Z.shiftl 1 prefixlen - 1 in
  if negb (leading_ones =? all_ones) then Raise ValueError
  else Ok prefixlen.

Definition _prefix_from_prefix_string (cls : family) (prefixlen_str : string)
  : result Z :=
  if negb (isascii_and_isdigit prefixlen_str) then Raise NetmaskValueError
  else
    prefixlen <- try_except (py_int prefixlen_str 10) is_ValueError
                            (Raise NetmaskValueError) ;;
    if negb ((0 <=? prefixlen) && (prefixlen <=? _max_prefixlen cls))
    then Raise NetmaskValueError
    else Ok prefixlen.

Definition _prefix_from_ip_string (cls : family) (ip_str : string) : result Z :=
  ip_int <- try_except (_ip_int_from_string cls ip_str) is_AddressValueError
                       (Raise NetmaskValueError) ;;
  try_except (_prefix_from_ip_int cls ip_int) is_ValueError
    (let ip_int := Z.lxor ip_int (_ALL_ONES cls) in
     try_except (_prefix_from_ip_int cls ip_int) is_ValueError
                (Raise NetmaskValueError)).

(** [_split_optional_netmask]. *)
Definition _split_optional_netmask (address : pystr) : result (list string) :=
  let addr := str_split "/" (py_str address) in
  if (2 <? Z.of_nat (List.length addr)) then Raise AddressValueError
  else Ok addr.

(** The mask handed to [_make_netmask]: the class's full prefix length as an
    integer when the text has no slash, else the text after the slash. *)
Inductive mask_arg : Type :=
| MaskInt (prefixlen : Z)
| MaskStr (mask : string).

(** The argument of a network constructor: a [str] (or [None]), or the tuple
    [(addr, mask)] an interface passes on. *)
Inductive network_arg : Type :=
| ArgStr (address : pystr)
| ArgTuple (addr : string) (mask : mask_arg).

Definition _split_addr_prefix (cls : family) (address : network_arg)
  : result (string * mask_arg) :=
  match address with
  | ArgTuple addr mask => Ok (addr, mask)
  | ArgStr text =>
      parts <- _split_optional_netmask text ;;
      match parts with
      | addr :: mask :: _ => Ok (addr, MaskStr mask)
      | [addr] => Ok (addr, MaskInt (_max_prefixlen cls))
      | [] => Raise IndexError
      end
  end.

(** [_BaseV4._make_netmask] and [_BaseV6._make_netmask]: only IPv4 falls back
    to a dotted netmask or hostmask. *)
Definition _make_netmask (cls : family) (arg : mask_arg) : result (IPAddress * Z) :=
  prefixlen <-
    match arg with
    | MaskInt prefixlen =>
        if negb ((0 <=? prefixlen) && (prefixlen <=? _max_prefixlen cls))
        then Raise NetmaskValueError
        else Ok prefixlen
    | MaskStr text =>
        match cls with
        | V4 => try_except (_prefix_from_prefix_string cls text) is_NetmaskValueError
                           (_prefix_from_ip_string cls text)
        | V6 => _prefix_from_prefix_string cls text
        end
    end ;;
  netmask <- address_of_int cls (_ip_int_from_prefix cls prefixlen) ;;
  Ok (netmask, prefixlen).

(** ** Networks and interfaces *)

(** An [IPv4Network] or [IPv6Network] instance. *)
Record IPNetwork : Type := Network {
  net_cls : family;
  network_address : IPAddress;
  netmask : IPAddress;
  _prefixlen : Z
}.

(** [IPv4Network.__init__] and [IPv6Network.__init__], which differ only in
    the class. *)
Definition network_class (cls : family) (address : network_arg) (strict : bool)
  : result IPNetwork :=
  '(addr, mask) <- _split_addr_prefix cls address ;;
  network_address <- address_class cls (Some addr) ;;
  '(netmask, prefixlen) <- _make_netmask cls mask ;;
  let packed := _ip network_address in
  if negb (Z.land packed (_ip netmask) =? packed) then
    if strict then Raise ValueError
    else
      network_address <- address_of_int cls (Z.land packed (_ip netmask)) ;;
      Ok (Network cls network_address netmask prefixlen)
  else Ok (Network cls network_address netmask prefixlen).

Definition IPv4Network (address : pystr) : result IPNetwork :=
  network_class V4 (ArgStr address) true.

Definition IPv6Network (address : pystr) : result IPNetwork :=
  network_class V6 (ArgStr address) true.

(** An [IPv4Interface] or [IPv6Interface] instance: an address together with
    the network it lies in. *)
Record IPInterface : Type := Interface {
  if_address : IPAddress;
  network : IPNetwork;
  if_netmask : IPAddress;
  if_prefixlen : Z
}.

(** [IPv4Interface.__init__] and [IPv6Interface.__init__]. *)
Definition interface_class (cls : family) (address : pystr) : result IPInterface :=
  '(addr, mask) <- _split_addr_prefix cls (ArgStr address) ;;
  self <- address_class cls (Some addr) ;;
  network <- network_class cls (ArgTuple addr mask) false ;;
  Ok (Interface self network (netmask network) (_prefixlen network)).

Definition IPv4Interface (address : pystr) : result IPInterface :=
  interface_class V4 address.

Definition IPv6Interface (address : pystr) : result IPInterface :=
  interface_class V6 address.

(** The [ip] property of an interface: a fresh address built from the
    integer, so an IPv6 scope id is not carried over. *)
Definition ip (i : IPInterface) : result IPAddress :=
  address_of_int (cls_of (if_address i)) (_ip (if_address i)).

(** ** The factory functions *)

Definition ip_address (address : pystr) : result IPAddress :=
  try_except (IPv4Address address) is_Address_or_Netmask_error
    (try_except (IPv6Address address) is_Address_or_Netmask_error
       (Raise ValueError)).

Definition ip_network (address : pystr) (strict : bool) : result IPNetwork :=
  try_except (network_class V4 (ArgStr address) strict) is_Address_or_Netmask_error
    (try_except (network_class V6 (ArgStr address) strict) is_Address_or_Netmask_error
       (Raise ValueError)).

Definition ip_interface (address : pystr) : result IPInterface :=
  try_except (IPv4Interface address) is_Address_or_Netmask_error
    (try_except (IPv6Interface address) is_Address_or_Netmask_error
       (Raise ValueError)).

(** [other in self] for an address [other]: [_BaseNetwork.__contains__]. *)
Definition __contains__ (self : IPNetwork) (other : IPAddress) : bool :=
  if negb (_version (net_cls self) =? _version (cls_of other)) then false
  else Z.land (_ip other) (_ip (netmask self)) =? _ip (network_address self).

(** The last address of a network. *)
Definition broadcast_address (self : IPNetwork) : Z :=
  Z.lor (_ip (network_address self))
        (Z.lxor (_ip (netmask self)) (_ALL_ONES (net_cls self))).

End ipaddress.

(* ------------------------------------------------------------------------ *)
(** * The package: [lxml_xpath_ipaddress] *)
(* ------------------------------------------------------------------------ *)

Definition NAMESPACE : string :=
  "https://github.com/jeremyschulman/lxml-xpath-ipaddress".

(** [bool(x)] for an instance of an [ipaddress] class: the classes define
    neither [__bool__] nor [__len__], so every instance is true. *)
Definition py_bool {A : Type} (x : A) : bool := true.

(** The loop shared by the predicates and [ip_only]:
<<
    for test in tests:
        try:
            return test(value)
        except:
            pass
    after
>>
    The first test that does not raise decides the result. *)
Fixpoint for_test_in {A : Type} (tests : list (pystr -> result A))
         (value : pystr) (after : result A) : result A :=
  match tests with
  | [] => after
  | test :: rest =>
      try_except (test value) bare_except (for_test_in rest value after)
  end.

(** ** IPv4 functions *)

Definition is_any_ip4 (value : pystr) : result pyval :=
  for_test_in
    [ (fun x => n <- ipaddress.IPv4Network x ;; Ok (PyBool (py_bool n)));
      (fun x => i <- ipaddress.IPv4Interface x ;; Ok (PyBool (py_bool i)));
      (fun x => a <- ipaddress.IPv4Address x ;; Ok (PyBool (py_bool a))) ]
    value
    (Ok (PyBool false)).

Definition is_net_ip4 (value : pystr) : result pyval :=
  for_test_in
    [ (fun x => n <- ipaddress.IPv4Network x ;;
                Ok (PyBool (negb (ipaddress._prefixlen n =? 32))));
      (fun x => i <- ipaddress.IPv4Interface x ;;
                Ok (PyBool (negb (ipaddress.if_prefixlen i =? 32)))) ]
    value
    (Ok (PyBool false)).

Definition is_host_ip4 (value : pystr) : result pyval :=
  try_except
    (a <- ipaddress.IPv4Address value ;; Ok (PyBool (py_bool a)))
    bare_except
    (Ok (PyBool false)).

(** ** IPv6 functions *)

Definition is_any_ip6 (value : pystr) : result pyval :=
  for_test_in
    [ (fun x => n <- ipaddress.IPv6Network x ;; Ok (PyBool (py_bool n)));
      (fun x => i <- ipaddress.IPv6Interface x ;; Ok (PyBool (py_bool i)));
      (fun x => a <- ipaddress.IPv6Address x ;; Ok (PyBool (py_bool a))) ]
    value
    (Ok (PyBool false)).

(** The body ends after the [try] statement, without a [return]: when the
    constructor raises, the call evaluates to [None]. *)
Definition is_host_ip6 (value : pystr) : result pyval :=
  try_except
    (a <- ipaddress.IPv6Address value ;; Ok (PyBool (py_bool a)))
    bare_except
    (Ok PyNone).

Definition is_net_ip6 (value : pystr) : result pyval :=
  for_test_in
    [ (fun x => n <- ipaddress.IPv6Network x ;;
                Ok (PyBool (negb (ipaddress._prefixlen n =? 128))));
      (fun x => i <- ipaddress.IPv6Interface x ;;
                Ok (PyBool (negb (ipaddress.if_prefixlen i =? 128)))) ]
    value
    (Ok (PyBool false)).

(** ** IP any family *)

Definition is_any_ip (value : pystr) : result pyval :=
  py_or (is_any_ip4 value) (is_any_ip6 value).

Definition is_host_ip (value : pystr) : result pyval :=
  py_or (is_host_ip4 value) (is_host_ip6 value).

Definition is_net_ip (value : pystr) : result pyval :=
  py_or (is_net_ip4 value) (is_net_ip6 value).

(** [ip_only] returns a [str], or [None] when nothing parses. *)
Definition ip_only (value : pystr) : result pystr :=
  for_test_in
    [ (fun x => a <- ipaddress.ip_address x ;;
                s <- ipaddress.address_str a ;; Ok (Some s));
      (fun x => i <- ipaddress.ip_interface x ;;
                a <- ipaddress.ip i ;;
                s <- ipaddress.address_str a ;; Ok (Some s));
      (fun x => n <- ipaddress.ip_network x true ;;
                s <- ipaddress.address_str (ipaddress.network_address n) ;;
                Ok (Some s)) ]
    value
    (Ok None).

(** ** The memoised subnet conversion *)

(** The subnet argument, a string, as [lru_cache] tells strings apart: an
    instance of [str] itself, which a Python caller passes, or an instance of
    a subclass of [str], which is what lxml hands to a bound function for a
    string of the XPath expression (its smart strings).  The two read the
    same: [str(subnet)] is the text. *)
Inductive str_arg : Type :=
| ExactStr (s : string)
| SubclassStr (s : string).

Definition str_of (x : str_arg) : string :=
  match x with
  | ExactStr s | SubclassStr s => s
  end.

(** The keys of the cache. *)
Inductive cache_key : Type :=
| KeyStr (s : string)
| KeyArgs (s : string).

(** [functools._make_key] for the one positional argument of [_to_subnet],
    untyped and without keywords: an argument whose type is exactly [str] is
    its own key, any other argument is keyed by the tuple of arguments
    [(subnet,)]. *)
Definition _make_key (subnet : str_arg) : cache_key :=
  match subnet with
  | ExactStr s => KeyStr s
  | SubclassStr s => KeyArgs s
  end.

(** Equality of keys, as the dictionary of the cache decides it: a string
    never equals a tuple, two strings are equal when their texts are, and so
    are two one-element tuples of strings. *)
Definition key_eqb (a b : cache_key) : bool :=
  match a, b with
  | KeyStr s, KeyStr t | KeyArgs s, KeyArgs t => String.eqb s t
  | _, _ => false
  end.

(** The store of [functools.lru_cache()]: the keys with their results, most
    recently used first, at most [maxsize] of them.  A call that raises
    stores nothing. *)
Definition lru_store : Type := list (cache_key * ipaddress.IPNetwork).

Definition maxsize : nat := 128.

Fixpoint cache_lookup (key : cache_key) (cache : lru_store) : option ipaddress.IPNetwork :=
  match cache with
  | [] => None
  | (k, v) :: rest => if key_eqb k key then Some v else cache_lookup key rest
  end.

Fixpoint cache_remove (key : cache_key) (cache : lru_store) : lru_store :=
  match cache with
  | [] => []
  | (k, v) :: rest =>
      if key_eqb k key then cache_remove key rest
      else (k, v) :: cache_remove key rest
  end.

Definition _to_subnet (subnet : str_arg) (cache : lru_store)
  : result ipaddress.IPNetwork * lru_store :=
  let key := _make_key subnet in
  match cache_lookup key cache with
  | Some net => (Ok net, (key, net) :: cache_remove key cache)
  | None =>
      match ipaddress.ip_network (Some (str_of subnet)) true with
      | Ok net => (Ok net, firstn maxsize ((key, net) :: cache))
      | Raise e => (Raise e, cache)
      end
  end.

(** [in_subnet]: the left operand of [in] is evaluated first, so a value
    that yields no address leaves the cache untouched. *)
Definition in_subnet (value : pystr) (subnet : str_arg) (cache : lru_store)
  : result pyval * lru_store :=
  match (only <- ip_only value ;; ipaddress.ip_address only) with
  | Raise _ => (Ok (PyBool false), cache)
  | Ok addr =>
      match _to_subnet subnet cache with
      | (Ok net, cache') => (Ok (PyBool (ipaddress.__contains__ net addr)), cache')
      | (Raise _, cache') => (Ok (PyBool false), cache')
      end
  end.

(** ** The functions bound into the lxml namespace *)

(** An item of the node-set lxml hands to an extension function: an element,
    whose [text] is a [str] or [None], or a string result, which has no
    [text] attribute. *)
Inductive xpath_item : Type :=
| Element (text : pystr)
| SmartString (s : string).

(** The argument of a bound function. *)
Inductive xpath_value : Type :=
| XNodeSet (items : list xpath_item)
| XString (s : string)
| XNumber (n : Z)
| XBoolean (b : bool)
| XNone.

(** [ele[0].text]. *)
Definition first_text (ele : xpath_value) : result pystr :=
  match ele with
  | XNodeSet [] => Raise IndexError
  | XNodeSet (Element text :: _) => Ok text
  | XNodeSet (SmartString _ :: _) => Raise AttributeError
  | XString s => if String.eqb s "" then Raise IndexError else Raise AttributeError
  | XNumber _ | XBoolean _ | XNone => Raise TypeError
  end.

Definition make_nsf {C : Type} (func : pystr -> result pyval)
  : C -> xpath_value -> result pyval :=
  fun dummy ele =>
    try_except (text <- first_text ele ;; func text) bare_except (Ok (PyBool false)).

(** [nsf_in_subnet]: the subnet is handed on to [in_subnet] as lxml passed
    it. *)
Definition nsf_in_subnet {C : Type} (dummy : C) (ele : xpath_value) (subnet : str_arg)
           (cache : lru_store) : result pyval * lru_store :=
  match first_text ele with
  | Raise _ => (Ok (PyBool false), cache)
  | Ok value =>
      match in_subnet value subnet cache with
      | (Ok r, cache') => (Ok r, cache')
      | (Raise _, cache') => (Ok (PyBool false), cache')
      end
  end.

(** The entries of [_ns_ext] made with [make_nsf]: the XPath name and the
    predicate whose wrapper is registered under it.  The tenth entry,
    ["in-subnet"], is [nsf_in_subnet] itself. *)
Definition _ns_ext_predicates : list (string * (pystr -> result pyval)) :=
  [ ("ip-any", is_any_ip);
    ("ip-host", is_host_ip);
    ("ip-net", is_net_ip);
    ("ip6-any", is_any_ip6);
    ("ip6-net", is_net_ip6);
    ("ip6-host", is_host_ip6);
    ("ip4-any", is_any_ip4);
    ("ip4-net", is_net_ip4);
    ("ip4-host", is_host_ip4) ].

Import ipaddress.

(* ------------------------------------------------------------------------ *)
(** * Notions used in the statements *)
(* ------------------------------------------------------------------------ *)

(** The steps the network and the interface constructors share: split at the
    slash, read the address, read the mask. *)
Definition parsed_parts (cls : family) (value : pystr)
  : result (IPAddress * IPAddress * Z) :=
  '(addr, mask) <- _split_addr_prefix cls (ArgStr value) ;;
  a <- address_class cls (Some addr) ;;
  '(netmask, prefixlen) <- _make_netmask cls mask ;;
  Ok (a, netmask, prefixlen).

(** The address has bits set below the prefix. *)
Definition has_host_bits (a netmask : IPAddress) : bool :=
  negb (Z.land (_ip a) (_ip netmask) =? _ip a).

(** The address with its host bits cleared: the base address of the network
    it lies in. *)
Definition masked (cls : family) (a netmask : IPAddress) : IPAddress :=
  Address cls (Z.land (_ip a) (_ip netmask)) None.

(** The "any" test of a family, as both [is_any_ip4] and [is_any_ip6] spell
    it out. *)
Definition any_test (cls : family) (value : pystr) : result pyval :=
  for_test_in
    [ (fun x => n <- network_class cls (ArgStr x) true ;; Ok (PyBool (py_bool n)));
      (fun x => i <- interface_class cls x ;; Ok (PyBool (py_bool i)));
      (fun x => a <- address_class cls x ;; Ok (PyBool (py_bool a))) ]
    value (Ok (PyBool false)).

(** The "net" test of a family. *)
Definition net_test (cls : family) (value : pystr) : result pyval :=
  for_test_in
    [ (fun x => n <- network_class cls (ArgStr x) true ;;
                Ok (PyBool (negb (_prefixlen n =? _max_prefixlen cls))));
      (fun x => i <- interface_class cls x ;;
                Ok (PyBool (negb (if_prefixlen i =? _max_prefixlen cls)))) ]
    value (Ok (PyBool false)).

(** The number of an address fits the width of its family. *)
Definition valid_address (a : IPAddress) : Prop :=
  0 <= _ip a <= _ALL_ONES (cls_of a).

(** [str(a)] as a total function; it agrees with [address_str] on valid
    addresses ([address_str_text]). *)
Definition address_text (a : IPAddress) : string :=
  match address_str a with
  | Ok s => s
  | Raise _ => EmptyString
  end.

(** The [ip] of an interface: the same number, without a scope id. *)
Definition interface_ip (i : IPInterface) : IPAddress :=
  Address (cls_of (if_address i)) (_ip (if_address i)) None.

(** The text of the argument a key was made from. *)
Definition key_text (k : cache_key) : string :=
  match k with
  | KeyStr s | KeyArgs s => s
  end.

(** Every stored entry is what [ip_network] answers on the text of its
    key. *)
Definition cache_ok (cache : lru_store) : Prop :=
  Forall (fun kv => ip_network (Some (key_text (fst kv))) true = Ok (snd kv)) cache.

(** The answer of [in_subnet], computed without a cache. *)
Definition in_subnet_answer (value : pystr) (subnet : string) : bool :=
  match (only <- ip_only value ;; ip_address only) with
  | Ok addr =>
      match ip_network (Some subnet) true with
      | Ok net => __contains__ net addr
      | Raise _ => false
      end
  | Raise _ => false
  end.

(** Some constructor of [ipaddress] accepts the text. *)
Definition parses_as_ip_form (value : pystr) : bool :=
  is_Ok (IPv4Address value) || is_Ok (IPv4Network value)
  || is_Ok (IPv4Interface value)
  || is_Ok (IPv6Address value) || is_Ok (IPv6Network value)
  || is_Ok (IPv6Interface value).

(** A returned value is a boolean or [None]. *)
Definition bool_or_None (v : pyval) : Prop :=
  v = PyNone \/ exists b, v = PyBool b.

(** The states the cache can be in: empty when the module is loaded, then
    whatever calls of [in_subnet] leave behind, made by a Python caller or
    through the bound [in-subnet], with a subnet of either kind. *)
Inductive reachable : lru_store -> Prop :=
| reachable_init : reachable []
| reachable_call (value : pystr) (subnet : str_arg) (cache : lru_store) :
    reachable cache -> reachable (snd (in_subnet value subnet cache)).

(** The interface a parsed text denotes. *)
Definition interface_of (cls : family) (a m : IPAddress) (p : Z) : IPInterface :=
  Interface a
    (Network cls (if has_host_bits a m then masked cls a m else a) m p) m p.

(** What is needed of the text of one octet. *)
Definition octet_text_ok (o : Z) : bool :=
  let s := str_of_int o in
  match _BaseV4._parse_octet s with
  | Ok o' => o' =? o
  | Raise _ => false
  end
  && negb (str_contains "." s) && negb (str_contains "/" s)
  && negb (String.eqb s "").

(** Checking a decidable property on the [k] integers from [z] on. *)
Fixpoint check_from (P : Z -> bool) (k : nat) (z : Z) : bool :=
  match k with
  | O => true
  | S k' => P z && check_from P k' (z + 1)
  end.

(** What is needed of the text of one hextet. *)
Definition hextet_text_ok (h : Z) : bool :=
  let s := hex_of_int h in
  match _BaseV6._parse_hextet s with
  | Ok h' => h' =? h
  | Raise _ => false
  end
  && negb (str_contains ":" s) && negb (str_contains "." s)
  && negb (str_contains "/" s) && negb (str_contains "%" s)
  && negb (String.eqb s "")
  && Bool.eqb (String.eqb s "0") (h =? 0).

(** The run the scan is in ends where the scanned prefix ends. *)
Definition current_run (pre : list string) (st : _BaseV6.run_state) : Prop :=
  (_BaseV6.doublecolon_len st = 0 /\ _BaseV6.doublecolon_start st = -1) \/
  (1 <= _BaseV6.doublecolon_len st /\
   exists A,
     pre = (A ++ repeat "0" (Z.to_nat (_BaseV6.doublecolon_len st)))%list /\
     Z.of_nat (List.length A) = _BaseV6.doublecolon_start st).

(** The best run so far is a run of zeros inside the scanned prefix. *)
Definition best_run (pre : list string) (st : _BaseV6.run_state) : Prop :=
  _BaseV6.best_doublecolon_len st = 0 \/
  (1 <= _BaseV6.best_doublecolon_len st /\
   exists A B,
     pre = (A ++ repeat "0" (Z.to_nat (_BaseV6.best_doublecolon_len st)) ++ B)%list /\
     Z.of_nat (List.length A) = _BaseV6.best_doublecolon_start st).

(** The empty part put before a leading [::] and after a trailing one. *)
Definition edge (l : list string) : list string :=
  match l with
  | [] => [""]
  | _ :: _ => []
  end.

(** The text is not the empty string. *)
Definition nonempty (s : string) : Prop := String.eqb s "" = false.

(** The texts of hextets. *)
Definition hextet_texts (hs : list Z) : list string := map hex_of_int hs.

(** A hextet is a 16-bit number. *)
Definition in_hextet_range (h : Z) : Prop := 0 <= h < 2 ^ 16.

(** The number a list of hextets stands for, most significant first, on top
    of what was accumulated before. *)
Definition accumulate (hs : list Z) (acc : Z) : Z :=
  fold_left (fun a b => a * 2 ^ 16 + b) hs acc.

(** The characters of a dotted quad. *)
Definition is_digit_or_dot (c : ascii) : bool :=
  is_decimal_digit c || Ascii.eqb c ".".

(** An address as the constructors build it: its number fits the family,
    and a scope id, which only IPv6 has, is non-empty and free of percent
    signs and slashes. *)
Definition printable (a : IPAddress) : Prop :=
  valid_address a /\
  match _scope_id a with
  | None => True
  | Some scope =>
      cls_of a = V6 /\ String.eqb scope "" = false /\
      str_contains "%" scope = false /\ str_contains "/" scope = false
  end.

(** The address [ip_only] extracts: the address itself, else the address
    part of the interface. *)
Definition extracted_address (value : pystr) : option IPAddress :=
  match ip_address value with
  | Ok a => Some a
  | Raise _ =>
      match ip_interface value with
      | Ok i => Some (interface_ip i)
      | Raise _ => None
      end
  end.

(** The names of [_ns_ext] whose predicate ends in [is_host_ip6]. *)
Definition answers_through_is_host_ip6 (name : string) : bool :=
  String.eqb name "ip6-host" || String.eqb name "ip-host".

(** The text reads as a form of the family with a prefix shorter than the
    full length: what the "net" test of the family asks. *)
Definition short_prefix (cls : family) (value : pystr) : bool :=
  match parsed_parts cls value with
  | Ok (_, _, p) => negb (p =? _max_prefixlen cls)
  | Raise _ => false
  end.

(* ------------------------------------------------------------------------ *)
(** * Reasoning about raising computations *)
(* ------------------------------------------------------------------------ *)

(** Bit operations and powers stay folded under [simpl]. *)
#[local] Arguments Z.shiftl : simpl never.
#[local] Arguments Z.shiftr : simpl never.
#[local] Arguments Z.land : simpl never.
#[local] Arguments Z.lor : simpl never.
#[local] Arguments Z.lxor : simpl never.
#[local] Arguments Z.pow : simpl never.
#[local] Arguments Z.mul : simpl never.
#[local] Arguments Z.add : simpl never.
#[local] Arguments Z.sub : simpl never.
#[local] Arguments Z.of_nat : simpl never.

Lemma bind_Ok_inv {A B : Type} (r : result A) (k : A -> result B) (b : B) :
  bind r k = Ok b -> exists a, r = Ok a /\ k a = Ok b.
Proof.
  destruct r as [a | e]; simpl; intros H.
  - exists a. split; [reflexivity | exact H].
  - discriminate H.
Qed.

Lemma bind_Raise_inv {A B : Type} (r : result A) (k : A -> result B) (e : exn) :
  bind r k = Raise e -> r = Raise e \/ exists a, r = Ok a /\ k a = Raise e.
Proof.
  destruct r as [a | e']; simpl; intros H.
  - right. exists a. split; [reflexivity | exact H].
  - left. inversion H. reflexivity.
Qed.

Lemma try_except_Ok_inv {A : Type} (body : result A) caught handler (a : A) :
  try_except body caught handler = Ok a ->
  body = Ok a \/ exists e, body = Raise e /\ caught e = true /\ handler = Ok a.
Proof.
  destruct body as [x | e]; simpl; intros H.
  - left. exact H.
  - right. exists e. destruct (caught e); [auto | discriminate H].
Qed.

Lemma try_except_bare {A : Type} (body handler : result A) :
  try_except body bare_except handler =
  match body with Ok a => Ok a | Raise _ => handler end.
Proof. destruct body; reflexivity. Qed.

(** Decomposes hypotheses that say a sequence of steps returned. *)
Ltac inv_ok :=
  repeat match goal with
  | H : bind _ _ = Ok _ |- _ =>
      let a := fresh "a" in
      let Ha := fresh "Ha" in
      apply bind_Ok_inv in H; destruct H as [a [Ha H]]
  | H : Ok _ = Ok _ |- _ => injection H; clear H; intros; subst
  | H : Raise _ = Ok _ |- _ => discriminate H
  | H : Ok _ = Raise _ |- _ => discriminate H
  | H : (let '(_, _) := ?p in _) = _ |- _ => destruct p
  end.

(* ------------------------------------------------------------------------ *)
(** * The integers the parsers produce *)
(* ------------------------------------------------------------------------ *)

Lemma digit_value_range (c : ascii) (d : Z) :
  digit_value c = Some d -> 0 <= d < 16.
Proof.
  unfold digit_value. intros H.
  repeat match type of H with
  | (if ?b then _ else _) = _ => destruct b eqn:?
  end; inversion H; subst; lia.
Qed.

(** Reading digits extends the accumulator by one base-[base] digit per
    character. *)
Lemma int_loop_bounds (base : Z) (s : string) :
  1 <= base ->
  forall acc r, 0 <= acc -> int_loop base s acc = Ok r ->
  acc * base ^ Z.of_nat (String.length s) <= r
  < (acc + 1) * base ^ Z.of_nat (String.length s).
Proof.
  intros Hb. induction s as [| c s IH]; intros acc r Hacc H.
  - simpl in *. inversion H; subst. lia.
  - simpl in H. destruct (digit_value c) as [d |] eqn:Hd; [| discriminate].
    destruct (d <? base) eqn:Hlt; [| discriminate].
    apply Z.ltb_lt in Hlt. apply digit_value_range in Hd.
    apply IH in H; [| nia].
    cbn [String.length]. rewrite Nat2Z.inj_succ, Z.pow_succ_r by lia.
    assert (0 < base ^ Z.of_nat (String.length s)) by (apply Z.pow_pos_nonneg; lia).
    nia.
Qed.

Lemma py_int_bounds (base : Z) (s : string) (r : Z) :
  1 <= base -> py_int s base = Ok r ->
  0 <= r < base ^ Z.of_nat (String.length s).
Proof.
  unfold py_int. intros Hb H. destruct (String.eqb s ""); [discriminate |].
  destruct (negb _ && _); [discriminate |].
  apply int_loop_bounds in H; lia.
Qed.

(** A decimal text of more than 4300 characters is refused, whatever it
    holds; a hexadecimal one is not limited. *)
Lemma py_int_digit_limit (s : string) :
  int_max_str_digits < Z.of_nat (String.length s) -> py_int s 10 = Raise ValueError.
Proof.
  intros H. unfold py_int.
  destruct (String.eqb s ""); [reflexivity |].
  apply Z.ltb_lt in H. rewrite H. reflexivity.
Qed.

Lemma log2_below (x n : Z) : 0 < n -> 0 <= x < 2 ^ n -> Z.log2 x < n.
Proof.
  intros Hn Hx. destruct (Z.eq_dec x 0) as [-> | Hx0].
  - exact Hn.
  - apply Z.log2_lt_pow2; lia.
Qed.

Lemma lor_below_pow2 (a b n : Z) :
  0 <= n -> 0 <= a < 2 ^ n -> 0 <= b < 2 ^ n -> 0 <= Z.lor a b < 2 ^ n.
Proof.
  intros Hn Ha Hb.
  assert (Hnn : 0 <= Z.lor a b) by (apply Z.lor_nonneg; lia).
  split; [exact Hnn |].
  destruct (Z.eq_dec n 0) as [-> | Hn0].
  - assert (a = 0) by (simpl in *; lia). assert (b = 0) by (simpl in *; lia).
    subst. reflexivity.
  - destruct (Z.eq_dec (Z.lor a b) 0) as [E | E].
    + rewrite E. apply Z.pow_pos_nonneg; lia.
    + apply Z.log2_lt_pow2; [lia |].
      rewrite Z.log2_lor by lia.
      apply Z.max_lub_lt; apply log2_below; lia.
Qed.

Lemma map_result_Ok {A B : Type} (f : A -> result B) (P : B -> Prop) :
  (forall x y, f x = Ok y -> P y) ->
  forall l ys, map_result f l = Ok ys ->
  Forall P ys /\ List.length ys = List.length l.
Proof.
  intros Hf. induction l as [| x l IH]; intros ys H; simpl in H.
  - inversion H; subst. split; [constructor | reflexivity].
  - inv_ok. apply IH in Ha0. destruct Ha0 as [HP Hlen]. split.
    + constructor; [eapply Hf; eassumption | exact HP].
    + simpl. congruence.
Qed.

Lemma parse_octet_range (s : string) (x : Z) :
  _BaseV4._parse_octet s = Ok x -> 0 <= x <= 255.
Proof.
  unfold _BaseV4._parse_octet. intros H.
  repeat match type of H with
  | (if ?b then _ else _) = _ => destruct b; [discriminate |]
  end.
  inv_ok. destruct (a >? 255) eqn:E; [discriminate |]. inv_ok.
  apply py_int_bounds in Ha; lia.
Qed.

(** An IPv4 address read from text is a 32-bit number. *)
Lemma v4_ip_int_range (s : string) (n : Z) :
  _BaseV4._ip_int_from_string s = Ok n -> 0 <= n < 2 ^ 32.
Proof.
  unfold _BaseV4._ip_int_from_string. intros H.
  destruct (String.eqb s ""); [discriminate |].
  destruct (negb _) eqn:Hlen; [discriminate |].
  apply negb_false_iff, Nat.eqb_eq in Hlen.
  apply try_except_Ok_inv in H. destruct H as [H | [e [_ [_ H]]]]; [| discriminate].
  inv_ok.
  apply (map_result_Ok _ (fun x => 0 <= x <= 255) parse_octet_range) in Ha.
  destruct Ha as [HP Hl]. rewrite Hlen in Hl.
  destruct a as [| o1 [| o2 [| o3 [| o4 [| ? ?]]]]]; try discriminate Hl.
  repeat match goal with H : Forall _ (_ :: _) |- _ => inversion H; subst; clear H end.
  unfold int_from_bytes. simpl. lia.
Qed.

Lemma IPv4Address_inv (value : pystr) (a : IPAddress) :
  IPv4Address value = Ok a ->
  str_contains "/" (py_str value) = false /\
  cls_of a = V4 /\ _scope_id a = None /\
  _BaseV4._ip_int_from_string (py_str value) = Ok (_ip a) /\
  0 <= _ip a < 2 ^ 32.
Proof.
  unfold IPv4Address. intros H.
  destruct (str_contains "/" (py_str value)) eqn:Hs; [discriminate |].
  inv_ok. simpl. pose proof (v4_ip_int_range _ _ Ha). auto.
Qed.

Lemma parse_hextet_range (s : string) (x : Z) :
  _BaseV6._parse_hextet s = Ok x -> 0 <= x < 2 ^ 16.
Proof.
  unfold _BaseV6._parse_hextet. intros H.
  destruct (negb _); [discriminate |].
  destruct (4 <? _) eqn:Hlen; [discriminate |].
  apply Z.ltb_ge in Hlen.
  apply py_int_bounds in H; [| lia].
  assert (16 ^ Z.of_nat (String.length s) <= 16 ^ 4)
    by (apply Z.pow_le_mono_r; lia).
  change (2 ^ 16) with (16 ^ 4). lia.
Qed.

(** Each hextet read shifts sixteen more bits into the accumulator. *)
Lemma parse_hextets_range (parts : list string) :
  forall acc k r, 0 <= k -> 0 <= acc < 2 ^ (16 * k) ->
  _BaseV6._parse_hextets parts acc = Ok r ->
  0 <= r < 2 ^ (16 * (k + Z.of_nat (List.length parts))).
Proof.
  induction parts as [| p parts IH]; intros acc k r Hk Hacc H; simpl in H.
  - inv_ok. simpl. rewrite Z.add_0_r. exact Hacc.
  - inv_ok. apply parse_hextet_range in Ha.
    apply (IH _ (k + 1)) in H; [| lia |].
    + cbn [List.length]. rewrite Nat2Z.inj_succ.
      replace (k + Z.succ (Z.of_nat (List.length parts)))
        with (k + 1 + Z.of_nat (List.length parts)) by lia.
      exact H.
    + assert (Hp : 2 ^ 16 <= 2 ^ (16 * (k + 1))) by (apply Z.pow_le_mono_r; lia).
      apply lor_below_pow2; [lia | | lia].
      rewrite Z.shiftl_mul_pow2 by lia.
      replace (16 * (k + 1)) with (16 * k + 16) by lia.
      rewrite Z.pow_add_r by lia. nia.
Qed.

Lemma find_skip_index_range (middle : list string) :
  forall i skip0 k,
  _BaseV6._find_skip_index middle i skip0 = Ok (Some k) ->
  skip0 = Some k \/ i <= k < i + Z.of_nat (List.length middle).
Proof.
  induction middle as [| part rest IH]; intros i skip0 k H; simpl in H.
  - inv_ok. left. reflexivity.
  - cbn [List.length]. rewrite Nat2Z.inj_succ.
    destruct (String.eqb part "").
    + destruct skip0; [discriminate |].
      apply IH in H. destruct H as [H | H]; [inversion H; subst |]; right; lia.
    + apply IH in H. destruct H as [H | H]; [left; exact H | right; lia].
Qed.

Lemma length_removelast_tl {A : Type} (l : list A) :
  Z.of_nat (List.length (removelast (tl l))) = Z.max 0 (Z.of_nat (List.length l) - 2).
Proof.
  destruct l as [| x l]; [reflexivity |]. cbn [tl].
  destruct l as [| y l]; [reflexivity |].
  assert (E : List.length (removelast (y :: l)) = List.length l).
  { clear x. revert y. induction l as [| z l IH]; intros y; [reflexivity |].
    change (removelast (y :: z :: l)) with (y :: removelast (z :: l)).
    cbn [List.length]. rewrite IH. reflexivity. }
  rewrite E. cbn [List.length]. lia.
Qed.

(** An IPv6 address read from text is a 128-bit number. *)
Lemma v6_ip_int_range (s : string) (n : Z) :
  _BaseV6._ip_int_from_string s = Ok n -> 0 <= n < 2 ^ 128.
Proof.
  unfold _BaseV6._ip_int_from_string, _BaseV6._HEXTET_COUNT. intros H.
  destruct (String.eqb s ""); [discriminate |]. cbv zeta in H.
  destruct (_ <? 3); [discriminate |].
  apply bind_Ok_inv in H. destruct H as [parts [_ H]].
  destruct (_ >? 8 + 1) eqn:Hmax; [discriminate |].
  apply bind_Ok_inv in H. destruct H as [skip [Hskip H]].
  apply bind_Ok_inv in H. destruct H as [[[hi lo] skipped] [Hsplit H]].
  apply try_except_Ok_inv in H. destruct H as [H | [e [_ [_ H]]]]; [| discriminate].
  apply bind_Ok_inv in H. destruct H as [high [Hhigh H]].
  set (len := Z.of_nat (List.length parts)) in *.
  assert (Hshape : 0 <= hi /\ 0 <= lo <= len /\ 0 <= skipped /\ hi + lo + skipped = 8).
  { destruct skip as [k |].
    - apply find_skip_index_range in Hskip.
      destruct Hskip as [Hskip | Hskip]; [discriminate |].
      rewrite length_removelast_tl in Hskip. fold len in Hskip.
      apply bind_Ok_inv in Hsplit. destruct Hsplit as [hi' [Hhi Hsplit]].
      apply bind_Ok_inv in Hsplit. destruct Hsplit as [lo' [Hlo Hsplit]].
      destruct (8 - (hi' + lo') <? 1) eqn:Hsk; [discriminate |].
      apply Z.ltb_ge in Hsk. inv_ok.
      assert (hi = k \/ hi = 0).
      { destruct (String.eqb (hd "" parts) "").
        - destruct (negb (k - 1 =? 0)) eqn:E; [discriminate |].
          apply negb_false_iff, Z.eqb_eq in E. inv_ok. right. lia.
        - inv_ok. left. reflexivity. }
      assert (lo = len - k - 1 \/ lo = 0).
      { destruct (String.eqb (last_part parts) "").
        - destruct (negb (len - k - 1 - 1 =? 0)) eqn:E; [discriminate |].
          apply negb_false_iff, Z.eqb_eq in E. inv_ok. right. lia.
        - inv_ok. left. reflexivity. }
      lia.
    - destruct (negb (len =? 8)) eqn:E; [discriminate |].
      apply negb_false_iff, Z.eqb_eq in E.
      destruct (String.eqb (hd "" parts) ""); [discriminate |].
      destruct (String.eqb (last_part parts) ""); [discriminate |].
      inv_ok. lia. }
  destruct Hshape as [Hhi [Hlo [Hsk Hsum]]].
  apply (parse_hextets_range _ _ 0) in Hhigh; [| lia | simpl; lia].
  assert (Hfirst : Z.of_nat (List.length (firstn (Z.to_nat hi) parts)) <= hi).
  { rewrite length_firstn. lia. }
  assert (Hlast : Z.of_nat (List.length (skipn (Z.to_nat (len - lo)) parts)) = lo).
  { rewrite length_skipn. unfold len in *. lia. }
  apply (parse_hextets_range _ _ (hi + skipped)) in H; [| lia |].
  - rewrite Hlast in H. replace (hi + skipped + lo) with 8 in H by lia. exact H.
  - rewrite Z.shiftl_mul_pow2 by lia.
    assert (2 ^ (16 * (0 + Z.of_nat (List.length (firstn (Z.to_nat hi) parts))))
            <= 2 ^ (16 * hi)) by (apply Z.pow_le_mono_r; lia).
    replace (16 * (hi + skipped)) with (16 * hi + 16 * skipped) by lia.
    rewrite Z.pow_add_r by lia.
    assert (0 < 2 ^ (16 * skipped)) by (apply Z.pow_pos_nonneg; lia).
    nia.
Qed.

Lemma IPv6Address_inv (value : pystr) (a : IPAddress) :
  IPv6Address value = Ok a ->
  str_contains "/" (py_str value) = false /\
  cls_of a = V6 /\ 0 <= _ip a < 2 ^ 128.
Proof.
  unfold IPv6Address. intros H.
  destruct (str_contains "/" (py_str value)) eqn:Hs; [discriminate |].
  apply bind_Ok_inv in H. destruct H as [[addr scope] [_ H]].
  inv_ok. simpl. pose proof (v6_ip_int_range _ _ Ha). auto.
Qed.

(** Whatever the family, a parsed address belongs to it, fits its width,
    and its text has no slash. *)
Lemma address_class_inv (cls : family) (value : pystr) (a : IPAddress) :
  address_class cls value = Ok a ->
  str_contains "/" (py_str value) = false /\
  cls_of a = cls /\ 0 <= _ip a <= _ALL_ONES cls.
Proof.
  destruct cls; simpl; intros H.
  - apply IPv4Address_inv in H. destruct H as [? [? [? [? ?]]]].
    unfold _ALL_ONES. simpl. repeat split; try assumption; lia.
  - apply IPv6Address_inv in H. destruct H as [? [? ?]].
    unfold _ALL_ONES. simpl. repeat split; try assumption; lia.
Qed.

Lemma address_of_int_Ok (cls : family) (n : Z) :
  0 <= n <= _ALL_ONES cls -> address_of_int cls n = Ok (Address cls n None).
Proof.
  intros H. unfold address_of_int, _check_int_address.
  destruct (n <? 0) eqn:E1; [apply Z.ltb_lt in E1; lia |].
  destruct (n >? _ALL_ONES cls) eqn:E2; [apply Z.gtb_lt in E2; lia |].
  reflexivity.
Qed.

Lemma check_from_spec (P : Z -> bool) (k : nat) :
  forall z, check_from P k z = true ->
  forall p, z <= p < z + Z.of_nat k -> P p = true.
Proof.
  induction k as [| k IH]; intros z H p Hp; [lia |].
  cbn [check_from] in H. apply andb_true_iff in H. destruct H as [Hz Hrest].
  destruct (Z.eq_dec p z) as [-> | Hne]; [exact Hz |].
  apply (IH (z + 1) Hrest). lia.
Qed.

(** The netmask of a prefix length: the top [prefixlen] bits of the width. *)
Lemma ip_int_from_prefix_spec (cls : family) (p : Z) :
  0 <= p <= _max_prefixlen cls ->
  _ip_int_from_prefix cls p
  = Z.ldiff (Z.ones (_max_prefixlen cls)) (Z.ones (_max_prefixlen cls - p)) /\
  0 <= _ip_int_from_prefix cls p <= _ALL_ONES cls.
Proof.
  intros Hp.
  pose (check := fun q =>
    (_ip_int_from_prefix cls q
       =? Z.ldiff (Z.ones (_max_prefixlen cls)) (Z.ones (_max_prefixlen cls - q)))
    && (0 <=? _ip_int_from_prefix cls q)
    && (_ip_int_from_prefix cls q <=? _ALL_ONES cls)).
  assert (H : check p = true).
  { apply (check_from_spec check (S (Z.to_nat (_max_prefixlen cls))) 0).
    - destruct cls; vm_compute; reflexivity.
    - destruct cls; cbn [_max_prefixlen] in *; lia. }
  unfold check in H.
  apply andb_true_iff in H. destruct H as [H H3].
  apply andb_true_iff in H. destruct H as [H1 H2].
  apply Z.eqb_eq in H1. apply Z.leb_le in H2, H3. auto.
Qed.

Lemma bit_length_nonneg (x : Z) : 0 <= bit_length x.
Proof.
  unfold bit_length. destruct (x =? 0); [lia |].
  pose proof (Z.log2_nonneg (Z.abs x)). lia.
Qed.

Lemma prefix_from_ip_int_range (cls : family) (n p : Z) :
  _prefix_from_ip_int cls n = Ok p -> 0 <= p <= _max_prefixlen cls.
Proof.
  unfold _prefix_from_ip_int, _count_righthand_zero_bits. cbv zeta.
  destruct (negb _); [discriminate |]. intros H. inv_ok.
  assert (0 <= _max_prefixlen cls) by (destruct cls; simpl; lia).
  destruct (n =? 0); [lia |].
  pose proof (bit_length_nonneg (Z.land (Z.lnot n) (n - 1))). lia.
Qed.

Lemma prefix_from_prefix_string_range (cls : family) (s : string) (p : Z) :
  _prefix_from_prefix_string cls s = Ok p -> 0 <= p <= _max_prefixlen cls.
Proof.
  unfold _prefix_from_prefix_string. destruct (negb _); [discriminate |].
  intros H. inv_ok.
  destruct (negb _) eqn:E; [discriminate |]. inv_ok.
  apply negb_false_iff, andb_true_iff in E. destruct E as [E1 E2].
  apply Z.leb_le in E1, E2. lia.
Qed.

(** A netmask that was accepted is the mask of its prefix length, and the
    prefix length does not exceed the width of the family. *)
Lemma make_netmask_inv (cls : family) (arg : mask_arg) (m : IPAddress) (p : Z) :
  _make_netmask cls arg = Ok (m, p) ->
  0 <= p <= _max_prefixlen cls /\
  m = Address cls (_ip_int_from_prefix cls p) None.
Proof.
  unfold _make_netmask. intros H.
  apply bind_Ok_inv in H. destruct H as [p' [Hp H]].
  assert (Hr : 0 <= p' <= _max_prefixlen cls).
  { destruct arg as [q | text].
    - destruct (negb _) eqn:E; [discriminate |]. inv_ok.
      apply negb_false_iff, andb_true_iff in E. destruct E as [E1 E2].
      apply Z.leb_le in E1, E2. lia.
    - destruct cls.
      + apply try_except_Ok_inv in Hp.
        destruct Hp as [Hp | [e [_ [_ Hp]]]].
        * eapply prefix_from_prefix_string_range; eassumption.
        * unfold _prefix_from_ip_string in Hp.
          apply bind_Ok_inv in Hp. destruct Hp as [n [_ Hp]].
          apply try_except_Ok_inv in Hp.
          destruct Hp as [Hp | [e1 [_ [_ Hp]]]].
          -- eapply prefix_from_ip_int_range; eassumption.
          -- apply try_except_Ok_inv in Hp.
             destruct Hp as [Hp | [e2 [_ [_ Hp]]]]; [| discriminate].
             eapply prefix_from_ip_int_range; eassumption.
      + eapply prefix_from_prefix_string_range; eassumption. }
  rewrite address_of_int_Ok in H by (apply ip_int_from_prefix_spec; exact Hr).
  simpl in H. inv_ok. auto.
Qed.

(** Masking with a prefix clears the low [k = width - prefixlen] bits. *)
Lemma land_netmask (a w k : Z) :
  0 <= k <= w -> 0 <= a < 2 ^ w ->
  Z.land a (Z.ldiff (Z.ones w) (Z.ones k)) = a - a mod 2 ^ k.
Proof.
  intros Hk Ha.
  rewrite Z.ldiff_land, Z.land_assoc, Z.land_ones by lia.
  rewrite Z.mod_small by lia.
  rewrite <- Z.ldiff_land, Z.ldiff_ones_r by lia.
  rewrite Z.shiftl_mul_pow2, Z.shiftr_div_pow2 by lia.
  assert (0 < 2 ^ k) by (apply Z.pow_pos_nonneg; lia).
  pose proof (Z.div_mod a (2 ^ k)). lia.
Qed.

Lemma land_prefix_mask (cls : family) (a p : Z) :
  0 <= p <= _max_prefixlen cls -> 0 <= a <= _ALL_ONES cls ->
  Z.land a (_ip_int_from_prefix cls p)
  = a - a mod 2 ^ (_max_prefixlen cls - p).
Proof.
  intros Hp Ha.
  destruct (ip_int_from_prefix_spec cls p Hp) as [-> _].
  apply land_netmask; [lia |]. unfold _ALL_ONES in Ha. lia.
Qed.

Lemma land_prefix_mask_range (cls : family) (a p : Z) :
  0 <= p <= _max_prefixlen cls -> 0 <= a <= _ALL_ONES cls ->
  0 <= Z.land a (_ip_int_from_prefix cls p) <= _ALL_ONES cls.
Proof.
  intros Hp Ha. rewrite land_prefix_mask by assumption.
  assert (0 < 2 ^ (_max_prefixlen cls - p)) by (apply Z.pow_pos_nonneg; lia).
  pose proof (Z.mod_pos_bound a (2 ^ (_max_prefixlen cls - p))).
  pose proof (Z.mod_le a (2 ^ (_max_prefixlen cls - p))). lia.
Qed.

(* ------------------------------------------------------------------------ *)
(** * Networks and interfaces read the same text the same way *)
(* ------------------------------------------------------------------------ *)

Lemma network_class_view (cls : family) (value : pystr) (strict : bool) :
  network_class cls (ArgStr value) strict =
  ('(a, netmask, p) <- parsed_parts cls value ;;
   if has_host_bits a netmask then
     if strict then Raise ValueError
     else Ok (Network cls (masked cls a netmask) netmask p)
   else Ok (Network cls a netmask p)).
Proof.
  unfold network_class, parsed_parts, has_host_bits, masked.
  destruct (_split_addr_prefix cls (ArgStr value)) as [[addr mask] | e]; simpl;
    [| reflexivity].
  destruct (address_class cls (Some addr)) as [a | e] eqn:Ha; simpl; [| reflexivity].
  destruct (_make_netmask cls mask) as [[m p] | e] eqn:Hm; simpl; [| reflexivity].
  destruct (negb _); [| reflexivity].
  destruct strict; [reflexivity |].
  apply address_class_inv in Ha. apply make_netmask_inv in Hm.
  destruct Hm as [Hp ->]. simpl.
  rewrite address_of_int_Ok by (apply land_prefix_mask_range; tauto).
  reflexivity.
Qed.

Lemma interface_class_view (cls : family) (value : pystr) :
  interface_class cls value =
  ('(a, netmask, p) <- parsed_parts cls value ;;
   Ok (Interface a
         (Network cls (if has_host_bits a netmask then masked cls a netmask else a)
                  netmask p)
         netmask p)).
Proof.
  unfold interface_class, network_class, parsed_parts, has_host_bits, masked.
  destruct (_split_addr_prefix cls (ArgStr value)) as [[addr mask] | e]; simpl;
    [| reflexivity].
  destruct (address_class cls (Some addr)) as [a | e] eqn:Ha; simpl; [| reflexivity].
  destruct (_make_netmask cls mask) as [[m p] | e] eqn:Hm; simpl; [| reflexivity].
  destruct (negb _); [| reflexivity].
  apply address_class_inv in Ha. apply make_netmask_inv in Hm.
  destruct Hm as [Hp ->]. simpl.
  rewrite address_of_int_Ok by (apply land_prefix_mask_range; tauto).
  reflexivity.
Qed.

(** What a parsed text is made of. *)
Lemma parsed_parts_inv (cls : family) (value : pystr) a netmask p :
  parsed_parts cls value = Ok (a, netmask, p) ->
  cls_of a = cls /\ 0 <= _ip a <= _ALL_ONES cls /\
  0 <= p <= _max_prefixlen cls /\
  netmask = Address cls (_ip_int_from_prefix cls p) None.
Proof.
  unfold parsed_parts. intros H.
  apply bind_Ok_inv in H. destruct H as [[addr mask] [_ H]].
  apply bind_Ok_inv in H. destruct H as [a' [Ha H]].
  apply bind_Ok_inv in H. destruct H as [[m q] [Hm H]].
  inv_ok. apply address_class_inv in Ha. apply make_netmask_inv in Hm.
  tauto.
Qed.

Lemma str_split_no_sep (c : ascii) (s : string) :
  str_contains c s = false -> str_split c s = [s].
Proof.
  induction s as [| d s IH]; simpl; intros H; [reflexivity |].
  apply orb_false_iff in H. destruct H as [Hd Hs].
  rewrite Hd, (IH Hs). reflexivity.
Qed.

Lemma str_split_length_pos (c : ascii) (s : string) :
  (1 <= List.length (str_split c s))%nat.
Proof.
  induction s as [| d s IH]; simpl; [lia |].
  destruct (Ascii.eqb d c); simpl; [lia |].
  destruct (str_split c s); simpl in *; lia.
Qed.

Lemma str_split_sep (c : ascii) (s : string) :
  str_contains c s = true -> (2 <= List.length (str_split c s))%nat.
Proof.
  induction s as [| d s IH]; simpl; intros H; [discriminate |].
  destruct (Ascii.eqb d c); simpl in *.
  - pose proof (str_split_length_pos c s). lia.
  - apply IH in H. destruct (str_split c s) as [| p ps]; simpl in *; lia.
Qed.

(** The constructors look at the text of their argument only. *)
Lemma address_class_py_str (cls : family) (value : pystr) :
  address_class cls (Some (py_str value)) = address_class cls value.
Proof. destruct cls; reflexivity. Qed.

(** A text without a slash is read as the address with the full prefix. *)
Lemma parsed_parts_bare (cls : family) (value : pystr) :
  str_contains "/" (py_str value) = false ->
  parsed_parts cls value =
  (a <- address_class cls value ;;
   Ok (a, Address cls (_ALL_ONES cls) None, _max_prefixlen cls)).
Proof.
  intros H. unfold parsed_parts, _split_addr_prefix, _split_optional_netmask.
  rewrite (str_split_no_sep _ _ H). simpl.
  rewrite address_class_py_str.
  destruct (address_class cls value) as [a | e]; [| reflexivity].
  destruct cls; reflexivity.
Qed.

(** A text with a slash is not an address. *)
Lemma address_class_slash (cls : family) (value : pystr) :
  str_contains "/" (py_str value) = true ->
  address_class cls value = Raise AddressValueError.
Proof.
  intros H. destruct cls; simpl; unfold IPv4Address, IPv6Address; rewrite H;
    reflexivity.
Qed.

(** A prefix shorter than the full width can only come from a slash. *)
Lemma parsed_parts_short_prefix (cls : family) (value : pystr) a netmask p :
  parsed_parts cls value = Ok (a, netmask, p) ->
  p <> _max_prefixlen cls ->
  str_contains "/" (py_str value) = true.
Proof.
  intros H Hp. destruct (str_contains "/" (py_str value)) eqn:E; [reflexivity |].
  rewrite (parsed_parts_bare _ _ E) in H. inv_ok. contradiction.
Qed.

(** An address is also a network and an interface with the full prefix. *)
Lemma parsed_parts_of_address (cls : family) (value : pystr) (a : IPAddress) :
  address_class cls value = Ok a ->
  parsed_parts cls value =
  Ok (a, Address cls (_ALL_ONES cls) None, _max_prefixlen cls).
Proof.
  intros H. pose proof (address_class_inv _ _ _ H) as [Hs _].
  rewrite (parsed_parts_bare _ _ Hs), H. reflexivity.
Qed.

(** With the full prefix every bit belongs to the network. *)
Lemma full_prefix_no_host_bits (cls : family) (value : pystr) a netmask :
  parsed_parts cls value = Ok (a, netmask, _max_prefixlen cls) ->
  has_host_bits a netmask = false.
Proof.
  intros H. apply parsed_parts_inv in H. destruct H as [_ [Ha [Hp ->]]].
  unfold has_host_bits. simpl.
  rewrite land_prefix_mask by assumption.
  rewrite Z.sub_diag, Z.pow_0_r, Z.mod_1_r, Z.sub_0_r, Z.eqb_refl. reflexivity.
Qed.

(* ------------------------------------------------------------------------ *)
(** * What the predicates compute *)
(* ------------------------------------------------------------------------ *)

Lemma is_any_ip4_any_test value : is_any_ip4 value = any_test V4 value.
Proof. reflexivity. Qed.

Lemma is_any_ip6_any_test value : is_any_ip6 value = any_test V6 value.
Proof. reflexivity. Qed.

Lemma is_net_ip4_net_test value : is_net_ip4 value = net_test V4 value.
Proof. reflexivity. Qed.

Lemma is_net_ip6_net_test value : is_net_ip6 value = net_test V6 value.
Proof. reflexivity. Qed.

(** "Any" holds exactly when the text reads as an address with an optional
    mask. *)
Lemma any_test_spec (cls : family) (value : pystr) :
  any_test cls value = Ok (PyBool (is_Ok (parsed_parts cls value))).
Proof.
  unfold any_test. simpl. rewrite !try_except_bare.
  rewrite network_class_view, interface_class_view.
  destruct (parsed_parts cls value) as [[[a m] p] | e] eqn:Hp; simpl.
  - destruct (has_host_bits a m); reflexivity.
  - destruct (address_class cls value) as [a | e'] eqn:Ha; simpl; [| reflexivity].
    rewrite (parsed_parts_of_address _ _ _ Ha) in Hp. discriminate.
Qed.

(** "Net" holds exactly when, in addition, the prefix is not the full
    width. *)
Lemma net_test_spec (cls : family) (value : pystr) :
  net_test cls value =
  match parsed_parts cls value with
  | Ok (_, _, p) => Ok (PyBool (negb (p =? _max_prefixlen cls)))
  | Raise _ => Ok (PyBool false)
  end.
Proof.
  unfold net_test. simpl. rewrite !try_except_bare.
  rewrite network_class_view, interface_class_view.
  destruct (parsed_parts cls value) as [[[a m] p] | e] eqn:Hp; simpl;
    [| reflexivity].
  destruct (has_host_bits a m); reflexivity.
Qed.

Lemma is_host_ip4_spec (value : pystr) :
  is_host_ip4 value = Ok (PyBool (is_Ok (IPv4Address value))).
Proof.
  unfold is_host_ip4. rewrite try_except_bare.
  destruct (IPv4Address value); reflexivity.
Qed.

(** [is_host_ip6] answers [True] or [None], never [False]. *)
Lemma is_host_ip6_spec (value : pystr) :
  is_host_ip6 value = Ok (if is_Ok (IPv6Address value) then PyBool true else PyNone).
Proof.
  unfold is_host_ip6. rewrite try_except_bare.
  destruct (IPv6Address value); reflexivity.
Qed.

Lemma network_class_inv (cls : family) (value : pystr) (n : IPNetwork) :
  network_class cls (ArgStr value) true = Ok n ->
  exists a m,
    parsed_parts cls value = Ok (a, m, _prefixlen n) /\
    has_host_bits a m = false /\
    n = Network cls a m (_prefixlen n).
Proof.
  rewrite network_class_view. intros H.
  apply bind_Ok_inv in H. destruct H as [[[a m] p] [Hp H]].
  destruct (has_host_bits a m) eqn:Hh; [discriminate |]. inv_ok.
  exists a, m. auto.
Qed.

Lemma interface_class_inv (cls : family) (value : pystr) (i : IPInterface) :
  interface_class cls value = Ok i ->
  exists m,
    parsed_parts cls value = Ok (if_address i, m, if_prefixlen i) /\
    if_netmask i = m /\
    network i = Network cls (if has_host_bits (if_address i) m
                             then masked cls (if_address i) m
                             else if_address i) m (if_prefixlen i).
Proof.
  rewrite interface_class_view. intros H.
  apply bind_Ok_inv in H. destruct H as [[[a m] p] [Hp H]]. inv_ok.
  exists m. auto.
Qed.

(** An interface that raises makes the strict network raise the same
    exception. *)
Lemma interface_class_raises (cls : family) (value : pystr) (e : exn) :
  interface_class cls value = Raise e ->
  forall strict, network_class cls (ArgStr value) strict = Raise e.
Proof.
  rewrite interface_class_view. intros H strict. rewrite network_class_view.
  destruct (parsed_parts cls value) as [[[a m] p] | e']; simpl in *;
    [discriminate | congruence].
Qed.

(** ** The host boundary, for either family *)

(** A network or interface text with the full prefix is "any" but not
    "net". *)
Lemma full_prefix_tests (cls : family) (value : pystr) :
  (exists n, network_class cls (ArgStr value) true = Ok n
             /\ _prefixlen n = _max_prefixlen cls) \/
  (exists i, interface_class cls value = Ok i
             /\ if_prefixlen i = _max_prefixlen cls) ->
  net_test cls value = Ok (PyBool false) /\
  any_test cls value = Ok (PyBool true).
Proof.
  intros H. rewrite net_test_spec, any_test_spec.
  assert (Hp : exists a m, parsed_parts cls value = Ok (a, m, _max_prefixlen cls)).
  { destruct H as [[n [Hn Hlen]] | [i [Hi Hlen]]].
    - apply network_class_inv in Hn. destruct Hn as [a [m [Hp _]]].
      rewrite Hlen in Hp. eauto.
    - apply interface_class_inv in Hi. destruct Hi as [m [Hp _]].
      rewrite Hlen in Hp. eauto. }
  destruct Hp as [a [m Hp]]. rewrite Hp. simpl. rewrite Z.eqb_refl. auto.
Qed.

(** A network text with a shorter prefix is "net", and is not an address. *)
Lemma short_prefix_tests (cls : family) (value : pystr) (n : IPNetwork) :
  network_class cls (ArgStr value) true = Ok n ->
  _prefixlen n < _max_prefixlen cls ->
  net_test cls value = Ok (PyBool true) /\
  address_class cls value = Raise AddressValueError.
Proof.
  intros Hn Hlen. apply network_class_inv in Hn. destruct Hn as [a [m [Hp _]]].
  split.
  - rewrite net_test_spec, Hp.
    destruct (Z.eqb_spec (_prefixlen n) (_max_prefixlen cls)); [lia | reflexivity].
  - apply address_class_slash.
    eapply parsed_parts_short_prefix; [eassumption | lia].
Qed.

(** The host boundary for IPv4. *)
Lemma is_net_ip4_full_prefix (value : pystr) :
  (exists n, IPv4Network value = Ok n /\ _prefixlen n = 32) \/
  (exists i, IPv4Interface value = Ok i /\ if_prefixlen i = 32) ->
  is_net_ip4 value = Ok (PyBool false) /\ is_any_ip4 value = Ok (PyBool true).
Proof. exact (full_prefix_tests V4 value). Qed.

Lemma is_net_ip4_short_prefix (value : pystr) (n : IPNetwork) :
  IPv4Network value = Ok n -> _prefixlen n < 32 ->
  is_net_ip4 value = Ok (PyBool true) /\ is_host_ip4 value = Ok (PyBool false).
Proof.
  intros Hn Hlen. destruct (short_prefix_tests V4 value n Hn Hlen) as [H1 H2].
  split; [exact H1 |]. rewrite is_host_ip4_spec. simpl in H2. rewrite H2.
  reflexivity.
Qed.

(** The host boundary for IPv6. *)
Lemma is_net_ip6_full_prefix (value : pystr) :
  (exists n, IPv6Network value = Ok n /\ _prefixlen n = 128) \/
  (exists i, IPv6Interface value = Ok i /\ if_prefixlen i = 128) ->
  is_net_ip6 value = Ok (PyBool false) /\ is_any_ip6 value = Ok (PyBool true).
Proof. exact (full_prefix_tests V6 value). Qed.

(** For IPv6 the "host" answer on a proper network is [None], not [False]. *)
Lemma is_net_ip6_short_prefix (value : pystr) (n : IPNetwork) :
  IPv6Network value = Ok n -> _prefixlen n < 128 ->
  is_net_ip6 value = Ok (PyBool true) /\ is_host_ip6 value = Ok PyNone.
Proof.
  intros Hn Hlen. destruct (short_prefix_tests V6 value n Hn Hlen) as [H1 H2].
  split; [exact H1 |]. rewrite is_host_ip6_spec. simpl in H2. rewrite H2.
  reflexivity.
Qed.

(* ------------------------------------------------------------------------ *)
(** * Printing addresses, and what [ip_only] returns *)
(* ------------------------------------------------------------------------ *)

Lemma address_str_text (a : IPAddress) :
  valid_address a -> address_str a = Ok (address_text a).
Proof.
  unfold valid_address, address_text, address_str. intros H.
  destruct (cls_of a); unfold _ALL_ONES in H; simpl in H.
  - unfold _BaseV4._string_from_ip_int, int_to_bytes.
    destruct (_ip a <? 0) eqn:E1; [apply Z.ltb_lt in E1; lia |].
    destruct (2 ^ (8 * Z.of_nat 4) <=? _ip a) eqn:E2;
      [apply Z.leb_le in E2; change (2 ^ (8 * Z.of_nat 4)) with (2 ^ 32) in E2; lia |].
    reflexivity.
  - unfold _BaseV6._string_from_ip_int.
    destruct (_ip a >? _ALL_ONES V6) eqn:E;
      [apply Z.gtb_lt in E; unfold _ALL_ONES in E; simpl in E; lia |].
    simpl. destruct (_scope_id a) as [scope |]; [| reflexivity].
    destruct (String.eqb scope ""); reflexivity.
Qed.

Lemma address_class_valid (cls : family) (value : pystr) (a : IPAddress) :
  address_class cls value = Ok a -> valid_address a.
Proof.
  intros H. apply address_class_inv in H. destruct H as [_ [Hc Hr]].
  unfold valid_address. rewrite Hc. exact Hr.
Qed.

Lemma ip_address_inv (value : pystr) (a : IPAddress) :
  ip_address value = Ok a -> address_class (cls_of a) value = Ok a.
Proof.
  unfold ip_address. intros H.
  apply try_except_Ok_inv in H. destruct H as [H | [e [_ [_ H]]]].
  - pose proof (IPv4Address_inv _ _ H) as [_ [Hc _]]. rewrite Hc. exact H.
  - apply try_except_Ok_inv in H. destruct H as [H | [e' [_ [_ H]]]]; [| discriminate].
    pose proof (IPv6Address_inv _ _ H) as [_ [Hc _]]. rewrite Hc. exact H.
Qed.

Lemma ip_interface_cases (value : pystr) (i : IPInterface) :
  ip_interface value = Ok i ->
  interface_class V4 value = Ok i \/
  exists e, interface_class V4 value = Raise e /\
            is_Address_or_Netmask_error e = true /\
            interface_class V6 value = Ok i.
Proof.
  unfold ip_interface. intros H.
  apply try_except_Ok_inv in H. destruct H as [H | [e [He [Hc H]]]].
  - left. exact H.
  - apply try_except_Ok_inv in H. destruct H as [H | [e' [_ [_ H]]]]; [| discriminate].
    right. exists e. auto.
Qed.

Lemma ip_interface_inv (value : pystr) (i : IPInterface) :
  ip_interface value = Ok i -> exists cls, interface_class cls value = Ok i.
Proof.
  intros H. apply ip_interface_cases in H.
  destruct H as [H | [e [_ [_ H]]]]; eauto.
Qed.

Lemma ip_network_inv (value : pystr) (n : IPNetwork) :
  ip_network value true = Ok n ->
  exists cls, network_class cls (ArgStr value) true = Ok n.
Proof.
  unfold ip_network. intros H.
  apply try_except_Ok_inv in H. destruct H as [H | [e [_ [_ H]]]].
  - exists V4. exact H.
  - apply try_except_Ok_inv in H. destruct H as [H | [e' [_ [_ H]]]]; [| discriminate].
    exists V6. exact H.
Qed.

(** A text that is no interface is no network either: the third strategy of
    [ip_only] never succeeds where the second has failed. *)
Lemma ip_interface_raises_ip_network (value : pystr) (e : exn) :
  ip_interface value = Raise e -> exists e', ip_network value true = Raise e'.
Proof.
  unfold ip_interface, ip_network, IPv4Interface, IPv6Interface. intros H.
  destruct (interface_class V4 value) as [i | e1] eqn:H4; [discriminate |].
  rewrite (interface_class_raises _ _ _ H4). simpl in *.
  destruct (is_Address_or_Netmask_error e1); [| eauto].
  destruct (interface_class V6 value) as [i | e2] eqn:H6; [discriminate |].
  rewrite (interface_class_raises _ _ _ H6). simpl.
  destruct (is_Address_or_Netmask_error e2); eauto.
Qed.

Lemma interface_address_valid (cls : family) (value : pystr) (i : IPInterface) :
  interface_class cls value = Ok i ->
  cls_of (if_address i) = cls /\ valid_address (if_address i).
Proof.
  intros H. apply interface_class_inv in H. destruct H as [m [Hp _]].
  apply parsed_parts_inv in Hp. destruct Hp as [Hc [Hr _]].
  unfold valid_address. rewrite Hc. auto.
Qed.

Lemma ip_interface_ip (value : pystr) (i : IPInterface) :
  ip_interface value = Ok i ->
  ip i = Ok (interface_ip i) /\ valid_address (interface_ip i).
Proof.
  intros H. apply ip_interface_inv in H. destruct H as [cls H].
  apply interface_address_valid in H. destruct H as [_ Hv].
  unfold ip, interface_ip. rewrite address_of_int_Ok by exact Hv. auto.
Qed.

(** [ip_only] in one equation: the address itself, else the address part of
    the interface, else [None]. *)
Lemma ip_only_spec (value : pystr) :
  ip_only value =
  Ok match ip_address value with
     | Ok a => Some (address_text a)
     | Raise _ =>
         match ip_interface value with
         | Ok i => Some (address_text (interface_ip i))
         | Raise _ => None
         end
     end.
Proof.
  unfold ip_only. simpl. rewrite !try_except_bare.
  destruct (ip_address value) as [a | e] eqn:Ha; simpl.
  - apply ip_address_inv, address_class_valid in Ha.
    rewrite (address_str_text _ Ha). reflexivity.
  - destruct (ip_interface value) as [i | e'] eqn:Hi; simpl.
    + destruct (ip_interface_ip _ _ Hi) as [-> Hv]. simpl.
      rewrite (address_str_text _ Hv). reflexivity.
    + destruct (ip_interface_raises_ip_network _ _ Hi) as [e'' ->]. reflexivity.
Qed.

(* ------------------------------------------------------------------------ *)
(** * Membership in a network *)
(* ------------------------------------------------------------------------ *)

(** The host mask of a prefix: the low [width - prefixlen] bits. *)
Lemma hostmask_spec (cls : family) (p : Z) :
  0 <= p <= _max_prefixlen cls ->
  Z.lxor (_ip_int_from_prefix cls p) (_ALL_ONES cls)
  = Z.ones (_max_prefixlen cls - p).
Proof.
  intros Hp.
  pose (check := fun q =>
    Z.lxor (_ip_int_from_prefix cls q) (_ALL_ONES cls)
      =? Z.ones (_max_prefixlen cls - q)).
  assert (H : check p = true).
  { apply (check_from_spec check (S (Z.to_nat (_max_prefixlen cls))) 0).
    - destruct cls; vm_compute; reflexivity.
    - destruct cls; cbn [_max_prefixlen] in *; lia. }
  apply Z.eqb_eq in H. exact H.
Qed.

(** An address agrees with the network on the prefix bits exactly when it
    lies between the network address and the broadcast address. *)
Lemma prefix_match_range (cls : family) (a x p : Z) :
  0 <= p <= _max_prefixlen cls ->
  0 <= a <= _ALL_ONES cls -> 0 <= x <= _ALL_ONES cls ->
  Z.land a (_ip_int_from_prefix cls p) = a ->
  (Z.land x (_ip_int_from_prefix cls p) = a <->
   a <= x <= Z.lor a (Z.lxor (_ip_int_from_prefix cls p) (_ALL_ONES cls))).
Proof.
  intros Hp Ha Hx Hnet.
  rewrite hostmask_spec by exact Hp.
  rewrite land_prefix_mask in * by assumption.
  set (k := _max_prefixlen cls - p) in *.
  assert (Hk : 0 <= k) by (unfold k; lia).
  assert (Hpow : 0 < 2 ^ k) by (apply Z.pow_pos_nonneg; lia).
  assert (Ha0 : a mod 2 ^ k = 0) by lia.
  assert (Hlor : Z.lor a (Z.ones k) = a + (2 ^ k - 1)).
  { assert (Hdisj : Z.land a (Z.ones k) = 0) by (rewrite Z.land_ones by lia; exact Ha0).
    rewrite <- Z.lxor_lor by exact Hdisj.
    rewrite <- Z.add_nocarry_lxor by exact Hdisj.
    rewrite Z.ones_equiv. lia. }
  rewrite Hlor.
  pose proof (Z.mod_pos_bound x (2 ^ k) Hpow) as Hxm.
  split; intros H.
  - lia.
  - assert (Hq : a = 2 ^ k * (a / 2 ^ k)).
    { pose proof (Z.div_mod a (2 ^ k)). lia. }
    assert (Hdiv : a / 2 ^ k = x / 2 ^ k).
    { apply (Z.div_unique x (2 ^ k) (a / 2 ^ k) (x - a)); lia. }
    pose proof (Z.div_mod x (2 ^ k)). rewrite <- Hdiv in *. lia.
Qed.

Lemma version_eqb (c1 c2 : family) :
  (_version c1 =? _version c2) = true <-> c1 = c2.
Proof. destruct c1, c2; simpl; split; intros H; congruence. Qed.

(** A strictly parsed network holds its own base address, the mask of its
    prefix, and no host bits. *)
Lemma ip_network_wf (value : pystr) (net : IPNetwork) :
  ip_network value true = Ok net ->
  let cls := net_cls net in
  0 <= _prefixlen net <= _max_prefixlen cls /\
  cls_of (network_address net) = cls /\
  0 <= _ip (network_address net) <= _ALL_ONES cls /\
  _ip (netmask net) = _ip_int_from_prefix cls (_prefixlen net) /\
  Z.land (_ip (network_address net)) (_ip (netmask net)) = _ip (network_address net).
Proof.
  intros H. apply ip_network_inv in H. destruct H as [cls H].
  apply network_class_inv in H. destruct H as [a [m [Hp [Hh Hn]]]].
  apply parsed_parts_inv in Hp. destruct Hp as [Hc [Hr [Hlen Hm]]].
  unfold has_host_bits in Hh. apply negb_false_iff, Z.eqb_eq in Hh.
  rewrite Hn. simpl. subst m. simpl in *. auto.
Qed.

(** [addr in net] is the range test, for addresses of the network's
    family. *)
Lemma contains_range (value : pystr) (net : IPNetwork) (addr : IPAddress) :
  ip_network value true = Ok net -> valid_address addr ->
  (__contains__ net addr = true <->
   cls_of addr = net_cls net /\
   _ip (network_address net) <= _ip addr <= broadcast_address net).
Proof.
  intros Hnet Hv. apply ip_network_wf in Hnet. cbv zeta in Hnet.
  destruct Hnet as [Hp [Hc [Hr [Hm Hland]]]].
  unfold __contains__, broadcast_address. rewrite Hm in *.
  destruct (_version (net_cls net) =? _version (cls_of addr)) eqn:E; simpl.
  - apply version_eqb in E. unfold valid_address in Hv. rewrite <- E in Hv.
    rewrite Z.eqb_eq, (prefix_match_range _ _ _ _ Hp Hr Hv Hland). intuition.
  - split; [discriminate |]. intros [Hf _].
    assert (E' : (_version (net_cls net) =? _version (cls_of addr)) = true)
      by (apply version_eqb; congruence).
    congruence.
Qed.

(* ------------------------------------------------------------------------ *)
(** * The subnet cache *)
(* ------------------------------------------------------------------------ *)

Lemma cache_ok_nil : cache_ok [].
Proof. constructor. Qed.

Lemma key_eqb_spec (a b : cache_key) : reflect (a = b) (key_eqb a b).
Proof.
  destruct a as [s | s], b as [t | t]; simpl;
    try (constructor; discriminate);
    destruct (String.eqb_spec s t) as [-> | Hne]; constructor;
    congruence.
Qed.

Lemma key_eqb_refl (a : cache_key) : key_eqb a a = true.
Proof. destruct (key_eqb_spec a a); [reflexivity | contradiction]. Qed.

Lemma key_text_make_key (subnet : str_arg) : key_text (_make_key subnet) = str_of subnet.
Proof. destruct subnet; reflexivity. Qed.

Lemma cache_lookup_ok (key : cache_key) (cache : lru_store) (net : IPNetwork) :
  cache_ok cache -> cache_lookup key cache = Some net ->
  ip_network (Some (key_text key)) true = Ok net.
Proof.
  induction 1 as [| [k v] rest Hkv _ IH]; simpl; intros H; [discriminate |].
  destruct (key_eqb_spec k key) as [-> | _].
  - inversion H; subst. exact Hkv.
  - exact (IH H).
Qed.

Lemma cache_remove_ok (key : cache_key) (cache : lru_store) :
  cache_ok cache -> cache_ok (cache_remove key cache).
Proof.
  induction 1 as [| [k v] rest Hkv _ IH]; simpl; [constructor |].
  destruct (key_eqb k key); [exact IH | constructor; assumption].
Qed.

Lemma cache_firstn_ok (n : nat) (cache : lru_store) :
  cache_ok cache -> cache_ok (firstn n cache).
Proof.
  intros H. revert n. induction H as [| kv rest Hkv _ IH]; intros [| n]; simpl;
    try constructor; auto.
  apply IH.
Qed.

(** On a sound cache the memoised function answers as [ip_network] does. *)
Lemma to_subnet_result (subnet : str_arg) (cache : lru_store) :
  cache_ok cache ->
  fst (_to_subnet subnet cache) = ip_network (Some (str_of subnet)) true.
Proof.
  intros Hc. unfold _to_subnet. cbv zeta.
  destruct (cache_lookup (_make_key subnet) cache) as [net |] eqn:E.
  - simpl. symmetry. rewrite <- key_text_make_key.
    eapply cache_lookup_ok; eassumption.
  - destruct (ip_network (Some (str_of subnet)) true); reflexivity.
Qed.

(** A call keeps the cache sound. *)
Lemma to_subnet_cache_ok (subnet : str_arg) (cache : lru_store) :
  cache_ok cache -> cache_ok (snd (_to_subnet subnet cache)).
Proof.
  intros Hc. unfold _to_subnet. cbv zeta.
  destruct (cache_lookup (_make_key subnet) cache) as [net |] eqn:E; simpl.
  - constructor; [eapply cache_lookup_ok; eassumption | apply cache_remove_ok, Hc].
  - destruct (ip_network (Some (str_of subnet)) true) as [net | e] eqn:En; simpl;
      [| exact Hc].
    apply (cache_firstn_ok maxsize ((_make_key subnet, net) :: cache)).
    constructor; [| assumption]. cbn [fst snd]. rewrite key_text_make_key. exact En.
Qed.

Lemma in_subnet_result (value : pystr) (subnet : str_arg) (cache : lru_store) :
  cache_ok cache ->
  fst (in_subnet value subnet cache)
  = Ok (PyBool (in_subnet_answer value (str_of subnet))).
Proof.
  intros Hc. unfold in_subnet, in_subnet_answer.
  destruct (only <- ip_only value ;; ip_address only) as [addr | e]; [| reflexivity].
  pose proof (to_subnet_result subnet cache Hc) as Hr.
  destruct (_to_subnet subnet cache) as [[net | e] cache']; simpl in Hr;
    rewrite <- Hr; reflexivity.
Qed.

Lemma in_subnet_cache_ok (value : pystr) (subnet : str_arg) (cache : lru_store) :
  cache_ok cache -> cache_ok (snd (in_subnet value subnet cache)).
Proof.
  intros Hc. unfold in_subnet.
  destruct (only <- ip_only value ;; ip_address only) as [addr | e]; [| exact Hc].
  pose proof (to_subnet_cache_ok subnet cache Hc) as Hr.
  destruct (_to_subnet subnet cache) as [[net | e] cache']; exact Hr.
Qed.

(* ------------------------------------------------------------------------ *)
(** * Text that is no IP form *)
(* ------------------------------------------------------------------------ *)

Lemma not_ip_form_inv (value : pystr) :
  parses_as_ip_form value = false ->
  forall cls,
    is_Ok (address_class cls value) = false /\
    is_Ok (interface_class cls value) = false /\
    is_Ok (parsed_parts cls value) = false.
Proof.
  unfold parses_as_ip_form. intros H cls.
  repeat (apply orb_false_iff in H; destruct H as [H ?]).
  assert (Hi : is_Ok (interface_class cls value) = false)
    by (destruct cls; assumption).
  repeat split; [destruct cls; assumption | exact Hi |].
  rewrite interface_class_view in Hi.
  destruct (parsed_parts cls value) as [[[a m] p] | e]; [discriminate | reflexivity].
Qed.

Lemma not_ip_form_factories (value : pystr) :
  parses_as_ip_form value = false ->
  is_Ok (ip_address value) = false /\ is_Ok (ip_interface value) = false.
Proof.
  intros H.
  destruct (not_ip_form_inv _ H V4) as [Ha4 [Hi4 _]].
  destruct (not_ip_form_inv _ H V6) as [Ha6 [Hi6 _]].
  simpl in Ha4, Ha6. unfold ip_address, ip_interface, IPv4Interface, IPv6Interface.
  destruct (IPv4Address value); [discriminate |].
  destruct (IPv6Address value); [discriminate |].
  destruct (interface_class V4 value); [discriminate |].
  destruct (interface_class V6 value); [discriminate |].
  simpl. split.
  - destruct (is_Address_or_Netmask_error e);
      [destruct (is_Address_or_Netmask_error e0) |]; reflexivity.
  - destruct (is_Address_or_Netmask_error e1);
      [destruct (is_Address_or_Netmask_error e2) |]; reflexivity.
Qed.

(** On text that is no IP form, seven predicates answer [False], the two
    "host" predicates that go through [is_host_ip6] answer [None], and
    [ip_only] answers [None]. *)
Lemma not_ip_form_results (value : pystr) :
  parses_as_ip_form value = false ->
  is_any_ip4 value = Ok (PyBool false) /\
  is_net_ip4 value = Ok (PyBool false) /\
  is_host_ip4 value = Ok (PyBool false) /\
  is_any_ip6 value = Ok (PyBool false) /\
  is_net_ip6 value = Ok (PyBool false) /\
  is_host_ip6 value = Ok PyNone /\
  is_any_ip value = Ok (PyBool false) /\
  is_net_ip value = Ok (PyBool false) /\
  is_host_ip value = Ok PyNone /\
  ip_only value = Ok None.
Proof.
  intros H.
  destruct (not_ip_form_inv _ H V4) as [Ha4 [_ Hp4]].
  destruct (not_ip_form_inv _ H V6) as [Ha6 [_ Hp6]].
  destruct (not_ip_form_factories _ H) as [Hfa Hfi].
  simpl in Ha4, Ha6.
  assert (A4 : is_any_ip4 value = Ok (PyBool false))
    by (rewrite is_any_ip4_any_test, any_test_spec, Hp4; reflexivity).
  assert (A6 : is_any_ip6 value = Ok (PyBool false))
    by (rewrite is_any_ip6_any_test, any_test_spec, Hp6; reflexivity).
  assert (N4 : is_net_ip4 value = Ok (PyBool false)).
  { rewrite is_net_ip4_net_test, net_test_spec.
    destruct (parsed_parts V4 value); [discriminate | reflexivity]. }
  assert (N6 : is_net_ip6 value = Ok (PyBool false)).
  { rewrite is_net_ip6_net_test, net_test_spec.
    destruct (parsed_parts V6 value); [discriminate | reflexivity]. }
  assert (H4 : is_host_ip4 value = Ok (PyBool false))
    by (rewrite is_host_ip4_spec, Ha4; reflexivity).
  assert (H6 : is_host_ip6 value = Ok PyNone)
    by (rewrite is_host_ip6_spec, Ha6; reflexivity).
  repeat split; try assumption.
  - unfold is_any_ip. rewrite A4, A6. reflexivity.
  - unfold is_net_ip. rewrite N4, N6. reflexivity.
  - unfold is_host_ip. rewrite H4, H6. reflexivity.
  - rewrite ip_only_spec.
    destruct (ip_address value); [discriminate |].
    destruct (ip_interface value); [discriminate | reflexivity].
Qed.

(* ------------------------------------------------------------------------ *)
(** * The combined predicates and the bound functions *)
(* ------------------------------------------------------------------------ *)

(** [or] on two booleans is the boolean disjunction. *)
Lemma py_or_bool (a b : bool) :
  py_or (Ok (PyBool a)) (Ok (PyBool b)) = Ok (PyBool (a || b)).
Proof. destruct a, b; reflexivity. Qed.

Lemma any_test_bool (cls : family) (value : pystr) :
  exists b, any_test cls value = Ok (PyBool b).
Proof. rewrite any_test_spec. eauto. Qed.

Lemma net_test_bool (cls : family) (value : pystr) :
  exists b, net_test cls value = Ok (PyBool b).
Proof.
  rewrite net_test_spec.
  destruct (parsed_parts cls value) as [[[a m] p] | e]; eauto.
Qed.

(** [is_any_ip] and [is_net_ip] are boolean disjunctions of booleans. *)
Lemma is_any_ip_or (value : pystr) :
  exists b4 b6,
    is_any_ip4 value = Ok (PyBool b4) /\ is_any_ip6 value = Ok (PyBool b6) /\
    is_any_ip value = Ok (PyBool (b4 || b6)).
Proof.
  destruct (any_test_bool V4 value) as [b4 H4].
  destruct (any_test_bool V6 value) as [b6 H6].
  exists b4, b6. unfold is_any_ip.
  rewrite is_any_ip4_any_test, is_any_ip6_any_test, H4, H6.
  auto using py_or_bool.
Qed.

Lemma is_net_ip_or (value : pystr) :
  exists b4 b6,
    is_net_ip4 value = Ok (PyBool b4) /\ is_net_ip6 value = Ok (PyBool b6) /\
    is_net_ip value = Ok (PyBool (b4 || b6)).
Proof.
  destruct (net_test_bool V4 value) as [b4 H4].
  destruct (net_test_bool V6 value) as [b6 H6].
  exists b4, b6. unfold is_net_ip.
  rewrite is_net_ip4_net_test, is_net_ip6_net_test, H4, H6.
  auto using py_or_bool.
Qed.

(** [is_host_ip] is [True] when either family accepts the address, and
    [None] otherwise. *)
Lemma is_host_ip_spec (value : pystr) :
  is_host_ip value =
  Ok (if is_Ok (IPv4Address value) || is_Ok (IPv6Address value)
      then PyBool true else PyNone).
Proof.
  unfold is_host_ip. rewrite is_host_ip4_spec, is_host_ip6_spec.
  destruct (is_Ok (IPv4Address value)), (is_Ok (IPv6Address value)); reflexivity.
Qed.

(** None of the nine predicates raises. *)
Lemma predicates_return (name : string) (f : pystr -> result pyval) (value : pystr) :
  In (name, f) _ns_ext_predicates ->
  exists v, f value = Ok v /\ bool_or_None v.
Proof.
  unfold _ns_ext_predicates, bool_or_None. simpl. intros H.
  repeat (destruct H as [H | H]; [inversion H; subst; clear H |]);
    try contradiction.
  - destruct (is_any_ip_or value) as [b4 [b6 [_ [_ ->]]]]. eauto.
  - rewrite is_host_ip_spec. destruct (_ || _); eauto.
  - destruct (is_net_ip_or value) as [b4 [b6 [_ [_ ->]]]]. eauto.
  - rewrite is_any_ip6_any_test, any_test_spec. eauto.
  - destruct (net_test_bool V6 value) as [b Hb].
    rewrite is_net_ip6_net_test, Hb. eauto.
  - rewrite is_host_ip6_spec. destruct (is_Ok _); eauto.
  - rewrite is_any_ip4_any_test, any_test_spec. eauto.
  - destruct (net_test_bool V4 value) as [b Hb].
    rewrite is_net_ip4_net_test, Hb. eauto.
  - rewrite is_host_ip4_spec. eauto.
Qed.

Lemma make_nsf_spec {C : Type} (f : pystr -> result pyval) (dummy : C)
      (ele : xpath_value) :
  make_nsf f dummy ele =
  match first_text ele with
  | Ok text => match f text with Ok v => Ok v | Raise _ => Ok (PyBool false) end
  | Raise _ => Ok (PyBool false)
  end.
Proof.
  unfold make_nsf. rewrite try_except_bare.
  destruct (first_text ele) as [text | e]; simpl; [| reflexivity].
  destruct (f text); reflexivity.
Qed.

Lemma in_subnet_returns_bool (value : pystr) (subnet : str_arg) (cache : lru_store) :
  exists b, fst (in_subnet value subnet cache) = Ok (PyBool b).
Proof.
  unfold in_subnet.
  destruct (only <- ip_only value ;; ip_address only) as [addr | e];
    [| eexists; reflexivity].
  destruct (_to_subnet subnet cache) as [[net | e] cache']; eexists; reflexivity.
Qed.

Lemma nsf_in_subnet_spec {C : Type} (dummy : C) (ele : xpath_value)
      (subnet : str_arg) (cache : lru_store) :
  nsf_in_subnet dummy ele subnet cache =
  match first_text ele with
  | Ok value => in_subnet value subnet cache
  | Raise _ => (Ok (PyBool false), cache)
  end.
Proof.
  unfold nsf_in_subnet. destruct (first_text ele) as [value | e]; [| reflexivity].
  destruct (in_subnet_returns_bool value subnet cache) as [b Hb].
  destruct (in_subnet value subnet cache) as [[r | e] cache']; simpl in *;
    [reflexivity | discriminate].
Qed.

(** An interface text with host bits set is refused as a network. *)
Lemma host_bits_refused (value : pystr) (i : IPInterface) :
  ip_interface value = Ok i ->
  has_host_bits (if_address i) (if_netmask i) = true ->
  ip_network value true = Raise ValueError.
Proof.
  intros Hi Hh.
  assert (Hstrict : forall cls, interface_class cls value = Ok i ->
                    network_class cls (ArgStr value) true = Raise ValueError).
  { intros cls H. apply interface_class_inv in H. destruct H as [m [Hp [Hm _]]].
    rewrite network_class_view, Hp. simpl. rewrite <- Hm, Hh. reflexivity. }
  unfold ip_network.
  apply ip_interface_cases in Hi. destruct Hi as [H4 | [e [H4 [He H6]]]].
  - rewrite (Hstrict _ H4). reflexivity.
  - rewrite (interface_class_raises _ _ _ H4). simpl. rewrite He.
    rewrite (Hstrict _ H6). reflexivity.
Qed.

Lemma reachable_cache_ok (cache : lru_store) : reachable cache -> cache_ok cache.
Proof.
  induction 1 as [| value subnet cache _ IH].
  - apply cache_ok_nil.
  - apply in_subnet_cache_ok, IH.
Qed.

(** The cache never outgrows [maxsize]. *)
Lemma reachable_bounded (cache : lru_store) :
  reachable cache -> (List.length cache <= maxsize)%nat.
Proof.
  assert (Hrm : forall key c, (List.length (cache_remove key c) <= List.length c)%nat).
  { intros key c. induction c as [| [k v] c IH]; simpl; [lia |].
    destruct (key_eqb k key); simpl; lia. }
  assert (Hhit : forall key c net, cache_lookup key c = Some net ->
                 (S (List.length (cache_remove key c)) <= List.length c)%nat).
  { intros key c net. induction c as [| [k v] c IH]; simpl; [discriminate |].
    destruct (key_eqb k key); simpl.
    - intros _. specialize (Hrm key c). lia.
    - intros H. apply IH in H. lia. }
  induction 1 as [| value subnet cache _ IH]; [simpl; unfold maxsize; lia |].
  unfold in_subnet.
  destruct (only <- ip_only value ;; ip_address only); [| exact IH].
  unfold _to_subnet. cbv zeta.
  destruct (cache_lookup (_make_key subnet) cache) as [net |] eqn:E.
  - simpl. apply Hhit in E. lia.
  - destruct (ip_network (Some (str_of subnet)) true); [| exact IH].
    cbn [snd]. rewrite length_firstn. lia.
Qed.

Lemma ip_address_cases (value : pystr) (a : IPAddress) :
  ip_address value = Ok a ->
  address_class V4 value = Ok a \/
  exists e, address_class V4 value = Raise e /\
            is_Address_or_Netmask_error e = true /\
            address_class V6 value = Ok a.
Proof.
  unfold ip_address. simpl. intros H.
  apply try_except_Ok_inv in H. destruct H as [H | [e [He [Hc H]]]].
  - left. exact H.
  - apply try_except_Ok_inv in H. destruct H as [H | [e' [_ [_ H]]]]; [| discriminate].
    right. exists e. auto.
Qed.

Lemma ip_network_cases (value : pystr) (n : IPNetwork) :
  ip_network value true = Ok n ->
  network_class V4 (ArgStr value) true = Ok n \/
  exists e, network_class V4 (ArgStr value) true = Raise e /\
            is_Address_or_Netmask_error e = true /\
            network_class V6 (ArgStr value) true = Ok n.
Proof.
  unfold ip_network. intros H.
  apply try_except_Ok_inv in H. destruct H as [H | [e [He [Hc H]]]].
  - left. exact H.
  - apply try_except_Ok_inv in H. destruct H as [H | [e' [_ [_ H]]]]; [| discriminate].
    right. exists e. auto.
Qed.

Lemma interface_class_parts (cls : family) (value : pystr) a m p :
  parsed_parts cls value = Ok (a, m, p) ->
  interface_class cls value = Ok (interface_of cls a m p).
Proof. intros H. rewrite interface_class_view, H. reflexivity. Qed.

Lemma parsed_parts_raises (cls : family) (value : pystr) (e : exn) :
  parsed_parts cls value = Raise e ->
  interface_class cls value = Raise e /\
  forall strict, network_class cls (ArgStr value) strict = Raise e.
Proof.
  intros H. split; [rewrite interface_class_view, H; reflexivity |].
  intros strict. rewrite network_class_view, H. reflexivity.
Qed.

(** A strict network is also an interface, on the same address. *)
Lemma ip_network_is_interface (value : pystr) (n : IPNetwork) :
  ip_network value true = Ok n ->
  exists i, ip_interface value = Ok i /\
            if_address i = network_address n /\ network i = n.
Proof.
  intros H. unfold ip_interface, IPv4Interface, IPv6Interface.
  assert (Hcls : forall cls, network_class cls (ArgStr value) true = Ok n ->
            exists i, interface_class cls value = Ok i /\
                      if_address i = network_address n /\ network i = n).
  { intros cls Hn. apply network_class_inv in Hn.
    destruct Hn as [a [m [Hp [Hh Hn]]]].
    exists (interface_of cls a m (_prefixlen n)).
    split; [apply interface_class_parts, Hp |].
    unfold interface_of. simpl. rewrite Hh. rewrite Hn at 1 3. simpl. auto. }
  apply ip_network_cases in H. destruct H as [H4 | [e [H4 [He H6]]]].
  - destruct (Hcls _ H4) as [i [Hi Hrest]]. exists i. rewrite Hi. auto.
  - destruct (Hcls _ H6) as [i [Hi Hrest]]. exists i.
    assert (Hraise : interface_class V4 value = Raise e).
    { rewrite network_class_view in H4. rewrite interface_class_view.
      destruct (parsed_parts V4 value) as [[[a m] p] | e']; simpl in *.
      - destruct (has_host_bits a m); [| discriminate].
        inversion H4; subst. discriminate.
      - congruence. }
    rewrite Hraise. simpl. rewrite He, Hi. auto.
Qed.

(** An address is also an interface, on the same address. *)
Lemma ip_address_is_interface (value : pystr) (a : IPAddress) :
  ip_address value = Ok a ->
  exists i, ip_interface value = Ok i /\ if_address i = a.
Proof.
  intros H. unfold ip_interface, IPv4Interface, IPv6Interface.
  apply ip_address_cases in H. destruct H as [H4 | [e [H4 [He H6]]]].
  - apply parsed_parts_of_address in H4.
    rewrite (interface_class_parts _ _ _ _ _ H4). eexists. split; reflexivity.
  - pose proof (address_class_inv _ _ _ H6) as [Hs _].
    pose proof (parsed_parts_bare V4 _ Hs) as Hp4. rewrite H4 in Hp4. simpl in Hp4.
    destruct (parsed_parts_raises _ _ _ Hp4) as [-> _]. simpl. rewrite He.
    apply parsed_parts_of_address in H6.
    rewrite (interface_class_parts _ _ _ _ _ H6). eexists. split; reflexivity.
Qed.

(* ------------------------------------------------------------------------ *)
(** * Printing and reading back *)
(* ------------------------------------------------------------------------ *)

Lemma str_contains_app (c : ascii) (s1 s2 : string) :
  str_contains c (s1 ++ s2) = str_contains c s1 || str_contains c s2.
Proof.
  induction s1 as [| d s1 IH]; simpl; [reflexivity |].
  rewrite IH, orb_assoc. reflexivity.
Qed.

Lemma str_split_app_sep (c : ascii) (s1 s2 : string) :
  str_contains c s1 = false ->
  str_split c (s1 ++ String c s2) = s1 :: str_split c s2.
Proof.
  induction s1 as [| d s1 IH]; simpl; intros H.
  - rewrite Ascii.eqb_refl. reflexivity.
  - apply orb_false_iff in H. destruct H as [Hd Hs].
    rewrite Hd, (IH Hs). reflexivity.
Qed.

(** Splitting undoes joining, when no part contains the separator. *)
Lemma str_split_join (c : ascii) (parts : list string) :
  parts <> [] ->
  Forall (fun p => str_contains c p = false) parts ->
  str_split c (str_join (String c "") parts) = parts.
Proof.
  induction parts as [| p parts IH]; intros Hne Hall; [contradiction |].
  inversion Hall as [| ? ? Hp Hrest]; subst.
  destruct parts as [| q parts].
  - simpl. apply str_split_no_sep, Hp.
  - change (str_join (String c "") (p :: q :: parts))
      with (p ++ String c (str_join (String c "") (q :: parts))).
    rewrite (str_split_app_sep _ _ _ Hp), IH; [reflexivity | discriminate | exact Hrest].
Qed.

Lemma str_contains_join (c sep : ascii) (parts : list string) :
  Ascii.eqb sep c = false ->
  Forall (fun p => str_contains c p = false) parts ->
  str_contains c (str_join (String sep "") parts) = false.
Proof.
  intros Hsep. induction 1 as [| p parts Hp _ IH]; [reflexivity |].
  destruct parts as [| q parts]; [exact Hp |].
  change (str_join (String sep "") (p :: q :: parts))
    with (p ++ String sep (str_join (String sep "") (q :: parts))).
  rewrite str_contains_app, Hp. simpl. rewrite Hsep. exact IH.
Qed.

Lemma str_eqb_app_nonempty (s1 s2 : string) :
  String.eqb s1 "" = false -> String.eqb (s1 ++ s2) "" = false.
Proof. destruct s1; [discriminate | reflexivity]. Qed.

Lemma octet_text (o : Z) :
  0 <= o <= 255 ->
  _BaseV4._parse_octet (str_of_int o) = Ok o /\
  str_contains "." (str_of_int o) = false /\
  str_contains "/" (str_of_int o) = false /\
  String.eqb (str_of_int o) "" = false.
Proof.
  intros Ho.
  assert (H : octet_text_ok o = true).
  { apply (check_from_spec octet_text_ok 256 0); [vm_compute; reflexivity | lia]. }
  unfold octet_text_ok in H. cbv zeta in H.
  repeat (apply andb_true_iff in H; destruct H as [H ?]).
  destruct (_BaseV4._parse_octet (str_of_int o)) as [o' |]; [| discriminate].
  apply Z.eqb_eq in H. subst o'.
  repeat split; try reflexivity; apply negb_true_iff; assumption.
Qed.

Lemma big_endian_length (w : Z) (k : nat) (n : Z) :
  List.length (big_endian w k n) = k.
Proof. induction k as [| k IH]; simpl; congruence. Qed.

Lemma big_endian_range (w : Z) (k : nat) (n : Z) :
  0 <= w -> Forall (fun b => 0 <= b < 2 ^ w) (big_endian w k n).
Proof.
  intros Hw. induction k as [| k IH]; simpl; constructor; [| exact IH].
  replace (2 ^ w - 1) with (Z.ones w) by (rewrite Z.ones_equiv; lia).
  rewrite Z.land_ones by lia. apply Z.mod_pos_bound. apply Z.pow_pos_nonneg; lia.
Qed.

(** The digits of [big_endian] put together again give the number back,
    up to the width they cover. *)
Lemma big_endian_value (w : Z) (k : nat) (n : Z) :
  0 <= w -> 0 <= n ->
  forall acc,
  fold_left (fun a b => a * 2 ^ w + b) (big_endian w k n) acc
  = acc * 2 ^ (w * Z.of_nat k) + n mod 2 ^ (w * Z.of_nat k).
Proof.
  intros Hw Hn. induction k as [| k IH]; intros acc.
  - simpl. rewrite Z.mul_0_r, Z.pow_0_r, Z.mod_1_r. lia.
  - cbn [big_endian fold_left]. rewrite IH.
    replace (2 ^ w - 1) with (Z.ones w) by (rewrite Z.ones_equiv; lia).
    rewrite Z.land_ones, Z.shiftr_div_pow2 by lia.
    rewrite Nat2Z.inj_succ.
    replace (w * Z.succ (Z.of_nat k)) with (w * Z.of_nat k + w) by lia.
    rewrite (Z.pow_add_r 2 (w * Z.of_nat k) w) by lia.
    assert (0 < 2 ^ (w * Z.of_nat k)) by (apply Z.pow_pos_nonneg; lia).
    assert (0 < 2 ^ w) by (apply Z.pow_pos_nonneg; lia).
    rewrite (Z.rem_mul_r n (2 ^ (w * Z.of_nat k)) (2 ^ w)) by lia.
    lia.
Qed.

Lemma map_result_map {A B : Type} (f : A -> result B) (g : B -> A) (l : list B) :
  Forall (fun y => f (g y) = Ok y) l ->
  map_result f (map g l) = Ok l.
Proof.
  induction 1 as [| y l Hy _ IH]; simpl; [reflexivity |].
  rewrite Hy. simpl. rewrite IH. reflexivity.
Qed.

(** An IPv4 address printed and read again is the same address. *)
Lemma v4_roundtrip (n : Z) :
  0 <= n < 2 ^ 32 ->
  exists s,
    _BaseV4._string_from_ip_int n = Ok s /\
    _BaseV4._ip_int_from_string s = Ok n /\
    str_contains "/" s = false.
Proof.
  intros Hn.
  set (octets := big_endian 8 4 n).
  assert (Hprint : _BaseV4._string_from_ip_int n
                   = Ok (str_join "." (map str_of_int octets))).
  { unfold _BaseV4._string_from_ip_int, int_to_bytes.
    destruct (n <? 0) eqn:E1; [apply Z.ltb_lt in E1; lia |].
    destruct (2 ^ (8 * Z.of_nat 4) <=? n) eqn:E2; [| reflexivity].
    apply Z.leb_le in E2. change (2 ^ (8 * Z.of_nat 4)) with (2 ^ 32) in E2. lia. }
  exists (str_join "." (map str_of_int octets)).
  split; [exact Hprint |]. clear Hprint.
  assert (Hr : Forall (fun o => 0 <= o <= 255) octets).
  { eapply Forall_impl; [| apply (big_endian_range 8 4 n); lia].
    intros o Ho. cbv beta in Ho. change (2 ^ 8) with 256 in Ho. lia. }
  assert (Hlen : List.length (map str_of_int octets) = 4%nat).
  { rewrite length_map. apply big_endian_length. }
  assert (Hdot : Forall (fun p => str_contains "." p = false) (map str_of_int octets)).
  { apply Forall_map. eapply Forall_impl; [| exact Hr].
    intros o Ho. apply (octet_text o Ho). }
  assert (Hslash : Forall (fun p => str_contains "/" p = false) (map str_of_int octets)).
  { apply Forall_map. eapply Forall_impl; [| exact Hr].
    intros o Ho. apply (octet_text o Ho). }
  assert (Hparse : map_result _BaseV4._parse_octet (map str_of_int octets) = Ok octets).
  { apply map_result_map. eapply Forall_impl; [| exact Hr].
    intros o Ho. apply (octet_text o Ho). }
  assert (Hne : String.eqb (str_join "." (map str_of_int octets)) "" = false).
  { destruct octets as [| o [| o' rest]]; try discriminate Hlen.
    change (str_join "." (map str_of_int (o :: o' :: rest)))
      with (str_of_int o ++ String "." (str_join "." (map str_of_int (o' :: rest)))).
    apply str_eqb_app_nonempty.
    inversion Hr as [| ? ? Ho _]; subst. apply (octet_text _ Ho). }
  assert (Hval : int_from_bytes octets = n).
  { unfold int_from_bytes, octets. change 256 with (2 ^ 8).
    rewrite (big_endian_value 8 4 n) by lia.
    change (2 ^ (8 * Z.of_nat 4)) with (2 ^ 32).
    rewrite Z.mod_small by lia. lia. }
  split.
  - unfold _BaseV4._ip_int_from_string.
    rewrite Hne. cbv zeta.
    rewrite (str_split_join "." (map str_of_int octets))
      by (try exact Hdot; intros E; rewrite E in Hlen; discriminate Hlen).
    rewrite Hlen, Hparse. cbn [Nat.eqb negb bind try_except]. rewrite Hval.
    reflexivity.
  - apply str_contains_join; [reflexivity | exact Hslash].
Qed.

Lemma hextet_text (h : Z) :
  0 <= h < 2 ^ 16 ->
  _BaseV6._parse_hextet (hex_of_int h) = Ok h /\
  str_contains ":" (hex_of_int h) = false /\
  str_contains "." (hex_of_int h) = false /\
  str_contains "/" (hex_of_int h) = false /\
  str_contains "%" (hex_of_int h) = false /\
  String.eqb (hex_of_int h) "" = false /\
  String.eqb (hex_of_int h) "0" = (h =? 0).
Proof.
  intros Hh.
  assert (H : hextet_text_ok h = true).
  { apply (check_from_spec hextet_text_ok (Z.to_nat 65536) 0).
    - vm_compute. reflexivity.
    - change (2 ^ 16) with 65536 in Hh. lia. }
  unfold hextet_text_ok in H. cbv zeta in H.
  repeat (apply andb_true_iff in H; destruct H as [H ?]).
  destruct (_BaseV6._parse_hextet (hex_of_int h)) as [h' |]; [| discriminate].
  apply Z.eqb_eq in H. subst h'.
  repeat split; try reflexivity; try (apply negb_true_iff; assumption).
  apply eqb_prop. assumption.
Qed.

Lemma lor_shiftl_add (a h w : Z) :
  0 <= w -> 0 <= h < 2 ^ w -> Z.lor (Z.shiftl a w) h = a * 2 ^ w + h.
Proof.
  intros Hw Hh.
  assert (Hdisj : Z.land (Z.shiftl a w) h = 0).
  { rewrite <- (Z.mod_small h (2 ^ w)) by lia.
    rewrite <- Z.land_ones by lia.
    rewrite (Z.land_comm h), Z.land_assoc, Z.land_ones by lia.
    rewrite Z.shiftl_mul_pow2, Z.mod_mul by lia. apply Z.land_0_l. }
  rewrite <- Z.lxor_lor by exact Hdisj.
  rewrite <- Z.add_nocarry_lxor by exact Hdisj.
  rewrite Z.shiftl_mul_pow2 by lia. reflexivity.
Qed.

(** Reading the texts of hextets accumulates them in base [2^16]. *)
Lemma parse_hextets_value (hs : list Z) :
  Forall (fun h => 0 <= h < 2 ^ 16) hs ->
  forall acc,
  _BaseV6._parse_hextets (map hex_of_int hs) acc
  = Ok (fold_left (fun a b => a * 2 ^ 16 + b) hs acc).
Proof.
  induction 1 as [| h hs Hh _ IH]; intros acc; [reflexivity |].
  cbn [map _BaseV6._parse_hextets fold_left].
  destruct (hextet_text h Hh) as [-> _]. cbn [bind].
  rewrite IH, lor_shiftl_add by lia. reflexivity.
Qed.

Lemma fold_zeros (w : Z) (k : nat) (acc : Z) :
  0 <= w ->
  fold_left (fun a b => a * 2 ^ w + b) (repeat 0 k) acc
  = acc * 2 ^ (w * Z.of_nat k).
Proof.
  intros Hw. revert acc. induction k as [| k IH]; intros acc.
  - simpl. rewrite Z.mul_0_r, Z.pow_0_r. lia.
  - cbn [repeat fold_left]. rewrite IH, Nat2Z.inj_succ.
    replace (w * Z.succ (Z.of_nat k)) with (w + w * Z.of_nat k) by lia.
    rewrite Z.pow_add_r by lia. lia.
Qed.

(** ** The run of zeros that [_compress_hextets] picks *)

Lemma scan_step_runs (pre : list string) (st : _BaseV6.run_state) (x : string) :
  current_run pre st -> best_run pre st ->
  let st' := _BaseV6._scan_step st (Z.of_nat (List.length pre)) x in
  current_run (pre ++ [x]) st' /\ best_run (pre ++ [x]) st'.
Proof.
  intros Hcur Hbest. cbv zeta. unfold _BaseV6._scan_step.
  assert (Hkeep : forall st', _BaseV6.best_doublecolon_len st' = _BaseV6.best_doublecolon_len st ->
                  _BaseV6.best_doublecolon_start st' = _BaseV6.best_doublecolon_start st ->
                  best_run (pre ++ [x]) st').
  { intros st' Hl Hs. unfold best_run. rewrite Hl, Hs.
    destruct Hbest as [H0 | [H1 [A [B [Hpre HA]]]]]; [left; exact H0 | right].
    split; [exact H1 |]. exists A, (B ++ [x])%list.
    rewrite Hpre, <- !app_assoc. auto. }
  destruct (String.eqb_spec x "0") as [-> | Hx].
  - assert (Hnew : exists A,
              (pre ++ ["0"])%list
              = (A ++ repeat "0" (Z.to_nat (_BaseV6.doublecolon_len st + 1)))%list /\
              Z.of_nat (List.length A)
              = (if _BaseV6.doublecolon_start st =? -1
                 then Z.of_nat (List.length pre) else _BaseV6.doublecolon_start st) /\
              0 <= _BaseV6.doublecolon_len st).
    { destruct Hcur as [[Hl Hs] | [Hl [A [Hpre HA]]]].
      - exists pre. rewrite Hl, Hs. simpl. auto with zarith.
      - exists A. split; [| split; [| lia]].
        + rewrite Z2Nat.inj_add, Nat.add_1_r by lia. cbn [repeat].
          rewrite repeat_cons, app_assoc, <- Hpre. reflexivity.
        + destruct (Z.eqb_spec (_BaseV6.doublecolon_start st) (-1)); [lia | exact HA]. }
    destruct Hnew as [A [Hpre [HA Hlen]]].
    assert (Hc : forall bs bl,
              current_run (pre ++ ["0"])
                (_BaseV6.RunState bs bl
                   (if _BaseV6.doublecolon_start st =? -1
                    then Z.of_nat (List.length pre) else _BaseV6.doublecolon_start st)
                   (_BaseV6.doublecolon_len st + 1))).
    { intros bs bl. right. simpl. split; [lia |]. exists A. auto. }
    destruct (_BaseV6.doublecolon_len st + 1 >? _BaseV6.best_doublecolon_len st).
    + split; [apply Hc |]. right. simpl. split; [lia |].
      exists A, []. rewrite app_nil_r. auto.
    + split; [apply Hc | apply Hkeep; reflexivity].
  - split; [left; simpl; auto | apply Hkeep; reflexivity].
Qed.

Lemma scan_runs (l : list string) :
  forall pre st,
  current_run pre st -> best_run pre st ->
  best_run (pre ++ l) (_BaseV6._scan l (Z.of_nat (List.length pre)) st).
Proof.
  induction l as [| x l IH]; intros pre st Hcur Hbest.
  - rewrite app_nil_r. exact Hbest.
  - cbn [_BaseV6._scan].
    destruct (scan_step_runs pre st x Hcur Hbest) as [Hcur' Hbest'].
    specialize (IH (pre ++ [x])%list _ Hcur' Hbest').
    rewrite length_app, Nat2Z.inj_add in IH. cbn [List.length] in IH.
    rewrite <- app_assoc in IH. exact IH.
Qed.

Lemma firstn_length_app {A : Type} (l r : list A) :
  firstn (List.length l) (l ++ r) = l.
Proof. induction l as [| x l IH]; simpl; [destruct r; reflexivity | congruence]. Qed.

Lemma skipn_length_app {A : Type} (l r : list A) :
  skipn (List.length l) (l ++ r) = r.
Proof. induction l as [| x l IH]; simpl; [reflexivity | exact IH]. Qed.

(** [_compress_hextets] leaves the list alone, or replaces a run of at
    least two zeros by one empty part, with one more empty part at an end the
    run touches. *)
Lemma compress_shape (xs : list string) :
  _BaseV6._compress_hextets xs = xs \/
  exists A B L,
    (2 <= L)%nat /\
    xs = (A ++ repeat "0" L ++ B)%list /\
    _BaseV6._compress_hextets xs = (edge A ++ A ++ [""] ++ B ++ edge B)%list.
Proof.
  unfold _BaseV6._compress_hextets.
  pose proof (scan_runs xs [] (_BaseV6.RunState (-1) 0 (-1) 0)
                (or_introl (conj eq_refl eq_refl)) (or_introl eq_refl)) as Hbest.
  cbn [List.length app] in Hbest. change (Z.of_nat 0) with 0 in Hbest.
  set (st := _BaseV6._scan xs 0 (_BaseV6.RunState (-1) 0 (-1) 0)) in *.
  cbv zeta.
  destruct (_BaseV6.best_doublecolon_len st >? 1) eqn:Hlen; [| left; reflexivity].
  right. apply Z.gtb_lt in Hlen.
  destruct Hbest as [H0 | [_ [A [B [Hxs HA]]]]]; [lia |].
  set (L := Z.to_nat (_BaseV6.best_doublecolon_len st)) in *.
  assert (HL : _BaseV6.best_doublecolon_len st = Z.of_nat L) by (unfold L; lia).
  exists A, B, L. split; [lia |]. split; [exact Hxs |].
  rewrite <- HA, HL, <- Nat2Z.inj_add, !Nat2Z.id.
  assert (Hend : (Z.of_nat (List.length A + L) =? Z.of_nat (List.length xs))
                 = match B with [] => true | _ :: _ => false end).
  { rewrite Hxs, !length_app, repeat_length.
    destruct B as [| b B]; cbn [List.length].
    - apply Z.eqb_eq. lia.
    - apply Z.eqb_neq. lia. }
  rewrite Hend.
  assert (Hstart : (Z.of_nat (List.length A) =? 0)
                   = match A with [] => true | _ :: _ => false end).
  { destruct A; cbn [List.length]; [reflexivity | apply Z.eqb_neq; lia]. }
  rewrite Hstart.
  assert (Hcut : forall R,
            (firstn (List.length A) (A ++ repeat "0" L ++ R)
             ++ [""] ++ skipn (List.length A + L) (A ++ repeat "0" L ++ R))%list
            = (A ++ [""] ++ R)%list).
  { intros R. rewrite firstn_length_app. f_equal. f_equal.
    replace (List.length A + L)%nat
      with (List.length (A ++ repeat "0" L)) by (rewrite length_app, repeat_length; lia).
    rewrite app_assoc. apply skipn_length_app. }
  clear Hend Hstart Hlen HA HL. clearbody L. clear st. subst xs.
  destruct B as [| b B].
  - rewrite app_nil_r. rewrite <- (app_assoc A (repeat "0" L) [""]).
    rewrite (Hcut [""]). destruct A; reflexivity.
  - rewrite (Hcut (b :: B)).
    cbn [edge]. rewrite app_nil_r. destruct A; reflexivity.
Qed.

(** ** Reading the printed parts *)

Lemma find_skip_index_app (l1 l2 : list string) :
  Forall nonempty l1 ->
  forall i skip_index,
  _BaseV6._find_skip_index (l1 ++ l2) i skip_index
  = _BaseV6._find_skip_index l2 (i + Z.of_nat (List.length l1)) skip_index.
Proof.
  induction 1 as [| x l1 Hx _ IH]; intros i skip_index.
  - simpl. rewrite Z.add_0_r. reflexivity.
  - cbn [app _BaseV6._find_skip_index List.length]. rewrite Hx, IH.
    f_equal. lia.
Qed.

Lemma find_skip_index_one (l1 l2 : list string) :
  Forall nonempty l1 -> Forall nonempty l2 ->
  _BaseV6._find_skip_index (l1 ++ [""] ++ l2) 1 None
  = Ok (Some (1 + Z.of_nat (List.length l1))).
Proof.
  intros H1 H2. rewrite (find_skip_index_app _ _ H1).
  cbn [app _BaseV6._find_skip_index String.eqb].
  rewrite <- (app_nil_r l2), (find_skip_index_app _ _ H2). reflexivity.
Qed.

Lemma find_skip_index_none (l : list string) :
  Forall nonempty l -> _BaseV6._find_skip_index l 1 None = Ok None.
Proof.
  intros H. rewrite <- (app_nil_r l), (find_skip_index_app _ _ H). reflexivity.
Qed.

Lemma str_join_nonempty (sep : ascii) (p q : string) (parts : list string) :
  String.eqb (str_join (String sep "") (p :: q :: parts)) "" = false.
Proof.
  change (str_join (String sep "") (p :: q :: parts))
    with (p ++ String sep (str_join (String sep "") (q :: parts))).
  destruct p; reflexivity.
Qed.

Lemma hextet_texts_nonempty (hs : list Z) :
  Forall in_hextet_range hs -> Forall nonempty (hextet_texts hs).
Proof.
  intros H. apply Forall_map. eapply Forall_impl; [| exact H].
  intros h Hh. apply (hextet_text h Hh).
Qed.

Lemma hextet_texts_no_char (c : ascii) (hs : list Z) :
  c = ":"%char \/ c = "."%char \/ c = "/"%char \/ c = "%"%char ->
  Forall in_hextet_range hs ->
  Forall (fun p => str_contains c p = false) (hextet_texts hs).
Proof.
  intros Hc H. apply Forall_map. eapply Forall_impl; [| exact H].
  intros h Hh. destruct (hextet_text h Hh) as [_ [H1 [H2 [H3 [H4 _]]]]].
  destruct Hc as [-> | [-> | [-> | ->]]]; assumption.
Qed.

(** The first steps of [_ip_int_from_string]: a text joined from three to
    nine parts that hold no colon and no dot is split into these parts. *)
Lemma v6_split_parts (parts : list string) :
  Forall (fun p => str_contains ":" p = false) parts ->
  str_contains "." (last_part parts) = false ->
  3 <= Z.of_nat (List.length parts) <= 9 ->
  _BaseV6._ip_int_from_string (str_join ":" parts) =
  (let len := Z.of_nat (List.length parts) in
   skip_index <- _BaseV6._find_skip_index (removelast (tl parts)) 1 None ;;
   '(parts_hi, parts_lo, parts_skipped) <-
     match skip_index with
     | Some skip =>
         let parts_hi := skip in
         let parts_lo := len - skip - 1 in
         parts_hi <-
           (if String.eqb (hd "" parts) "" then
              if negb (parts_hi - 1 =? 0) then Raise AddressValueError
              else Ok (parts_hi - 1)
            else Ok parts_hi) ;;
         parts_lo <-
           (if String.eqb (last_part parts) "" then
              if negb (parts_lo - 1 =? 0) then Raise AddressValueError
              else Ok (parts_lo - 1)
            else Ok parts_lo) ;;
         let parts_skipped := _BaseV6._HEXTET_COUNT - (parts_hi + parts_lo) in
         if parts_skipped <? 1 then Raise AddressValueError
         else Ok (parts_hi, parts_lo, parts_skipped)
     | None =>
         if negb (len =? _BaseV6._HEXTET_COUNT) then Raise AddressValueError
         else if String.eqb (hd "" parts) "" then Raise AddressValueError
         else if String.eqb (last_part parts) "" then Raise AddressValueError
         else Ok (len, 0, 0)
     end ;;
   try_except
     (ip_int <- _BaseV6._parse_hextets (firstn (Z.to_nat parts_hi) parts) 0 ;;
      let ip_int := Z.shiftl ip_int (16 * parts_skipped) in
      _BaseV6._parse_hextets (skipn (Z.to_nat (len - parts_lo)) parts) ip_int)
     is_ValueError
     (Raise AddressValueError)).
Proof.
  intros Hcolon Hdot Hlen. unfold _BaseV6._ip_int_from_string.
  assert (Hne : String.eqb (str_join ":" parts) "" = false).
  { destruct parts as [| p [| q parts]]; cbn [List.length] in Hlen; try lia.
    apply str_join_nonempty. }
  rewrite Hne. cbv zeta.
  rewrite (str_split_join ":" parts)
    by (try exact Hcolon; intros E; rewrite E in Hlen; cbn [List.length] in Hlen; lia).
  destruct (Z.ltb_spec (Z.of_nat (List.length parts)) 3) as [? | _]; [lia |].
  rewrite Hdot. cbn [bind].
  unfold _BaseV6._HEXTET_COUNT.
  destruct (Z.gtb_spec (Z.of_nat (List.length parts)) (8 + 1)) as [? | _]; [lia |].
  reflexivity.
Qed.

Lemma Forall_tl {A : Type} (P : A -> Prop) (l : list A) :
  Forall P l -> Forall P (tl l).
Proof. intros H. destruct H; [constructor | assumption]. Qed.

Lemma Forall_removelast {A : Type} (P : A -> Prop) (l : list A) :
  Forall P l -> Forall P (removelast l).
Proof.
  induction 1 as [| x l Hx Hl IH]; [constructor |].
  destruct l as [| y l]; [constructor |].
  change (removelast (x :: y :: l)) with (x :: removelast (y :: l)).
  constructor; assumption.
Qed.

Lemma Forall_last {A : Type} (P : A -> Prop) (l : list A) (d : A) :
  Forall P l -> l <> [] -> P (last l d).
Proof.
  induction 1 as [| x l Hx Hl IH]; intros Hne; [contradiction |].
  destruct l as [| y l]; [exact Hx |].
  change (last (x :: y :: l) d) with (last (y :: l) d). apply IH. discriminate.
Qed.

(** Eight hextets printed in full are read back as they are. *)
Lemma v6_read_plain (hs : list Z) :
  Forall in_hextet_range hs -> List.length hs = 8%nat ->
  _BaseV6._ip_int_from_string (str_join ":" (hextet_texts hs))
  = Ok (accumulate hs 0).
Proof.
  intros Hr Hlen.
  pose proof (hextet_texts_nonempty hs Hr) as Hne.
  assert (Hl : List.length (hextet_texts hs) = 8%nat)
    by (unfold hextet_texts; rewrite length_map; exact Hlen).
  assert (Hnil : hextet_texts hs <> []) by (intros E; rewrite E in Hl; discriminate).
  rewrite v6_split_parts.
  - cbv zeta. rewrite Hl.
    rewrite find_skip_index_none by (apply Forall_removelast, Forall_tl, Hne).
    cbn [bind]. unfold _BaseV6._HEXTET_COUNT.
    change (negb (Z.of_nat 8 =? 8)) with false. cbv iota.
    assert (Hhd : String.eqb (hd "" (hextet_texts hs)) "" = false).
    { destruct (hextet_texts hs) as [| x xs]; [contradiction |].
      inversion Hne; subst. assumption. }
    rewrite Hhd.
    pose proof (Forall_last _ _ "" Hne Hnil) as Hlast. unfold nonempty in Hlast.
    unfold last_part. rewrite Hlast. cbn [bind].
    change (Z.to_nat (Z.of_nat 8)) with 8%nat.
    change (Z.to_nat (Z.of_nat 8 - 0)) with 8%nat.
    replace (firstn 8 (hextet_texts hs)) with (hextet_texts hs)
      by (rewrite <- Hl; symmetry; apply firstn_all).
    replace (skipn 8 (hextet_texts hs)) with (@nil string)
      by (rewrite <- Hl; symmetry; apply skipn_all).
    unfold hextet_texts. rewrite parse_hextets_value by exact Hr.
    cbn [bind _BaseV6._parse_hextets try_except].
    rewrite Z.shiftl_0_r. reflexivity.
  - apply hextet_texts_no_char; auto.
  - apply (Forall_last (fun p => str_contains "." p = false)); [| exact Hnil].
    apply hextet_texts_no_char; auto.
  - rewrite Hl. lia.
Qed.

Lemma rev_cases {A : Type} (l : list A) :
  l = [] \/ exists l' x, l = (l' ++ [x])%list.
Proof.
  induction l as [| y l' _] using rev_ind; [left; reflexivity |].
  right. exists l', y. reflexivity.
Qed.

(** The list a compressed address is joined from, seen from the reader. *)
Lemma compressed_parts_shape (A B : list string) :
  Forall nonempty A -> Forall nonempty B ->
  let parts := (edge A ++ A ++ [""] ++ B ++ edge B)%list in
  (exists X Y,
     removelast (tl parts) = (X ++ [""] ++ Y)%list /\
     Forall nonempty X /\ Forall nonempty Y /\
     (S (List.length X) = List.length (edge A) + List.length A)%nat) /\
  String.eqb (hd "" parts) "" = match A with [] => true | _ :: _ => false end /\
  String.eqb (last_part parts) "" = match B with [] => true | _ :: _ => false end /\
  (last_part parts = "" \/ In (last_part parts) B) /\
  List.length parts
  = (List.length (edge A) + List.length A + 1 + List.length B + List.length (edge B))%nat /\
  firstn (List.length A) parts = A /\
  skipn (List.length parts - List.length B) parts = B.
Proof.
  intros HA HB. cbv zeta.
  assert (Hlen : List.length (edge A ++ A ++ [""] ++ B ++ edge B)
                 = (List.length (edge A) + List.length A + 1 + List.length B
                    + List.length (edge B))%nat).
  { rewrite !length_app. cbn [List.length]. lia. }
  destruct (rev_cases B) as [-> | [B' [b ->]]].
  - (* the run of zeros reaches the end *)
    assert (Hparts : (edge A ++ A ++ [""] ++ [] ++ edge [])%list
                     = ((edge A ++ A ++ [""]) ++ [""])%list).
    { cbn [edge app]. rewrite <- !app_assoc. reflexivity. }
    repeat split.
    + exists (tl (edge A ++ A)), []. rewrite Hparts.
      destruct A as [| a A']; cbn [edge app tl].
      * repeat split; constructor.
      * rewrite removelast_last.
        inversion HA; subst. repeat split; [assumption | constructor].
    + destruct A as [| a A']; [reflexivity |]. inversion HA; subst. assumption.
    + unfold last_part. rewrite Hparts, last_last. reflexivity.
    + left. unfold last_part. rewrite Hparts, last_last. reflexivity.
    + exact Hlen.
    + destruct A as [| a A']; [reflexivity |]. exact (firstn_length_app (a :: A') _).
    + rewrite Nat.sub_0_r. apply skipn_all.
  - (* hextets follow the run of zeros *)
    assert (Hb : nonempty b /\ Forall nonempty B').
    { apply Forall_app in HB. destruct HB as [H1 H2]. inversion H2; subst. auto. }
    destruct Hb as [Hb HB'].
    assert (Hedge : edge (B' ++ [b]) = []) by (destruct B'; reflexivity).
    assert (Hparts : (edge A ++ A ++ [""] ++ (B' ++ [b]) ++ edge (B' ++ [b]))%list
                     = ((edge A ++ A ++ [""] ++ B') ++ [b])%list).
    { rewrite Hedge, app_nil_r, <- !app_assoc. reflexivity. }
    assert (Hcase : match (B' ++ [b])%list with [] => true | _ :: _ => false end = false)
      by (destruct B'; reflexivity).
    repeat split.
    + exists (tl (edge A ++ A)), B'. rewrite Hparts.
      destruct A as [| a A']; cbn [edge app tl].
      * rewrite (app_comm_cons B' [b] ""), removelast_last.
        repeat split; [constructor | assumption].
      * rewrite removelast_last.
        inversion HA; subst. repeat split; assumption.
    + destruct A as [| a A']; [reflexivity |]. inversion HA; subst. assumption.
    + unfold last_part. rewrite Hparts, last_last, Hcase. exact Hb.
    + right. unfold last_part. rewrite Hparts, last_last.
      apply in_or_app. right. left. reflexivity.
    + exact Hlen.
    + destruct A as [| a A']; [reflexivity |]. exact (firstn_length_app (a :: A') _).
    + rewrite Hedge, app_nil_r.
      replace (edge A ++ A ++ [""] ++ B' ++ [b])%list
        with ((edge A ++ A ++ [""]) ++ (B' ++ [b]))%list
        by (rewrite <- !app_assoc; reflexivity).
      rewrite (length_app (edge A ++ A ++ [""])), Nat.add_sub.
      apply skipn_length_app.
Qed.

Lemma edge_no_char (c : ascii) (l : list string) :
  Forall (fun p => str_contains c p = false) (edge l).
Proof. destruct l; repeat constructor. Qed.

Lemma edge_length (l : list string) :
  (List.length (edge l) + List.length l = Nat.max 1 (List.length l))%nat.
Proof. destruct l; simpl; lia. Qed.

(** A compressed address is read back as the hextets before the run of
    zeros, the zeros, and the hextets after it. *)
Lemma v6_read_compressed (As Bs : list Z) (L : nat) :
  Forall in_hextet_range As -> Forall in_hextet_range Bs ->
  (1 <= L)%nat -> (List.length As + L + List.length Bs = 8)%nat ->
  _BaseV6._ip_int_from_string
    (str_join ":" (edge (hextet_texts As) ++ hextet_texts As ++ [""]
                   ++ hextet_texts Bs ++ edge (hextet_texts Bs)))
  = Ok (accumulate Bs (accumulate As 0 * 2 ^ (16 * Z.of_nat L))).
Proof.
  intros HAs HBs HL Hsum.
  pose proof (hextet_texts_nonempty As HAs) as HA.
  pose proof (hextet_texts_nonempty Bs HBs) as HB.
  assert (HlA : List.length (hextet_texts As) = List.length As)
    by (unfold hextet_texts; apply length_map).
  assert (HlB : List.length (hextet_texts Bs) = List.length Bs)
    by (unfold hextet_texts; apply length_map).
  assert (HpA : forall acc, _BaseV6._parse_hextets (hextet_texts As) acc
                            = Ok (accumulate As acc))
    by (intros acc; apply parse_hextets_value, HAs).
  assert (HpB : forall acc, _BaseV6._parse_hextets (hextet_texts Bs) acc
                            = Ok (accumulate Bs acc))
    by (intros acc; apply parse_hextets_value, HBs).
  assert (HcA : forall c, c = ":"%char \/ c = "."%char ->
                Forall (fun p => str_contains c p = false) (hextet_texts As))
    by (intros c [-> | ->]; apply hextet_texts_no_char; auto).
  assert (HcB : forall c, c = ":"%char \/ c = "."%char ->
                Forall (fun p => str_contains c p = false) (hextet_texts Bs))
    by (intros c [-> | ->]; apply hextet_texts_no_char; auto).
  set (A := hextet_texts As) in *. set (B := hextet_texts Bs) in *.
  destruct (compressed_parts_shape A B HA HB)
    as [[X [Y [Hmid [HX [HY HXlen]]]]] [Hhd [Hlast [Hlastin [Hlen [Hfirst Hskip]]]]]].
  pose proof (edge_length A) as HeA. pose proof (edge_length B) as HeB.
  set (parts := (edge A ++ A ++ [""] ++ B ++ edge B)%list) in *.
  rewrite v6_split_parts.
  - cbv zeta. rewrite Hmid, (find_skip_index_one X Y HX HY). cbn [bind].
    rewrite Hhd, Hlast. unfold _BaseV6._HEXTET_COUNT.
    assert (Hhi : (if match A with [] => true | _ :: _ => false end
                   then if negb (1 + Z.of_nat (List.length X) - 1 =? 0)
                        then Raise AddressValueError
                        else Ok (1 + Z.of_nat (List.length X) - 1)
                   else Ok (1 + Z.of_nat (List.length X)))
                  = Ok (Z.of_nat (List.length A))).
    { destruct A as [| a A']; cbn [edge List.length] in *.
      - assert (List.length X = 0%nat) by lia.
        replace (1 + Z.of_nat (List.length X) - 1) with 0 by lia. reflexivity.
      - f_equal. lia. }
    rewrite Hhi. cbn [bind].
    assert (Hlo : (if match B with [] => true | _ :: _ => false end
                   then if negb (Z.of_nat (List.length parts)
                                 - (1 + Z.of_nat (List.length X)) - 1 - 1 =? 0)
                        then Raise AddressValueError
                        else Ok (Z.of_nat (List.length parts)
                                 - (1 + Z.of_nat (List.length X)) - 1 - 1)
                   else Ok (Z.of_nat (List.length parts)
                            - (1 + Z.of_nat (List.length X)) - 1))
                  = Ok (Z.of_nat (List.length B))).
    { rewrite Hlen. destruct B as [| b B']; cbn [edge List.length] in *.
      - replace (Z.of_nat (List.length (edge A) + List.length A + 1 + 0 + 1)
                 - (1 + Z.of_nat (List.length X)) - 1 - 1) with 0 by lia.
        reflexivity.
      - f_equal. lia. }
    rewrite Hlo. cbn [bind].
    replace (8 - (Z.of_nat (List.length A) + Z.of_nat (List.length B)))
      with (Z.of_nat L) by lia.
    destruct (Z.ltb_spec (Z.of_nat L) 1) as [? | _]; [lia |].
    cbn [bind]. rewrite Nat2Z.id, Hfirst, HpA. cbn [bind].
    replace (Z.to_nat (Z.of_nat (List.length parts) - Z.of_nat (List.length B)))
      with (List.length parts - List.length B)%nat by lia.
    rewrite Hskip, HpB. cbn [try_except].
    rewrite Z.shiftl_mul_pow2 by lia. reflexivity.
  - pose proof (HcA ":"%char (or_introl eq_refl)) as H1.
    pose proof (HcB ":"%char (or_introl eq_refl)) as H2.
    unfold parts.
    apply Forall_app; split; [apply edge_no_char |].
    apply Forall_app; split; [exact H1 |].
    apply Forall_app; split; [repeat constructor |].
    apply Forall_app; split; [exact H2 | apply edge_no_char].
  - destruct Hlastin as [-> | Hin]; [reflexivity |].
    pose proof (HcB "."%char (or_intror eq_refl)) as Hdot.
    rewrite Forall_forall in Hdot. apply Hdot, Hin.
  - rewrite Hlen. lia.
Qed.

(** Texts of hextets that are all ["0"] come from zeros. *)
Lemma hextet_texts_zeros (hs : list Z) (L : nat) :
  Forall in_hextet_range hs -> hextet_texts hs = repeat "0" L ->
  hs = repeat 0 L.
Proof.
  intros Hr. revert L. induction Hr as [| h hs Hh _ IH]; intros [| L] H;
    try discriminate H; [reflexivity |].
  cbn [hextet_texts map repeat] in *. inversion H as [[H0 Hrest]].
  destruct (hextet_text h Hh) as [_ [_ [_ [_ [_ [_ Hz]]]]]].
  rewrite H0 in Hz. cbn [String.eqb Ascii.eqb Bool.eqb] in Hz.
  symmetry in Hz. apply Z.eqb_eq in Hz. subst h.
  f_equal. apply IH. exact Hrest.
Qed.

Lemma compress_Forall (P : string -> Prop) (xs : list string) :
  P "" -> Forall P xs -> Forall P (_BaseV6._compress_hextets xs).
Proof.
  intros H0 Hxs.
  assert (He : forall l, Forall P (edge l)) by (intros []; repeat constructor; exact H0).
  destruct (compress_shape xs) as [-> | [A [B [L [_ [Hsplit ->]]]]]]; [exact Hxs |].
  rewrite Hsplit in Hxs. apply Forall_app in Hxs. destruct Hxs as [HA Hxs].
  apply Forall_app in Hxs. destruct Hxs as [_ HB].
  apply Forall_app; split; [apply He |].
  apply Forall_app; split; [exact HA |].
  apply Forall_app; split; [repeat constructor; exact H0 |].
  apply Forall_app; split; [exact HB | apply He].
Qed.

Lemma compress_length (xs : list string) :
  (2 <= List.length xs)%nat -> (2 <= List.length (_BaseV6._compress_hextets xs))%nat.
Proof.
  intros H. destruct (compress_shape xs) as [-> | [A [B [L [_ [_ ->]]]]]]; [exact H |].
  rewrite !length_app. cbn [List.length].
  pose proof (edge_length A). pose proof (edge_length B). lia.
Qed.

Lemma str_contains_join_sep (c : ascii) (p q : string) (parts : list string) :
  str_contains c (str_join (String c "") (p :: q :: parts)) = true.
Proof.
  change (str_join (String c "") (p :: q :: parts))
    with (p ++ String c (str_join (String c "") (q :: parts))).
  rewrite str_contains_app. simpl. rewrite Ascii.eqb_refl.
  apply orb_true_r.
Qed.

(** An IPv6 address printed and read again is the same address. *)
Lemma v6_roundtrip (n : Z) :
  0 <= n < 2 ^ 128 ->
  exists s,
    _BaseV6._string_from_ip_int n = Ok s /\
    _BaseV6._ip_int_from_string s = Ok n /\
    str_contains "/" s = false /\ str_contains "%" s = false /\
    str_contains ":" s = true.
Proof.
  intros Hn.
  set (hs := big_endian 16 8 n).
  assert (Hr : Forall in_hextet_range hs) by (apply (big_endian_range 16 8 n); lia).
  assert (Hlen : List.length hs = 8%nat) by apply big_endian_length.
  assert (Hval : accumulate hs 0 = n).
  { unfold accumulate, hs. rewrite (big_endian_value 16 8 n) by lia.
    change (2 ^ (16 * Z.of_nat 8)) with (2 ^ 128). rewrite Z.mod_small by lia. lia. }
  exists (str_join ":" (_BaseV6._compress_hextets (hextet_texts hs))).
  split; [| split].
  - unfold _BaseV6._string_from_ip_int.
    destruct (Z.gtb_spec n (_ALL_ONES V6)) as [Hgt | _]; [| reflexivity].
    unfold _ALL_ONES in Hgt. cbn [_max_prefixlen] in Hgt. lia.
  - destruct (compress_shape (hextet_texts hs)) as [-> | [A [B [L [HL [Hsplit ->]]]]]].
    + rewrite (v6_read_plain hs Hr Hlen), Hval. reflexivity.
    + unfold hextet_texts in Hsplit.
      apply map_eq_app in Hsplit. destruct Hsplit as [As [Rest [Hhs [HA Hrest]]]].
      apply map_eq_app in Hrest. destruct Hrest as [Ms [Bs [HRest [HM HB]]]].
      subst Rest. rewrite Hhs in Hr.
      apply Forall_app in Hr. destruct Hr as [HrA Hr].
      apply Forall_app in Hr. destruct Hr as [HrM HrB].
      apply (hextet_texts_zeros Ms L HrM) in HM. subst Ms A B.
      assert (Hsum : (List.length As + L + List.length Bs = 8)%nat).
      { rewrite <- Hlen, Hhs, !length_app, repeat_length. lia. }
      fold (hextet_texts As). fold (hextet_texts Bs).
      rewrite (v6_read_compressed As Bs L HrA HrB) by lia.
      f_equal. rewrite <- Hval, Hhs. unfold accumulate.
      rewrite !fold_left_app, fold_zeros by lia. reflexivity.
  - assert (Hparts : forall c, c = ":"%char \/ c = "."%char \/ c = "/"%char \/ c = "%"%char ->
              Forall (fun p => str_contains c p = false)
                     (_BaseV6._compress_hextets (hextet_texts hs))).
    { intros c Hc. apply compress_Forall; [reflexivity |].
      apply hextet_texts_no_char; assumption. }
    assert (Hl2 : (2 <= List.length (_BaseV6._compress_hextets (hextet_texts hs)))%nat).
    { apply compress_length. unfold hextet_texts. rewrite length_map, Hlen. lia. }
    repeat split.
    + apply str_contains_join; [reflexivity | apply Hparts; auto].
    + apply str_contains_join; [reflexivity | apply Hparts; auto].
    + destruct (_BaseV6._compress_hextets (hextet_texts hs)) as [| p [| q rest]];
        cbn [List.length] in Hl2; try lia.
      apply str_contains_join_sep.
Qed.

(** ** Reading any printed address *)

Lemma str_join_split (c : ascii) (s : string) :
  str_join (String c "") (str_split c s) = s.
Proof.
  induction s as [| d s IH]; [reflexivity |].
  cbn [str_split]. destruct (Ascii.eqb_spec d c) as [-> | Hne].
  - pose proof (str_split_length_pos c s) as Hl.
    destruct (str_split c s) as [| p ps]; [simpl in Hl; lia |].
    change (str_join (String c "") ("" :: p :: ps))
      with (String c (str_join (String c "") (p :: ps))).
    rewrite IH. reflexivity.
  - pose proof (str_split_length_pos c s) as Hl.
    destruct (str_split c s) as [| p ps]; [simpl in Hl; lia |].
    destruct ps as [| q ps].
    + cbn [str_join] in *. rewrite IH. reflexivity.
    + change (str_join (String c "") (String d p :: q :: ps))
        with (String d (str_join (String c "") (p :: q :: ps))).
      rewrite IH. reflexivity.
Qed.

Lemma str_forall_app (P : ascii -> bool) (s1 s2 : string) :
  str_forall P (s1 ++ s2) = str_forall P s1 && str_forall P s2.
Proof.
  induction s1 as [| d s1 IH]; simpl; [reflexivity |].
  rewrite IH, andb_assoc. reflexivity.
Qed.

Lemma str_forall_join (P : ascii -> bool) (sep : ascii) (parts : list string) :
  P sep = true -> Forall (fun p => str_forall P p = true) parts ->
  str_forall P (str_join (String sep "") parts) = true.
Proof.
  intros Hsep. induction 1 as [| p parts Hp _ IH]; [reflexivity |].
  destruct parts as [| q parts]; [exact Hp |].
  change (str_join (String sep "") (p :: q :: parts))
    with (p ++ String sep (str_join (String sep "") (q :: parts))).
  rewrite str_forall_app, Hp. simpl. rewrite Hsep. exact IH.
Qed.

Lemma str_forall_contains (P : ascii -> bool) (c : ascii) (s : string) :
  str_forall P s = true -> str_contains c s = true -> P c = true.
Proof.
  induction s as [| d s IH]; simpl; intros Hall Hc; [discriminate |].
  apply andb_true_iff in Hall. destruct Hall as [Hd Hs].
  apply orb_true_iff in Hc. destruct Hc as [Hc | Hc]; [| exact (IH Hs Hc)].
  apply Ascii.eqb_eq in Hc. subst d. exact Hd.
Qed.

(** Only digits and dots make an IPv4 address. *)
Lemma v4_text_chars (s : string) (n : Z) :
  _BaseV4._ip_int_from_string s = Ok n -> str_forall is_digit_or_dot s = true.
Proof.
  unfold _BaseV4._ip_int_from_string. intros H.
  destruct (String.eqb s ""); [discriminate |]. cbv zeta in H.
  destruct (negb _); [discriminate |].
  apply try_except_Ok_inv in H. destruct H as [H | [e [_ [_ H]]]]; [| discriminate].
  apply bind_Ok_inv in H. destruct H as [octets [Hoct _]].
  rewrite <- (str_join_split "." s).
  apply str_forall_join; [reflexivity |].
  clear - Hoct. revert octets Hoct.
  induction (str_split "." s) as [| p ps IH]; intros octets H; [constructor |].
  cbn [map_result] in H.
  apply bind_Ok_inv in H. destruct H as [o [Ho H]].
  apply bind_Ok_inv in H. destruct H as [os [Hos _]].
  constructor; [| exact (IH _ Hos)].
  unfold _BaseV4._parse_octet in Ho.
  destruct (String.eqb p ""); [discriminate |].
  destruct (isascii_and_isdigit p) eqn:Hd; [| discriminate].
  unfold isascii_and_isdigit in Hd. apply andb_true_iff in Hd. destruct Hd as [_ Hd].
  clear - Hd. induction p as [| c p IHp]; [reflexivity |].
  simpl in *. apply andb_true_iff in Hd. destruct Hd as [Hc Hp].
  unfold is_digit_or_dot at 1. rewrite Hc, (IHp Hp). reflexivity.
Qed.

Lemma int_loop_raises (base : Z) (s : string) :
  forall acc e, int_loop base s acc = Raise e -> e = ValueError.
Proof.
  induction s as [| c s IH]; intros acc e H; simpl in H; [discriminate |].
  destruct (digit_value c) as [d |]; [| congruence].
  destruct (d <? base); [exact (IH _ _ H) | congruence].
Qed.

Lemma py_int_raises (s : string) (base : Z) (e : exn) :
  py_int s base = Raise e -> e = ValueError.
Proof.
  unfold py_int. intros H. destruct (String.eqb s ""); [congruence |].
  destruct (negb _ && _); [congruence |].
  exact (int_loop_raises _ _ _ _ H).
Qed.

Lemma parse_octet_raises (s : string) (e : exn) :
  _BaseV4._parse_octet s = Raise e -> e = ValueError.
Proof.
  unfold _BaseV4._parse_octet. intros H.
  repeat match type of H with
  | (if ?b then _ else _) = _ => destruct b; [congruence |]
  end.
  apply bind_Raise_inv in H. destruct H as [H | [o [_ H]]].
  - exact (py_int_raises _ _ _ H).
  - destruct (o >? 255); congruence.
Qed.

Lemma map_parse_octet_raises (l : list string) (e : exn) :
  map_result _BaseV4._parse_octet l = Raise e -> e = ValueError.
Proof.
  induction l as [| p ps IH]; simpl; intros H; [discriminate |].
  apply bind_Raise_inv in H. destruct H as [H | [o [_ H]]].
  - exact (parse_octet_raises _ _ H).
  - apply bind_Raise_inv in H. destruct H as [H | [os [_ H]]]; [exact (IH H) | discriminate].
Qed.

(** [IPv4Address] raises nothing but [AddressValueError]. *)
Lemma IPv4Address_raises (value : pystr) (e : exn) :
  IPv4Address value = Raise e -> e = AddressValueError.
Proof.
  unfold IPv4Address, _BaseV4._ip_int_from_string. intros H.
  destruct (str_contains "/" (py_str value)); [congruence |].
  apply bind_Raise_inv in H. destruct H as [H | [n [_ H]]]; [| discriminate].
  destruct (String.eqb (py_str value) ""); [congruence |]. cbv zeta in H.
  destruct (negb _); [congruence |].
  destruct (map_result _BaseV4._parse_octet (str_split "." (py_str value)))
    as [octets | e'] eqn:Hm; [discriminate |].
  apply map_parse_octet_raises in Hm. subst e'. simpl in H. congruence.
Qed.

(** A text with a colon is no IPv4 address. *)
Lemma IPv4Address_colon (s : string) :
  str_contains ":" s = true -> IPv4Address (Some s) = Raise AddressValueError.
Proof.
  intros Hc. destruct (IPv4Address (Some s)) as [a | e] eqn:H.
  - apply IPv4Address_inv in H. destruct H as [_ [_ [_ [H _]]]].
    apply v4_text_chars in H. cbn [py_str] in H.
    pose proof (str_forall_contains _ _ _ H Hc) as Hbad. discriminate Hbad.
  - apply IPv4Address_raises in H. congruence.
Qed.

Lemma str_partition_none (c : ascii) (s : string) :
  str_contains c s = false -> str_partition c s = (s, false, "").
Proof.
  induction s as [| d s IH]; simpl; intros H; [reflexivity |].
  apply orb_false_iff in H. destruct H as [Hd Hs].
  rewrite Hd, (IH Hs). reflexivity.
Qed.

Lemma str_partition_app (c : ascii) (s1 s2 : string) :
  str_contains c s1 = false ->
  str_partition c (s1 ++ String c s2) = (s1, true, s2).
Proof.
  induction s1 as [| d s1 IH]; simpl; intros H.
  - rewrite Ascii.eqb_refl. reflexivity.
  - apply orb_false_iff in H. destruct H as [Hd Hs].
    rewrite Hd, (IH Hs). reflexivity.
Qed.

(** What comes after the separator was part of the text. *)
Lemma str_partition_after (c d : ascii) (s : string) :
  str_contains d s = false ->
  str_contains d (snd (str_partition c s)) = false.
Proof.
  induction s as [| x s IH]; simpl; intros H; [reflexivity |].
  apply orb_false_iff in H. destruct H as [Hx Hs].
  destruct (Ascii.eqb x c); [exact Hs |].
  specialize (IH Hs). destruct (str_partition c s) as [[b f] a]. exact IH.
Qed.

(** Printing an address and handing the text to [ip_address] gives the
    address back. *)
Lemma ip_address_roundtrip (a : IPAddress) :
  printable a ->
  exists s, address_str a = Ok s /\ ip_address (Some s) = Ok a.
Proof.
  intros [Hv Hscope]. destruct a as [cls n scope].
  unfold valid_address, _ALL_ONES in Hv. cbn [cls_of _ip _scope_id] in *.
  unfold address_str, ip_address. cbn [cls_of _ip _scope_id].
  destruct cls; cbn [_max_prefixlen] in Hv.
  - destruct scope as [scope |]; [destruct Hscope as [Hc _]; discriminate Hc |].
    destruct (v4_roundtrip n) as [s [Hprint [Hread Hslash]]]; [lia |].
    exists s. split; [exact Hprint |].
    unfold IPv4Address. cbn [py_str]. rewrite Hslash, Hread. reflexivity.
  - destruct (v6_roundtrip n) as [s [Hprint [Hread [Hslash [Hpct Hcolon]]]]]; [lia |].
    rewrite Hprint. cbn [bind].
    assert (Hno_scope : ip_address (Some s) = Ok (Address V6 n None)).
    { unfold ip_address. rewrite (IPv4Address_colon s Hcolon).
      cbn [try_except is_Address_or_Netmask_error].
      unfold IPv6Address, _BaseV6._split_scope_id. cbn [py_str].
      rewrite Hslash, (str_partition_none _ _ Hpct). cbn [negb bind].
      rewrite Hread. reflexivity. }
    destruct scope as [scope |]; [| exists s; split; [reflexivity | exact Hno_scope]].
    destruct Hscope as [_ [Hne [Hp Hs]]]. rewrite Hne.
    exists (s ++ "%" ++ scope). split; [reflexivity |].
    unfold ip_address.
    rewrite IPv4Address_colon by (rewrite str_contains_app, Hcolon; reflexivity).
    cbn [try_except is_Address_or_Netmask_error].
    unfold IPv6Address, _BaseV6._split_scope_id. cbn [py_str].
    rewrite str_contains_app, Hslash. cbn [orb].
    change ("%" ++ scope) with (String "%" scope).
    assert (Hsl : str_contains "/" (String "%" scope) = false) by exact Hs.
    rewrite Hsl, (str_partition_app _ _ _ Hpct). cbn [negb].
    rewrite Hne, Hp. cbn [orb bind]. rewrite Hread. reflexivity.
Qed.

Lemma IPv6Address_scope (value : pystr) (a : IPAddress) :
  IPv6Address value = Ok a ->
  match _scope_id a with
  | None => True
  | Some scope =>
      String.eqb scope "" = false /\
      str_contains "%" scope = false /\ str_contains "/" scope = false
  end.
Proof.
  unfold IPv6Address, _BaseV6._split_scope_id. intros H.
  destruct (str_contains "/" (py_str value)) eqn:Hs; [discriminate |].
  pose proof (str_partition_after "%" "/" _ Hs) as Hafter.
  destruct (str_partition "%" (py_str value)) as [[addr sep] scope].
  cbn [snd] in Hafter.
  destruct (negb sep).
  - cbn [bind] in H. apply bind_Ok_inv in H. destruct H as [n [_ H]].
    inversion H; subst. exact I.
  - destruct (String.eqb scope "" || str_contains "%" scope) eqn:E; [discriminate |].
    apply orb_false_iff in E. destruct E as [E1 E2].
    cbn [bind] in H. apply bind_Ok_inv in H. destruct H as [n [_ H]].
    inversion H; subst. cbn [_scope_id]. auto.
Qed.

Lemma extracted_printable (value : pystr) (a : IPAddress) :
  extracted_address value = Some a -> printable a.
Proof.
  unfold extracted_address. intros H.
  destruct (ip_address value) as [a' | e] eqn:Ha.
  - inversion H; subst a'. split.
    + eapply address_class_valid, ip_address_inv, Ha.
    + apply ip_address_cases in Ha. destruct Ha as [H4 | [e [_ [_ H6]]]].
      * apply IPv4Address_inv in H4. destruct H4 as [_ [_ [-> _]]]. exact I.
      * pose proof (IPv6Address_scope _ _ H6) as Hs.
        pose proof (IPv6Address_inv _ _ H6) as [_ [Hc _]].
        destruct (_scope_id a); [tauto | exact I].
  - destruct (ip_interface value) as [i | e'] eqn:Hi; [| discriminate].
    inversion H; subst a. split; [apply (ip_interface_ip _ _ Hi) | exact I].
Qed.

(** What [ip_only] returns is the text of the extracted address. *)
Lemma ip_only_extracted (value : pystr) :
  ip_only value = Ok (option_map address_text (extracted_address value)).
Proof.
  rewrite ip_only_spec. unfold extracted_address.
  destruct (ip_address value); [reflexivity |].
  destruct (ip_interface value); reflexivity.
Qed.

(** The text [ip_only] returns always reads back as the extracted
    address. *)
Lemma ip_only_reparse (value : pystr) (text : string) :
  ip_only value = Ok (Some text) ->
  exists addr,
    extracted_address value = Some addr /\
    address_str addr = Ok text /\
    ip_address (Some text) = Ok addr.
Proof.
  rewrite ip_only_extracted. intros H.
  destruct (extracted_address value) as [a |] eqn:He; [| discriminate].
  cbn [option_map] in H. inversion H as [Htext].
  pose proof (extracted_printable _ _ He) as Hp.
  destruct (ip_address_roundtrip a Hp) as [s [Hs Hr]].
  assert (address_text a = s) by (unfold address_text; rewrite Hs; reflexivity).
  exists a. subst s. auto.
Qed.

(** Extraction is idempotent: the text it returns is an address in its
    canonical form. *)
Lemma ip_only_idempotent (value : pystr) (text : string) :
  ip_only value = Ok (Some text) -> ip_only (Some text) = Ok (Some text).
Proof.
  intros H. apply ip_only_reparse in H. destruct H as [addr [_ [Hs Hr]]].
  rewrite ip_only_spec, Hr. unfold address_text. rewrite Hs. reflexivity.
Qed.

(** [in_subnet] in terms of the extracted address. *)
Lemma in_subnet_answer_extracted (value : pystr) (subnet : string) :
  in_subnet_answer value subnet =
  match extracted_address value, ip_network (Some subnet) true with
  | Some addr, Ok net => __contains__ net addr
  | _, _ => false
  end.
Proof.
  unfold in_subnet_answer. rewrite ip_only_extracted.
  destruct (extracted_address value) as [a |] eqn:He; cbn [option_map bind].
  - assert (Ho : ip_only value = Ok (Some (address_text a)))
      by (rewrite ip_only_extracted, He; reflexivity).
    apply ip_only_reparse in Ho. destruct Ho as [a' [He' [_ Hr]]].
    rewrite He in He'. inversion He'; subst a'. rewrite Hr. reflexivity.
  - reflexivity.
Qed.

(** An element without text, such as an empty tag, has the text [None]: the
    bound predicates then answer what their predicates answer on [None],
    which is [False] for seven of them and [None] for the two "host"
    predicates that go through [is_host_ip6]. *)
Lemma bound_on_element_without_text {C : Type} (dummy : C) (rest : list xpath_item)
      (name : string) (f : pystr -> result pyval) :
  In (name, f) _ns_ext_predicates ->
  make_nsf f dummy (XNodeSet (Element None :: rest)) = f None /\
  (f None = Ok (PyBool false) \/ f None = Ok PyNone).
Proof.
  intros Hin. split.
  - rewrite make_nsf_spec. cbn [first_text].
    destruct (predicates_return name f None Hin) as [v [-> _]]. reflexivity.
  - unfold _ns_ext_predicates in Hin. simpl in Hin.
    repeat (destruct Hin as [Hin | Hin]; [inversion Hin; subst; clear Hin |]);
      try contradiction; vm_compute; auto.
Qed.

(** The remaining examples of the specification, evaluated on the empty
    cache. *)
Example in_subnet_examples :
  fst (in_subnet (Some "10.1.2.3") (ExactStr "10.10.0.0/16") []) = Ok (PyBool false) /\
  fst (in_subnet (Some "10.10.5.5") (ExactStr "10.10.0.0/16") []) = Ok (PyBool true) /\
  fst (in_subnet (Some "not-an-ip") (ExactStr "10.10.0.0/16") []) = Ok (PyBool false) /\
  fst (in_subnet (Some "10.10.5.5") (ExactStr "not-a-subnet") []) = Ok (PyBool false) /\
  fst (in_subnet (Some "fe80::1") (ExactStr "10.0.0.0/8") []) = Ok (PyBool false) /\
  fst (in_subnet (Some "10.10.0.0/16") (ExactStr "10.0.0.0/8") []) = Ok (PyBool true) /\
  fst (in_subnet (Some "10.1.2.3/24") (ExactStr "10.0.0.0/8") []) = Ok (PyBool true).
Proof. repeat split; vm_compute; reflexivity. Qed.

Example family_examples :
  is_host_ip4 (Some "10.1.2.3") = Ok (PyBool true) /\
  is_net_ip4 (Some "10.1.2.3") = Ok (PyBool false) /\
  is_net_ip4 (Some "10.1.2.3/32") = Ok (PyBool false) /\
  is_any_ip4 (Some "10.1.2.3/32") = Ok (PyBool true) /\
  is_net_ip4 (Some "10.10.0.0/16") = Ok (PyBool true) /\
  is_any_ip4 (Some "fe80::1") = Ok (PyBool false) /\
  is_any_ip (Some "fe80::1") = Ok (PyBool true) /\
  is_host_ip (Some "fe80::1") = Ok (PyBool true).
Proof. repeat split; vm_compute; reflexivity. Qed.

(* ------------------------------------------------------------------------ *)
(** * The exceptions of the IPv4 constructors *)
(* ------------------------------------------------------------------------ *)

Lemma v4_ip_int_from_string_raises (s : string) (e : exn) :
  _BaseV4._ip_int_from_string s = Raise e -> e = AddressValueError.
Proof.
  unfold _BaseV4._ip_int_from_string. intros H.
  destruct (String.eqb s ""); [congruence |]. cbv zeta in H.
  destruct (negb _); [congruence |].
  destruct (map_result _BaseV4._parse_octet (str_split "." s))
    as [octets | e'] eqn:Hm; [discriminate |].
  apply map_parse_octet_raises in Hm. subst e'. simpl in H. congruence.
Qed.

Lemma split_addr_prefix_raises (cls : family) (value : pystr) (e : exn) :
  _split_addr_prefix cls (ArgStr value) = Raise e -> e = AddressValueError.
Proof.
  unfold _split_addr_prefix, _split_optional_netmask. intros H.
  pose proof (str_split_length_pos "/" (py_str value)) as Hlen.
  destruct (2 <? Z.of_nat (List.length (str_split "/" (py_str value))));
    [cbn [bind] in H; congruence |].
  cbn [bind] in H.
  destruct (str_split "/" (py_str value)) as [| a [| m rest]];
    [simpl in Hlen; lia | discriminate | discriminate].
Qed.

Lemma prefix_from_prefix_string_raises (cls : family) (s : string) (e : exn) :
  _prefix_from_prefix_string cls s = Raise e -> e = NetmaskValueError.
Proof.
  unfold _prefix_from_prefix_string. intros H.
  destruct (negb (isascii_and_isdigit s)); [congruence |].
  apply bind_Raise_inv in H. destruct H as [H | [p [_ H]]].
  - destruct (py_int s 10) as [r | e'] eqn:Hl; [discriminate |].
    apply py_int_raises in Hl. subst e'.
    cbn [try_except is_ValueError] in H. congruence.
  - destruct (negb _); congruence.
Qed.

Lemma prefix_from_ip_int_raises (cls : family) (n : Z) (e : exn) :
  _prefix_from_ip_int cls n = Raise e -> e = ValueError.
Proof.
  unfold _prefix_from_ip_int. cbv zeta. intros H.
  destruct (negb _); congruence.
Qed.

Lemma v4_prefix_from_ip_string_raises (s : string) (e : exn) :
  _prefix_from_ip_string V4 s = Raise e -> e = NetmaskValueError.
Proof.
  unfold _prefix_from_ip_string, _ip_int_from_string. intros H.
  apply bind_Raise_inv in H. destruct H as [H | [n [_ H]]].
  - destruct (_BaseV4._ip_int_from_string s) as [n | e'] eqn:Hs; [discriminate |].
    apply v4_ip_int_from_string_raises in Hs. subst e'.
    cbn [try_except is_AddressValueError] in H. congruence.
  - destruct (_prefix_from_ip_int V4 n) as [p | e1] eqn:H1; [discriminate |].
    apply prefix_from_ip_int_raises in H1. subst e1.
    cbn [try_except is_ValueError] in H. cbv zeta in H.
    destruct (_prefix_from_ip_int V4 (Z.lxor n (_ALL_ONES V4))) as [p | e2] eqn:H2;
      [discriminate |].
    apply prefix_from_ip_int_raises in H2. subst e2.
    cbn [try_except is_ValueError] in H. congruence.
Qed.

Lemma v4_make_netmask_raises (value : pystr) (a : string) (m : mask_arg) (e : exn) :
  _split_addr_prefix V4 (ArgStr value) = Ok (a, m) ->
  _make_netmask V4 m = Raise e -> e = NetmaskValueError.
Proof.
  intros Hsplit H. unfold _make_netmask in H.
  apply bind_Raise_inv in H. destruct H as [H | [p [Hp H]]].
  - destruct m as [p | text].
    + destruct (negb _); congruence.
    + destruct (_prefix_from_prefix_string V4 text) as [p | e1] eqn:H1;
        [discriminate |].
      apply prefix_from_prefix_string_raises in H1. subst e1.
      cbn [try_except is_NetmaskValueError] in H.
      exact (v4_prefix_from_ip_string_raises _ _ H).
  - assert (Hr : 0 <= p <= _max_prefixlen V4).
    { destruct m as [q | text].
      - destruct (negb ((0 <=? q) && (q <=? _max_prefixlen V4))) eqn:E;
          [discriminate |].
        inversion Hp; subst q. apply negb_false_iff, andb_true_iff in E. lia.
      - apply try_except_Ok_inv in Hp. destruct Hp as [Hp | [e1 [_ [_ Hp]]]].
        + exact (prefix_from_prefix_string_range _ _ _ Hp).
        + unfold _prefix_from_ip_string in Hp.
          apply bind_Ok_inv in Hp. destruct Hp as [n [_ Hp]].
          apply try_except_Ok_inv in Hp. destruct Hp as [Hp | [e2 [_ [_ Hp]]]].
          * exact (prefix_from_ip_int_range _ _ _ Hp).
          * cbv zeta in Hp.
            apply try_except_Ok_inv in Hp. destruct Hp as [Hp | [e3 [_ [_ Hp]]]].
            -- exact (prefix_from_ip_int_range _ _ _ Hp).
            -- discriminate. }
    destruct (ip_int_from_prefix_spec V4 p Hr) as [_ Hm].
    rewrite (address_of_int_Ok V4 _ Hm) in H. discriminate.
Qed.

(** Reading an IPv4 form fails with [AddressValueError] or
    [NetmaskValueError] only: the factories always go on to IPv6. *)
Lemma v4_parsed_parts_raises (value : pystr) (e : exn) :
  parsed_parts V4 value = Raise e -> is_Address_or_Netmask_error e = true.
Proof.
  unfold parsed_parts. intros H.
  apply bind_Raise_inv in H. destruct H as [H | [[a m] [Hs H]]].
  - apply split_addr_prefix_raises in H. subst. reflexivity.
  - apply bind_Raise_inv in H. destruct H as [H | [x [_ H]]].
    + apply IPv4Address_raises in H. subst. reflexivity.
    + apply bind_Raise_inv in H. destruct H as [H | [[nm p] [_ H]]].
      * apply (v4_make_netmask_raises _ _ _ _ Hs) in H. subst. reflexivity.
      * discriminate.
Qed.

(* ------------------------------------------------------------------------ *)
(** * The two families share no text *)
(* ------------------------------------------------------------------------ *)

(** The text of an IPv6 address has a colon. *)
Lemma v6_ip_int_colon (s : string) (n : Z) :
  _BaseV6._ip_int_from_string s = Ok n -> str_contains ":" s = true.
Proof.
  intros H. destruct (str_contains ":" s) eqn:Hc; [reflexivity | exfalso].
  unfold _BaseV6._ip_int_from_string in H.
  destruct (String.eqb s ""); [discriminate |]. cbv zeta in H.
  rewrite (str_split_no_sep _ _ Hc) in H.
  replace (Z.of_nat (List.length [s]) <? 3) with true in H by reflexivity.
  discriminate.
Qed.

Lemma str_partition_before (c d : ascii) (s : string) :
  str_contains d (fst (fst (str_partition c s))) = true -> str_contains d s = true.
Proof.
  induction s as [| x s IH]; simpl; [auto |].
  destruct (Ascii.eqb x c); [simpl; discriminate |].
  destruct (str_partition c s) as [[before found] after]. simpl in *.
  intros H. apply orb_true_iff in H. apply orb_true_iff.
  destruct H as [H | H]; [left; exact H | right; exact (IH H)].
Qed.

Lemma IPv6Address_colon (value : pystr) (a : IPAddress) :
  IPv6Address value = Ok a -> str_contains ":" (py_str value) = true.
Proof.
  unfold IPv6Address, _BaseV6._split_scope_id. intros H.
  destruct (str_contains "/" (py_str value)); [discriminate |].
  pose proof (str_partition_before "%" ":" (py_str value)) as Hb.
  destruct (str_partition "%" (py_str value)) as [[addr sep] scope].
  cbn [fst] in Hb. apply Hb.
  destruct (negb sep).
  - cbn [bind] in H. apply bind_Ok_inv in H. destruct H as [n [Hn _]].
    exact (v6_ip_int_colon _ _ Hn).
  - destruct (String.eqb scope "" || str_contains "%" scope); [discriminate |].
    cbn [bind] in H. apply bind_Ok_inv in H. destruct H as [n [Hn _]].
    exact (v6_ip_int_colon _ _ Hn).
Qed.

(** The address part of a form is the text before the slash, whatever the
    family. *)
Lemma parsed_parts_address (cls : family) (value : pystr) a m p :
  parsed_parts cls value = Ok (a, m, p) ->
  address_class cls (Some (hd "" (str_split "/" (py_str value)))) = Ok a.
Proof.
  unfold parsed_parts. intros H.
  apply bind_Ok_inv in H. destruct H as [[addr mask] [Hs H]].
  apply bind_Ok_inv in H. destruct H as [a' [Ha H]].
  apply bind_Ok_inv in H. destruct H as [[nm q] [_ H]].
  inversion H; subst.
  unfold _split_addr_prefix, _split_optional_netmask in Hs.
  destruct (2 <? Z.of_nat (List.length (str_split "/" (py_str value))));
    [discriminate |].
  cbn [bind] in Hs.
  destruct (str_split "/" (py_str value)) as [| x [| y rest]];
    [discriminate | |]; inversion Hs; subst; exact Ha.
Qed.

Lemma families_disjoint (value : pystr) x y :
  parsed_parts V4 value = Ok x -> parsed_parts V6 value = Ok y -> False.
Proof.
  destruct x as [[a4 m4] p4], y as [[a6 m6] p6]. intros H4 H6.
  apply parsed_parts_address in H4, H6. cbn [address_class] in H4, H6.
  apply IPv6Address_colon in H6. cbn [py_str] in H6.
  rewrite (IPv4Address_colon _ H6) in H4. discriminate.
Qed.

Lemma families_disjoint_bool (value : pystr) :
  is_Ok (parsed_parts V4 value) && is_Ok (parsed_parts V6 value) = false.
Proof.
  destruct (parsed_parts V4 value) as [x |] eqn:H4; [| reflexivity].
  destruct (parsed_parts V6 value) as [y |] eqn:H6; [| reflexivity].
  destruct (families_disjoint _ _ _ H4 H6).
Qed.

Lemma is_any_ip4_parts (value : pystr) :
  is_any_ip4 value = Ok (PyBool (is_Ok (parsed_parts V4 value))).
Proof. rewrite is_any_ip4_any_test. apply any_test_spec. Qed.

Lemma is_any_ip6_parts (value : pystr) :
  is_any_ip6 value = Ok (PyBool (is_Ok (parsed_parts V6 value))).
Proof. rewrite is_any_ip6_any_test. apply any_test_spec. Qed.

Lemma is_any_ip_parts (value : pystr) :
  is_any_ip value
  = Ok (PyBool (is_Ok (parsed_parts V4 value) || is_Ok (parsed_parts V6 value))).
Proof.
  unfold is_any_ip. rewrite is_any_ip4_parts, is_any_ip6_parts. apply py_or_bool.
Qed.

Lemma is_net_ip4_parts (value : pystr) :
  is_net_ip4 value = Ok (PyBool (short_prefix V4 value)).
Proof.
  rewrite is_net_ip4_net_test, net_test_spec. unfold short_prefix.
  destruct (parsed_parts V4 value) as [[[a m] p] |]; reflexivity.
Qed.

Lemma is_net_ip6_parts (value : pystr) :
  is_net_ip6 value = Ok (PyBool (short_prefix V6 value)).
Proof.
  rewrite is_net_ip6_net_test, net_test_spec. unfold short_prefix.
  destruct (parsed_parts V6 value) as [[[a m] p] |]; reflexivity.
Qed.

Lemma is_net_ip_parts (value : pystr) :
  is_net_ip value = Ok (PyBool (short_prefix V4 value || short_prefix V6 value)).
Proof.
  unfold is_net_ip. rewrite is_net_ip4_parts, is_net_ip6_parts. apply py_or_bool.
Qed.

Lemma short_prefix_is_Ok (cls : family) (value : pystr) :
  short_prefix cls value = true -> is_Ok (parsed_parts cls value) = true.
Proof.
  unfold short_prefix. destruct (parsed_parts cls value); [reflexivity | discriminate].
Qed.

Lemma short_prefix_slash (cls : family) (value : pystr) :
  short_prefix cls value = true -> str_contains "/" (py_str value) = true.
Proof.
  unfold short_prefix. intros H.
  destruct (parsed_parts cls value) as [[[a m] p] |] eqn:Hp; [| discriminate].
  apply (parsed_parts_short_prefix _ _ _ _ _ Hp).
  apply negb_true_iff, Z.eqb_neq in H. exact H.
Qed.

Lemma bare_not_short_prefix (cls : family) (value : pystr) :
  str_contains "/" (py_str value) = false -> short_prefix cls value = false.
Proof.
  intros H. destruct (short_prefix cls value) eqn:E; [| reflexivity].
  apply short_prefix_slash in E. congruence.
Qed.

(** X1 (the families exclude each other).  No text is an IPv4 form and an
    IPv6 form at once: [is_any_ip4] and [is_any_ip6] both return a boolean,
    never both [True], so [is_any_ip] is [True] exactly when one of the two
    is.  An IPv6 address part needs a colon, which no IPv4 address part
    has. *)
Theorem families_exclusive (value : pystr) :
  exists b4 b6,
    is_any_ip4 value = Ok (PyBool b4) /\
    is_any_ip6 value = Ok (PyBool b6) /\
    b4 && b6 = false /\
    is_any_ip value = Ok (PyBool (xorb b4 b6)).
Proof.
  exists (is_Ok (parsed_parts V4 value)), (is_Ok (parsed_parts V6 value)).
  split; [apply is_any_ip4_parts |]. split; [apply is_any_ip6_parts |].
  pose proof (families_disjoint_bool value) as Hd.
  split; [exact Hd |]. rewrite is_any_ip_parts.
  destruct (is_Ok (parsed_parts V4 value)), (is_Ok (parsed_parts V6 value));
    try reflexivity; discriminate Hd.
Qed.

(* ------------------------------------------------------------------------ *)
(** * Hosts and nets among the forms *)
(* ------------------------------------------------------------------------ *)

Lemma address_form_parts (cls : family) (value : pystr) (a : IPAddress) :
  address_class cls value = Ok a ->
  is_Ok (parsed_parts cls value) = true /\
  forall cls', short_prefix cls' value = false.
Proof.
  intros Ha. split.
  - rewrite (parsed_parts_of_address _ _ _ Ha). reflexivity.
  - intros cls'. apply bare_not_short_prefix.
    apply (address_class_inv _ _ _ Ha).
Qed.

Lemma is_Ok_true {A : Type} (r : result A) :
  is_Ok r = true -> exists a, r = Ok a.
Proof. destruct r as [a | e]; [eauto | discriminate]. Qed.

Lemma slash_not_address (cls : family) (value : pystr) :
  str_contains "/" (py_str value) = true -> is_Ok (address_class cls value) = false.
Proof. intros H. rewrite (address_class_slash _ _ H). reflexivity. Qed.

(** X2 (a host is a form and not a net).  Whenever a "host" predicate
    answers [True], the "any" predicate of the same kind answers [True] and
    the "net" predicate answers [False]: for IPv4, for IPv6 and for the
    combined predicates. *)
Theorem host_within_any (value : pystr) :
  (is_host_ip4 value = Ok (PyBool true) ->
   is_any_ip4 value = Ok (PyBool true) /\ is_net_ip4 value = Ok (PyBool false)) /\
  (is_host_ip6 value = Ok (PyBool true) ->
   is_any_ip6 value = Ok (PyBool true) /\ is_net_ip6 value = Ok (PyBool false)) /\
  (is_host_ip value = Ok (PyBool true) ->
   is_any_ip value = Ok (PyBool true) /\ is_net_ip value = Ok (PyBool false)).
Proof.
  rewrite is_host_ip4_spec, is_host_ip6_spec, is_host_ip_spec.
  rewrite is_any_ip4_parts, is_any_ip6_parts, is_any_ip_parts.
  rewrite is_net_ip4_parts, is_net_ip6_parts, is_net_ip_parts.
  split; [| split].
  - intros H. destruct (IPv4Address value) as [a |] eqn:Ha; [| discriminate].
    destruct (address_form_parts V4 value a Ha) as [-> Hs]. rewrite Hs. auto.
  - intros H. destruct (IPv6Address value) as [a |] eqn:Ha; [| discriminate].
    destruct (address_form_parts V6 value a Ha) as [-> Hs]. rewrite Hs. auto.
  - intros H. destruct (IPv4Address value) as [a |] eqn:Ha.
    + destruct (address_form_parts V4 value a Ha) as [-> Hs]. rewrite !Hs. auto.
    + destruct (IPv6Address value) as [a |] eqn:Ha6; [| discriminate].
      destruct (address_form_parts V6 value a Ha6) as [-> Hs]. rewrite !Hs.
      rewrite orb_true_r. auto.
Qed.

Lemma host_within_any_witness :
  is_any_ip (Some "fe80::1") = Ok (PyBool true) /\
  is_net_ip (Some "fe80::1") = Ok (PyBool false).
Proof.
  apply (proj2 (proj2 (host_within_any (Some "fe80::1")))).
  vm_compute. reflexivity.
Defined.

(** X3 (a net is a form and not a host).  Whenever a "net" predicate answers
    [True], the "any" predicate of the same kind answers [True] and the
    "host" predicate does not: [is_host_ip4] answers [False], while
    [is_host_ip6] and [is_host_ip] answer [None]. *)
Theorem net_within_any (value : pystr) :
  (is_net_ip4 value = Ok (PyBool true) ->
   is_any_ip4 value = Ok (PyBool true) /\ is_host_ip4 value = Ok (PyBool false)) /\
  (is_net_ip6 value = Ok (PyBool true) ->
   is_any_ip6 value = Ok (PyBool true) /\ is_host_ip6 value = Ok PyNone) /\
  (is_net_ip value = Ok (PyBool true) ->
   is_any_ip value = Ok (PyBool true) /\ is_host_ip value = Ok PyNone).
Proof.
  rewrite is_host_ip4_spec, is_host_ip6_spec, is_host_ip_spec.
  rewrite is_any_ip4_parts, is_any_ip6_parts, is_any_ip_parts.
  rewrite is_net_ip4_parts, is_net_ip6_parts, is_net_ip_parts.
  split; [| split].
  - intros H. inversion H as [Hs].
    rewrite (short_prefix_is_Ok _ _ Hs).
    pose proof (slash_not_address V4 _ (short_prefix_slash _ _ Hs)) as Hn.
    cbn [address_class] in Hn. rewrite Hn, Hs. auto.
  - intros H. inversion H as [Hs].
    rewrite (short_prefix_is_Ok _ _ Hs).
    pose proof (slash_not_address V6 _ (short_prefix_slash _ _ Hs)) as Hn.
    cbn [address_class] in Hn. rewrite Hn, Hs. auto.
  - intros H. inversion H as [Hs]. rewrite Hs.
    apply orb_true_iff in Hs.
    assert (Hslash : str_contains "/" (py_str value) = true)
      by (destruct Hs as [Hs | Hs]; exact (short_prefix_slash _ _ Hs)).
    pose proof (slash_not_address V4 _ Hslash) as H4.
    pose proof (slash_not_address V6 _ Hslash) as H6.
    cbn [address_class] in H4, H6. rewrite H4, H6. cbn [orb]. split; [| reflexivity].
    destruct Hs as [Hs | Hs]; rewrite (short_prefix_is_Ok _ _ Hs);
      [| rewrite orb_true_r]; reflexivity.
Qed.

Lemma net_within_any_witness :
  is_any_ip (Some "2001:db8::/32") = Ok (PyBool true) /\
  is_host_ip (Some "2001:db8::/32") = Ok PyNone.
Proof.
  apply (proj2 (proj2 (net_within_any (Some "2001:db8::/32")))).
  vm_compute. reflexivity.
Defined.

(* ------------------------------------------------------------------------ *)
(** * The interface constructor decides *)
(* ------------------------------------------------------------------------ *)

Lemma interface_class_is_Ok (cls : family) (value : pystr) :
  is_Ok (interface_class cls value) = is_Ok (parsed_parts cls value).
Proof.
  rewrite interface_class_view.
  destruct (parsed_parts cls value) as [[[a m] p] | e]; reflexivity.
Qed.

Lemma interface_class_short_prefix (cls : family) (value : pystr) :
  match interface_class cls value with
  | Ok i => negb (if_prefixlen i =? _max_prefixlen cls)
  | Raise _ => false
  end = short_prefix cls value.
Proof.
  rewrite interface_class_view. unfold short_prefix.
  destruct (parsed_parts cls value) as [[[a m] p] | e]; reflexivity.
Qed.

Lemma ip_interface_is_Ok (value : pystr) :
  is_Ok (ip_interface value)
  = is_Ok (parsed_parts V4 value) || is_Ok (parsed_parts V6 value).
Proof.
  unfold ip_interface, IPv4Interface, IPv6Interface.
  rewrite !interface_class_view.
  destruct (parsed_parts V4 value) as [[[a m] p] | e] eqn:H4; [reflexivity |].
  cbn [bind try_except]. rewrite (v4_parsed_parts_raises _ _ H4).
  destruct (parsed_parts V6 value) as [[[a m] p] | e'] eqn:H6; [reflexivity |].
  cbn [bind try_except is_Ok orb].
  destruct (is_Address_or_Netmask_error e'); reflexivity.
Qed.

(** X4 (the interface constructor decides).  Of the constructors the "any"
    and "net" predicates try in turn, the interface constructor alone
    settles the answer: [is_any_ip4] is [True] exactly when [IPv4Interface]
    accepts the text, [is_net_ip4] exactly when it accepts it with a prefix
    length other than 32, likewise for IPv6 with 128, and [is_any_ip] exactly
    when the factory [ip_interface] accepts it. *)
Theorem interface_decides (value : pystr) :
  is_any_ip4 value = Ok (PyBool (is_Ok (IPv4Interface value))) /\
  is_any_ip6 value = Ok (PyBool (is_Ok (IPv6Interface value))) /\
  is_any_ip value = Ok (PyBool (is_Ok (ip_interface value))) /\
  is_net_ip4 value = Ok (PyBool match IPv4Interface value with
                                | Ok i => negb (if_prefixlen i =? 32)
                                | Raise _ => false
                                end) /\
  is_net_ip6 value = Ok (PyBool match IPv6Interface value with
                                | Ok i => negb (if_prefixlen i =? 128)
                                | Raise _ => false
                                end).
Proof.
  unfold IPv4Interface, IPv6Interface.
  rewrite is_any_ip4_parts, is_any_ip6_parts, is_any_ip_parts.
  rewrite is_net_ip4_parts, is_net_ip6_parts.
  rewrite !interface_class_is_Ok, ip_interface_is_Ok.
  rewrite <- (interface_class_short_prefix V4), <- (interface_class_short_prefix V6).
  repeat split; reflexivity.
Qed.

(* ------------------------------------------------------------------------ *)
(** * Extraction and the predicates *)
(* ------------------------------------------------------------------------ *)

Lemma extracted_is_Ok (value : pystr) :
  match extracted_address value with Some _ => true | None => false end
  = is_Ok (ip_interface value).
Proof.
  unfold extracted_address. destruct (ip_address value) as [a | e] eqn:Ha.
  - destruct (ip_address_is_interface _ _ Ha) as [i [-> _]]. reflexivity.
  - destruct (ip_interface value); reflexivity.
Qed.

(** The family of the extracted address is a family that reads the text. *)
Lemma extracted_family (value : pystr) (a : IPAddress) :
  extracted_address value = Some a ->
  is_Ok (parsed_parts (cls_of a) value) = true.
Proof.
  unfold extracted_address. intros H.
  destruct (ip_address value) as [a' | e] eqn:Ha.
  - inversion H; subst a'. apply ip_address_inv in Ha.
    rewrite (parsed_parts_of_address _ _ _ Ha). reflexivity.
  - destruct (ip_interface value) as [i | e'] eqn:Hi; [| discriminate].
    inversion H; subst a. cbn [interface_ip cls_of].
    destruct (ip_interface_inv _ _ Hi) as [cls Hc].
    destruct (interface_address_valid _ _ _ Hc) as [-> _].
    rewrite <- interface_class_is_Ok, Hc. reflexivity.
Qed.

Lemma extracted_family_of_parts (cls : family) (value : pystr) (a : IPAddress) :
  extracted_address value = Some a ->
  is_Ok (parsed_parts cls value) = true -> cls_of a = cls.
Proof.
  intros He Hp. apply extracted_family in He.
  pose proof (families_disjoint_bool value) as Hd.
  destruct (cls_of a), cls; try reflexivity;
    rewrite He, Hp in Hd; discriminate Hd.
Qed.

(** X5 ([ip_only] succeeds exactly on the forms).  [ip_only] returns a text
    when [is_any_ip] answers [True], and [None] when it answers [False];
    there is no other case. *)
Theorem ip_only_iff_any (value : pystr) :
  (is_any_ip value = Ok (PyBool true) /\ exists text, ip_only value = Ok (Some text)) \/
  (is_any_ip value = Ok (PyBool false) /\ ip_only value = Ok None).
Proof.
  rewrite is_any_ip_parts, <- ip_interface_is_Ok, <- extracted_is_Ok.
  rewrite ip_only_extracted.
  destruct (extracted_address value) as [a |]; [left | right]; cbn [option_map]; eauto.
Qed.

(** X6 (the extracted text is a host).  The text [ip_only] returns is
    accepted by [is_host_ip] and refused by [is_net_ip], and it stays in the
    family of the value it was taken from: from an IPv4 form [is_host_ip4]
    accepts it, from an IPv6 form [is_host_ip6] does. *)
Theorem ip_only_text_is_host (value : pystr) (text : string) :
  ip_only value = Ok (Some text) ->
  is_host_ip (Some text) = Ok (PyBool true) /\
  is_net_ip (Some text) = Ok (PyBool false) /\
  (is_any_ip4 value = Ok (PyBool true) -> is_host_ip4 (Some text) = Ok (PyBool true)) /\
  (is_any_ip6 value = Ok (PyBool true) -> is_host_ip6 (Some text) = Ok (PyBool true)).
Proof.
  intros Ho. destruct (ip_only_reparse _ _ Ho) as [a [He [_ Hr]]].
  pose proof (ip_address_inv _ _ Hr) as Hc.
  rewrite is_host_ip_spec, is_net_ip_parts, is_host_ip4_spec, is_host_ip6_spec.
  rewrite is_any_ip4_parts, is_any_ip6_parts.
  destruct (address_form_parts _ _ _ Hc) as [_ Hs]. rewrite !Hs.
  split; [| split; [reflexivity | split]].
  - destruct (cls_of a); cbn [address_class] in Hc; rewrite Hc;
      [| rewrite orb_true_r]; reflexivity.
  - intros H. assert (Hp : is_Ok (parsed_parts V4 value) = true) by congruence.
    rewrite (extracted_family_of_parts V4 _ _ He Hp) in Hc.
    cbn [address_class] in Hc. rewrite Hc. reflexivity.
  - intros H. assert (Hp : is_Ok (parsed_parts V6 value) = true) by congruence.
    rewrite (extracted_family_of_parts V6 _ _ He Hp) in Hc.
    cbn [address_class] in Hc. rewrite Hc. reflexivity.
Qed.

Lemma ip_only_text_is_host_witness :
  is_host_ip (Some "10.10.0.0") = Ok (PyBool true) /\
  is_net_ip (Some "10.10.0.0") = Ok (PyBool false) /\
  (is_any_ip4 (Some "10.10.0.0/16") = Ok (PyBool true) ->
   is_host_ip4 (Some "10.10.0.0") = Ok (PyBool true)) /\
  (is_any_ip6 (Some "10.10.0.0/16") = Ok (PyBool true) ->
   is_host_ip6 (Some "10.10.0.0") = Ok (PyBool true)).
Proof.
  apply (ip_only_text_is_host (Some "10.10.0.0/16") "10.10.0.0").
  vm_compute. reflexivity.
Defined.

Lemma address_text_injective (a b : IPAddress) :
  printable a -> printable b -> address_text a = address_text b -> a = b.
Proof.
  intros Ha Hb H.
  destruct (ip_address_roundtrip a Ha) as [s [Hs Hr]].
  destruct (ip_address_roundtrip b Hb) as [t [Ht Hq]].
  unfold address_text in H. rewrite Hs, Ht in H. subst t. congruence.
Qed.

(** X7 ([ip_only] tells addresses apart).  Two values give the same result
    under [ip_only] exactly when they denote the same address, that is the
    same family, number and scope id, or both denote none: different
    spellings of one address get one text, and different addresses never
    share a text. *)
Theorem ip_only_same_text (v1 v2 : pystr) :
  ip_only v1 = ip_only v2 <-> extracted_address v1 = extracted_address v2.
Proof.
  rewrite !ip_only_extracted. split; [| intros ->; reflexivity].
  intros H. inversion H as [Ht]. clear H.
  destruct (extracted_address v1) as [a |] eqn:H1,
           (extracted_address v2) as [b |] eqn:H2;
    cbn [option_map] in Ht; try discriminate; [| reflexivity].
  inversion Ht as [Hab]. f_equal.
  apply address_text_injective; eauto using extracted_printable.
Qed.

Lemma no_char_of_forall (P : ascii -> bool) (c : ascii) (s : string) :
  str_forall P s = true -> P c = false -> str_contains c s = false.
Proof.
  intros Hf Hc. destruct (str_contains c s) eqn:E; [| reflexivity].
  rewrite (str_forall_contains _ _ _ Hf E) in Hc. discriminate.
Qed.

Lemma slash_extracted_no_scope (value : pystr) (a : IPAddress) :
  str_contains "/" (py_str value) = true ->
  extracted_address value = Some a -> _scope_id a = None.
Proof.
  intros Hs. unfold extracted_address, ip_address.
  pose proof (address_class_slash V4 _ Hs) as H4.
  pose proof (address_class_slash V6 _ Hs) as H6.
  cbn [address_class] in H4, H6. rewrite H4, H6.
  cbn [try_except is_Address_or_Netmask_error].
  destruct (ip_interface value); [| discriminate].
  intros H. inversion H. reflexivity.
Qed.

Lemma unscoped_text_no_percent (a : IPAddress) (s : string) :
  valid_address a -> _scope_id a = None -> address_str a = Ok s ->
  str_contains "%" s = false.
Proof.
  destruct a as [cls n scope]. unfold valid_address, _ALL_ONES, address_str.
  cbn [cls_of _ip _scope_id]. intros Hv -> Hs.
  destruct cls; cbn [_max_prefixlen] in Hv.
  - destruct (v4_roundtrip n) as [t [Hp [Hr _]]]; [lia |].
    rewrite Hp in Hs. inversion Hs; subst t.
    apply (no_char_of_forall _ _ _ (v4_text_chars _ _ Hr)). reflexivity.
  - destruct (v6_roundtrip n) as [t [Hp [_ [_ [Hpct _]]]]]; [lia |].
    rewrite Hp in Hs. cbn [bind] in Hs. inversion Hs; subst t. exact Hpct.
Qed.

(** X8 (the prefix is stripped).  The text [ip_only] returns never has a
    slash; and when the value has one, so that the text comes from the [ip]
    of an interface, it has no percent sign either: the scope id of an IPv6
    interface form is dropped along with the prefix. *)
Theorem ip_only_strips_prefix (value : pystr) (text : string) :
  ip_only value = Ok (Some text) ->
  str_contains "/" text = false /\
  (str_contains "/" (py_str value) = true -> str_contains "%" text = false).
Proof.
  intros Ho. destruct (ip_only_reparse _ _ Ho) as [a [He [Hs Hr]]]. split.
  - apply ip_address_inv, address_class_inv in Hr. apply Hr.
  - intros Hslash.
    apply (unscoped_text_no_percent a text); [| | exact Hs].
    + apply (extracted_printable _ _ He).
    + exact (slash_extracted_no_scope _ _ Hslash He).
Qed.

Lemma ip_only_strips_prefix_witness :
  str_contains "/" "fe80::1" = false /\
  (str_contains "/" (py_str (Some "fe80::1%eth0/64")) = true ->
   str_contains "%" "fe80::1" = false).
Proof.
  apply (ip_only_strips_prefix (Some "fe80::1%eth0/64") "fe80::1").
  vm_compute. reflexivity.
Defined.

(* ------------------------------------------------------------------------ *)
(** * Membership: special subnets and nesting *)
(* ------------------------------------------------------------------------ *)

Lemma in_subnet_extracted (value : pystr) (subnet : str_arg) (cache : lru_store) :
  reachable cache ->
  fst (in_subnet value subnet cache) =
  Ok (PyBool match extracted_address value, ip_network (Some (str_of subnet)) true with
             | Some addr, Ok net => __contains__ net addr
             | _, _ => false
             end).
Proof.
  intros Hc. apply reachable_cache_ok in Hc.
  rewrite (in_subnet_result _ _ _ Hc), in_subnet_answer_extracted. reflexivity.
Qed.

Lemma in_subnet_true_inv (value : pystr) (subnet : str_arg) (cache : lru_store) :
  reachable cache ->
  fst (in_subnet value subnet cache) = Ok (PyBool true) ->
  exists addr net,
    extracted_address value = Some addr /\
    ip_network (Some (str_of subnet)) true = Ok net /\
    cls_of addr = net_cls net /\
    Z.land (_ip addr) (_ip (netmask net)) = _ip (network_address net).
Proof.
  intros Hc H. rewrite (in_subnet_extracted _ _ _ Hc) in H.
  destruct (extracted_address value) as [addr |]; [| discriminate].
  destruct (ip_network (Some (str_of subnet)) true) as [net |]; [| discriminate].
  exists addr, net. assert (Hin : __contains__ net addr = true) by congruence.
  unfold __contains__ in Hin.
  destruct (_version (net_cls net) =? _version (cls_of addr)) eqn:E;
    [| discriminate].
  apply version_eqb in E. apply Z.eqb_eq in Hin. auto.
Qed.

Lemma contains_intro (net : IPNetwork) (addr : IPAddress) :
  cls_of addr = net_cls net ->
  Z.land (_ip addr) (_ip (netmask net)) = _ip (network_address net) ->
  __contains__ net addr = true.
Proof.
  intros Hf Hl. unfold __contains__.
  assert (E : (_version (net_cls net) =? _version (cls_of addr)) = true)
    by (apply version_eqb; congruence).
  rewrite E. cbn [negb]. apply Z.eqb_eq, Hl.
Qed.

(** A network text denotes, as a value, its own base address. *)
Lemma extracted_of_network (value : pystr) (n : IPNetwork) :
  ip_network value true = Ok n ->
  exists a, extracted_address value = Some a /\
            cls_of a = net_cls n /\ _ip a = _ip (network_address n).
Proof.
  intros Hn.
  destruct (ip_network_is_interface _ _ Hn) as [i [Hi [Hai _]]].
  pose proof (ip_network_wf _ _ Hn) as Hwf. cbv zeta in Hwf.
  destruct Hwf as [_ [Hcls _]].
  unfold extracted_address. destruct (ip_address value) as [a | e] eqn:Ha.
  - destruct (ip_address_is_interface _ _ Ha) as [i' [Hi' Hai']].
    rewrite Hi in Hi'. inversion Hi'; subst i'.
    exists a. rewrite <- Hai', Hai. auto.
  - rewrite Hi. exists (interface_ip i). unfold interface_ip.
    cbn [cls_of _ip]. rewrite Hai. auto.
Qed.

(** X9 (a subnet text tested against itself).  [in_subnet(s, s)] is [True]
    exactly when [s] parses as a strict network; in particular an address is
    in itself, and an interface form with host bits is not. *)
Theorem in_subnet_self (subnet : str_arg) (cache : lru_store) :
  reachable cache ->
  fst (in_subnet (Some (str_of subnet)) subnet cache)
  = Ok (PyBool (is_Ok (ip_network (Some (str_of subnet)) true))).
Proof.
  intros Hc. rewrite (in_subnet_extracted _ _ _ Hc).
  destruct (ip_network (Some (str_of subnet)) true) as [n | e] eqn:Hn.
  - destruct (extracted_of_network _ _ Hn) as [a [-> [Hf Hip]]].
    pose proof (ip_network_wf _ _ Hn) as Hwf. cbv zeta in Hwf.
    destruct Hwf as [_ [_ [_ [_ Hl]]]].
    rewrite contains_intro; [reflexivity | exact Hf | rewrite Hip; exact Hl].
  - destruct (extracted_address (Some (str_of subnet))); reflexivity.
Qed.

Lemma in_subnet_self_witness :
  fst (in_subnet (Some "10.10.5.5/16") (ExactStr "10.10.5.5/16") [])
  = Ok (PyBool (is_Ok (ip_network (Some "10.10.5.5/16") true))).
Proof. exact (in_subnet_self (ExactStr "10.10.5.5/16") [] reachable_init). Defined.

Lemma land_all_ones (cls : family) (x : Z) :
  0 <= x <= _ALL_ONES cls -> Z.land x (_ALL_ONES cls) = x.
Proof.
  unfold _ALL_ONES. intros H.
  assert (Hw : 0 <= _max_prefixlen cls) by (destruct cls; simpl; lia).
  replace (2 ^ _max_prefixlen cls - 1) with (Z.ones (_max_prefixlen cls))
    by (rewrite Z.ones_equiv; lia).
  rewrite Z.land_ones by exact Hw. apply Z.mod_small. lia.
Qed.

(** An address text is, as a subnet, the network of that one address. *)
Lemma ip_network_of_address (value : pystr) (a : IPAddress) :
  ip_address value = Ok a ->
  ip_network value true
  = Ok (Network (cls_of a) a (Address (cls_of a) (_ALL_ONES (cls_of a)) None)
                (_max_prefixlen (cls_of a))).
Proof.
  assert (Hone : forall cls, address_class cls value = Ok a ->
            network_class cls (ArgStr value) true
            = Ok (Network cls a (Address cls (_ALL_ONES cls) None) (_max_prefixlen cls))).
  { intros cls Ha. rewrite network_class_view.
    pose proof (parsed_parts_of_address _ _ _ Ha) as Hp. rewrite Hp. cbn [bind].
    rewrite (full_prefix_no_host_bits _ _ _ _ Hp). reflexivity. }
  intros H. apply ip_address_cases in H. unfold ip_network.
  destruct H as [H4 | [e [H4 [Hc H6]]]].
  - pose proof (address_class_inv _ _ _ H4) as [_ [-> _]].
    rewrite (Hone V4 H4). reflexivity.
  - pose proof (address_class_inv _ _ _ H6) as [Hs [-> _]].
    rewrite network_class_view, (parsed_parts_bare V4 _ Hs), H4. cbn [bind try_except].
    rewrite Hc, (Hone V6 H6). reflexivity.
Qed.

(** X10 (an address as subnet).  When the subnet text is a plain address,
    it stands for the network of that one address: [in_subnet] is [True]
    exactly when the value denotes an address of the same family with the
    same number. *)
Theorem in_subnet_single_address (value : pystr) (subnet : str_arg)
        (cache : lru_store) (a : IPAddress) :
  reachable cache ->
  ip_address (Some (str_of subnet)) = Ok a ->
  fst (in_subnet value subnet cache)
  = Ok (PyBool match extracted_address value with
               | Some x => family_eqb (cls_of x) (cls_of a) && (_ip x =? _ip a)
               | None => false
               end).
Proof.
  intros Hc Ha. rewrite (in_subnet_extracted _ _ _ Hc).
  rewrite (ip_network_of_address _ _ Ha).
  destruct (extracted_address value) as [x |] eqn:He; [| reflexivity].
  destruct (extracted_printable _ _ He) as [Hv _]. unfold valid_address in Hv.
  unfold __contains__. cbn [net_cls netmask network_address _ip].
  destruct (cls_of x) eqn:Ex, (cls_of a) eqn:Ea; cbn [_version family_eqb];
    try reflexivity.
  - change (4 =? 4) with true. cbn [negb andb].
    rewrite (land_all_ones V4 _ Hv). reflexivity.
  - change (6 =? 6) with true. cbn [negb andb].
    rewrite (land_all_ones V6 _ Hv). reflexivity.
Qed.

Lemma in_subnet_single_address_witness :
  fst (in_subnet (Some "10.1.2.3/24") (ExactStr "10.1.2.3") [])
  = Ok (PyBool match extracted_address (Some "10.1.2.3/24") with
               | Some x => family_eqb (cls_of x) V4 && (_ip x =? 167838211)
               | None => false
               end).
Proof.
  exact (in_subnet_single_address (Some "10.1.2.3/24") (ExactStr "10.1.2.3") []
           (Address V4 167838211 None) reachable_init eq_refl).
Defined.

Lemma network_parts (value : pystr) (n : IPNetwork) :
  ip_network value true = Ok n ->
  is_Ok (parsed_parts (net_cls n) value) = true.
Proof.
  intros H. apply ip_network_inv in H. destruct H as [cls H].
  apply network_class_inv in H. destruct H as [a [m [Hp [_ Hn]]]].
  rewrite Hn. cbn [net_cls]. rewrite Hp. reflexivity.
Qed.

(** X11 (membership needs one family).  When [in_subnet] answers [True],
    value and subnet are forms of the same family: both IPv4 or both
    IPv6. *)
Theorem in_subnet_same_family (value : pystr) (subnet : str_arg) (cache : lru_store) :
  reachable cache ->
  fst (in_subnet value subnet cache) = Ok (PyBool true) ->
  (is_any_ip4 value = Ok (PyBool true) /\
   is_any_ip4 (Some (str_of subnet)) = Ok (PyBool true)) \/
  (is_any_ip6 value = Ok (PyBool true) /\
   is_any_ip6 (Some (str_of subnet)) = Ok (PyBool true)).
Proof.
  intros Hc H. destruct (in_subnet_true_inv _ _ _ Hc H) as [a [n [He [Hn [Hf _]]]]].
  apply extracted_family in He. apply network_parts in Hn.
  rewrite !is_any_ip4_parts, !is_any_ip6_parts. rewrite Hf in He.
  destruct (net_cls n); [left | right]; rewrite He, Hn; auto.
Qed.

Lemma in_subnet_same_family_witness :
  (is_any_ip4 (Some "10.10.5.5") = Ok (PyBool true) /\
   is_any_ip4 (Some "10.10.0.0/16") = Ok (PyBool true)) \/
  (is_any_ip6 (Some "10.10.5.5") = Ok (PyBool true) /\
   is_any_ip6 (Some "10.10.0.0/16") = Ok (PyBool true)).
Proof.
  apply (in_subnet_same_family (Some "10.10.5.5") (ExactStr "10.10.0.0/16") [] reachable_init).
  vm_compute. reflexivity.
Defined.

Lemma prefix_mask_bits (cls : family) (p i : Z) :
  0 <= p <= _max_prefixlen cls -> 0 <= i ->
  Z.testbit (_ip_int_from_prefix cls p) i
  = (i <? _max_prefixlen cls) && negb (i <? _max_prefixlen cls - p).
Proof.
  intros Hp Hi. destruct (ip_int_from_prefix_spec cls p Hp) as [-> _].
  rewrite Z.ldiff_spec, !Z.testbit_ones_nonneg by lia. reflexivity.
Qed.

(** The mask of a longer prefix keeps every bit of the mask of a shorter
    one. *)
Lemma prefix_mask_nested (cls : family) (p q : Z) :
  0 <= q <= p -> p <= _max_prefixlen cls ->
  Z.land (_ip_int_from_prefix cls p) (_ip_int_from_prefix cls q)
  = _ip_int_from_prefix cls q.
Proof.
  intros Hq Hp. apply Z.bits_inj'. intros i Hi.
  rewrite Z.land_spec, !prefix_mask_bits by lia.
  destruct (i <? _max_prefixlen cls) eqn:E1; [| reflexivity].
  destruct (i <? _max_prefixlen cls - q) eqn:E2; [apply andb_false_r |].
  destruct (i <? _max_prefixlen cls - p) eqn:E3; [| reflexivity].
  apply Z.ltb_lt in E3. apply Z.ltb_ge in E2. lia.
Qed.

(** X12 (membership passes to the enclosing subnet).  When the base address
    of the strict network [inner] is in [outer], whose prefix is not longer,
    every value that is in [inner] is in [outer]. *)
Theorem in_subnet_nested (value : pystr) (inner outer : str_arg)
        (cache : lru_store) (ni no : IPNetwork) :
  reachable cache ->
  ip_network (Some (str_of inner)) true = Ok ni ->
  ip_network (Some (str_of outer)) true = Ok no ->
  _prefixlen no <= _prefixlen ni ->
  fst (in_subnet (Some (str_of inner)) outer cache) = Ok (PyBool true) ->
  fst (in_subnet value inner cache) = Ok (PyBool true) ->
  fst (in_subnet value outer cache) = Ok (PyBool true).
Proof.
  intros Hc Hi Ho Hlen Hio Hv.
  destruct (in_subnet_true_inv _ _ _ Hc Hio) as [b [no' [Hb [Ho' [Hfb Hlb]]]]].
  rewrite Ho in Ho'. inversion Ho'; subst no'. clear Ho'.
  destruct (in_subnet_true_inv _ _ _ Hc Hv) as [x [ni' [Hx [Hi' [Hfx Hlx]]]]].
  rewrite Hi in Hi'. inversion Hi'; subst ni'. clear Hi'.
  destruct (extracted_of_network _ _ Hi) as [b' [Hb' [Hfb' Hipb]]].
  rewrite Hb in Hb'. inversion Hb'; subst b'. clear Hb'.
  pose proof (ip_network_wf _ _ Hi) as Wi. pose proof (ip_network_wf _ _ Ho) as Wo.
  cbv zeta in Wi, Wo.
  destruct Wi as [Hpi [_ [_ [Hmi _]]]]. destruct Wo as [Hpo [_ [_ [Hmo _]]]].
  assert (Hcls : net_cls ni = net_cls no) by congruence.
  rewrite (in_subnet_extracted _ _ _ Hc), Hx, Ho. do 2 f_equal.
  apply contains_intro; [congruence |].
  rewrite <- Hlb, Hipb, <- Hlx, <- Z.land_assoc. f_equal.
  rewrite Hmi, Hmo. rewrite Hcls in *. symmetry. apply prefix_mask_nested; lia.
Qed.

Lemma in_subnet_nested_witness :
  fst (in_subnet (Some "10.10.5.5") (ExactStr "10.0.0.0/8") []) = Ok (PyBool true).
Proof.
  destruct (ip_network (Some "10.10.0.0/16") true) as [ni |] eqn:Hi;
    [| vm_compute in Hi; discriminate].
  destruct (ip_network (Some "10.0.0.0/8") true) as [no |] eqn:Ho;
    [| vm_compute in Ho; discriminate].
  apply (in_subnet_nested (Some "10.10.5.5") (ExactStr "10.10.0.0/16") (ExactStr "10.0.0.0/8") [] ni no
           reachable_init Hi Ho).
  - vm_compute in Hi, Ho. inversion Hi; inversion Ho. vm_compute. discriminate.
  - vm_compute. reflexivity.
  - vm_compute. reflexivity.
Defined.

(** The family of the extracted address, as a boolean. *)
Lemma extracted_family_test (cls : family) (value : pystr) :
  match extracted_address value with
  | Some a => family_eqb cls (cls_of a)
  | None => false
  end = is_Ok (parsed_parts cls value).
Proof.
  destruct (extracted_address value) as [a |] eqn:He.
  - pose proof (extracted_family _ _ He) as Hf.
    pose proof (families_disjoint_bool value) as Hd.
    destruct cls, (cls_of a); cbn [family_eqb]; try (symmetry; exact Hf);
      rewrite Hf in Hd.
    + rewrite andb_true_r in Hd. symmetry. exact Hd.
    + cbn [andb] in Hd. symmetry. exact Hd.
  - pose proof (extracted_is_Ok value) as H. rewrite He, ip_interface_is_Ok in H.
    symmetry in H. apply orb_false_iff in H. destruct cls; symmetry; tauto.
Qed.

(** X13 (the subnets that hold everything).  Membership in [0.0.0.0/0] is
    the test for an IPv4 form and membership in [::/0] the test for an IPv6
    form: [in_subnet] answers on them what [is_any_ip4] and [is_any_ip6]
    answer on the value. *)
Theorem in_subnet_everything (value : pystr) (cache : lru_store) :
  reachable cache ->
  (forall subnet, str_of subnet = "0.0.0.0/0" ->
     fst (in_subnet value subnet cache) = is_any_ip4 value) /\
  (forall subnet, str_of subnet = "::/0" ->
     fst (in_subnet value subnet cache) = is_any_ip6 value).
Proof.
  intros Hc.
  enough (H : fst (in_subnet value (ExactStr "0.0.0.0/0") cache) = is_any_ip4 value /\
              fst (in_subnet value (ExactStr "::/0") cache) = is_any_ip6 value).
  { destruct H as [H4 H6].
    split; intros subnet Hs; rewrite <- ?H4, <- ?H6;
      rewrite !(in_subnet_extracted _ _ _ Hc), Hs; reflexivity. }
  rewrite !(in_subnet_extracted _ _ _ Hc). cbn [str_of].
  rewrite is_any_ip4_parts, is_any_ip6_parts.
  rewrite <- !extracted_family_test.
  replace (ip_network (Some "0.0.0.0/0") true)
    with (Ok (Network V4 (Address V4 0 None) (Address V4 0 None) 0))
    by (vm_compute; reflexivity).
  replace (ip_network (Some "::/0") true)
    with (Ok (Network V6 (Address V6 0 None) (Address V6 0 None) 0))
    by (vm_compute; reflexivity).
  destruct (extracted_address value) as [a |]; [| split; reflexivity].
  unfold __contains__. cbn [net_cls netmask network_address _ip].
  rewrite Z.land_0_r.
  destruct (cls_of a); split; reflexivity.
Qed.

Lemma in_subnet_everything_witness :
  fst (in_subnet (Some "fe80::1/64") (ExactStr "0.0.0.0/0") [])
  = is_any_ip4 (Some "fe80::1/64") /\
  fst (in_subnet (Some "fe80::1/64") (SubclassStr "::/0") [])
  = is_any_ip6 (Some "fe80::1/64").
Proof.
  destruct (in_subnet_everything (Some "fe80::1/64") [] reachable_init) as [H4 H6].
  split; [exact (H4 (ExactStr "0.0.0.0/0") eq_refl)
         | exact (H6 (SubclassStr "::/0") eq_refl)].
Defined.

(** X14 (subnets that share a value are nested).  When some value is in
    both strict networks [inner] and [outer] and the prefix of [outer] is not
    longer, the base address of [inner] is in [outer]. *)
Theorem in_subnet_overlap_nested (value : pystr) (inner outer : str_arg)
        (cache : lru_store) (ni no : IPNetwork) :
  reachable cache ->
  ip_network (Some (str_of inner)) true = Ok ni ->
  ip_network (Some (str_of outer)) true = Ok no ->
  _prefixlen no <= _prefixlen ni ->
  fst (in_subnet value inner cache) = Ok (PyBool true) ->
  fst (in_subnet value outer cache) = Ok (PyBool true) ->
  fst (in_subnet (Some (str_of inner)) outer cache) = Ok (PyBool true).
Proof.
  intros Hc Hi Ho Hlen Hvi Hvo.
  destruct (in_subnet_true_inv _ _ _ Hc Hvi) as [x [ni' [Hx [Hi' [Hfi Hli]]]]].
  rewrite Hi in Hi'. inversion Hi'; subst ni'. clear Hi'.
  destruct (in_subnet_true_inv _ _ _ Hc Hvo) as [x' [no' [Hx' [Ho' [Hfo Hlo]]]]].
  rewrite Ho in Ho'. inversion Ho'; subst no'. clear Ho'.
  rewrite Hx in Hx'. inversion Hx'; subst x'. clear Hx'.
  destruct (extracted_of_network _ _ Hi) as [b [Hb [Hfb Hipb]]].
  pose proof (ip_network_wf _ _ Hi) as Wi. pose proof (ip_network_wf _ _ Ho) as Wo.
  cbv zeta in Wi, Wo.
  destruct Wi as [Hpi [_ [_ [Hmi _]]]]. destruct Wo as [Hpo [_ [_ [Hmo _]]]].
  assert (Hcls : net_cls ni = net_cls no) by congruence.
  rewrite (in_subnet_extracted _ _ _ Hc), Hb, Ho. do 2 f_equal.
  apply contains_intro; [congruence |].
  rewrite Hipb, <- Hli, <- Z.land_assoc, <- Hlo. f_equal.
  rewrite Hmi, Hmo. rewrite Hcls in *. apply prefix_mask_nested; lia.
Qed.

Lemma in_subnet_overlap_nested_witness :
  fst (in_subnet (Some "10.10.0.0/16") (ExactStr "10.0.0.0/8") []) = Ok (PyBool true).
Proof.
  destruct (ip_network (Some "10.10.0.0/16") true) as [ni |] eqn:Hi;
    [| vm_compute in Hi; discriminate].
  destruct (ip_network (Some "10.0.0.0/8") true) as [no |] eqn:Ho;
    [| vm_compute in Ho; discriminate].
  apply (in_subnet_overlap_nested (Some "10.10.5.5") (ExactStr "10.10.0.0/16") (ExactStr "10.0.0.0/8")
           [] ni no reachable_init Hi Ho).
  - vm_compute in Hi, Ho. inversion Hi; inversion Ho. vm_compute. discriminate.
  - vm_compute. reflexivity.
  - vm_compute. reflexivity.
Defined.

(* ------------------------------------------------------------------------ *)
(** * The shape of the cache *)
(* ------------------------------------------------------------------------ *)

Lemma cache_remove_keys (key k : cache_key) (cache : lru_store) :
  In k (map fst (cache_remove key cache)) -> In k (map fst cache) /\ k <> key.
Proof.
  induction cache as [| [k' v] rest IH]; simpl; [tauto |].
  destruct (key_eqb_spec k' key) as [-> | Hne]; simpl.
  - intros H. apply IH in H. tauto.
  - intros [H | H]; [subst; tauto | apply IH in H; tauto].
Qed.

Lemma cache_remove_NoDup (key : cache_key) (cache : lru_store) :
  NoDup (map fst cache) -> NoDup (map fst (cache_remove key cache)).
Proof.
  induction cache as [| [k v] rest IH]; simpl; intros H; [constructor |].
  inversion H as [| ? ? Hn Hr]; subst.
  destruct (key_eqb k key); [exact (IH Hr) |].
  simpl. constructor; [| exact (IH Hr)].
  intros Hin. apply cache_remove_keys in Hin. tauto.
Qed.

Lemma firstn_In {A : Type} (n : nat) (l : list A) (x : A) :
  In x (firstn n l) -> In x l.
Proof.
  revert n. induction l as [| y l IH]; intros [| n]; simpl; try tauto.
  intros [H | H]; [left; exact H | right; exact (IH _ H)].
Qed.

Lemma firstn_NoDup {A : Type} (n : nat) (l : list A) :
  NoDup l -> NoDup (firstn n l).
Proof.
  revert n. induction l as [| y l IH]; intros [| n] H; simpl; try constructor.
  - inversion H; subst. intros Hin. apply firstn_In in Hin. contradiction.
  - inversion H; subst. apply IH. assumption.
Qed.

Lemma cache_lookup_None (key : cache_key) (cache : lru_store) :
  cache_lookup key cache = None -> ~ In key (map fst cache).
Proof.
  induction cache as [| [k v] rest IH]; simpl; [tauto |].
  destruct (key_eqb_spec k key) as [-> | Hne]; [discriminate |].
  intros H [Hk | Hin]; [contradiction | exact (IH H Hin)].
Qed.

Lemma cache_remove_absent (key : cache_key) (cache : lru_store) :
  cache_lookup key cache = None -> cache_remove key cache = cache.
Proof.
  induction cache as [| [k v] rest IH]; simpl; [reflexivity |].
  destruct (key_eqb k key); [discriminate |].
  intros H. rewrite (IH H). reflexivity.
Qed.

Lemma cache_remove_hit_length (key : cache_key) (cache : lru_store) (net : IPNetwork) :
  cache_lookup key cache = Some net ->
  (S (List.length (cache_remove key cache)) <= List.length cache)%nat.
Proof.
  assert (Hrm : forall c, (List.length (cache_remove key c) <= List.length c)%nat).
  { intros c. induction c as [| [k v] c IH]; simpl; [lia |].
    destruct (key_eqb k key); simpl; lia. }
  induction cache as [| [k v] c IH]; simpl; [discriminate |].
  destruct (key_eqb k key); simpl.
  - intros _. specialize (Hrm c). lia.
  - intros H. apply IH in H. lia.
Qed.

Lemma to_subnet_NoDup (subnet : str_arg) (cache : lru_store) :
  NoDup (map fst cache) -> NoDup (map fst (snd (_to_subnet subnet cache))).
Proof.
  intros H. unfold _to_subnet. cbv zeta.
  destruct (cache_lookup (_make_key subnet) cache) as [net |] eqn:E.
  - cbn [snd map fst]. constructor; [| apply cache_remove_NoDup, H].
    intros Hin. apply cache_remove_keys in Hin. tauto.
  - destruct (ip_network (Some (str_of subnet)) true) as [net | e]; [| exact H].
    cbn [snd]. rewrite <- firstn_map. apply firstn_NoDup.
    cbn [map fst]. constructor; [exact (cache_lookup_None _ _ E) | exact H].
Qed.

Lemma reachable_NoDup (cache : lru_store) :
  reachable cache -> NoDup (map fst cache).
Proof.
  induction 1 as [| value subnet cache _ IH]; [constructor |].
  unfold in_subnet.
  destruct (only <- ip_only value ;; ip_address only); [| exact IH].
  pose proof (to_subnet_NoDup subnet cache IH) as Hn.
  destruct (_to_subnet subnet cache) as [[net | e] cache']; exact Hn.
Qed.

(** X15 (what every state of the cache satisfies).  After any sequence of
    calls of [in_subnet] the cache of [_to_subnet] holds at most [maxsize]
    = 128 entries, holds no key twice, and a lookup only ever finds what
    [ip_network] returns on the text of the key.  A text can be held twice,
    once under each kind of key: a subnet passed as a [str] and the same
    text passed as an instance of a subclass of [str] do not share an
    entry. *)
Theorem cache_invariant (cache : lru_store) :
  reachable cache ->
  (List.length cache <= maxsize)%nat /\
  NoDup (map fst cache) /\
  (forall key net,
     cache_lookup key cache = Some net ->
     ip_network (Some (key_text key)) true = Ok net) /\
  (forall value text s net,
     ip_only value = Ok (Some text) ->
     ip_network (Some s) true = Ok net ->
     snd (in_subnet value (SubclassStr s) (snd (in_subnet value (ExactStr s) [])))
     = [(KeyArgs s, net); (KeyStr s, net)]).
Proof.
  intros Hc. split; [exact (reachable_bounded _ Hc) |].
  split; [exact (reachable_NoDup _ Hc) |].
  split; [intros key net; apply cache_lookup_ok, reachable_cache_ok, Hc |].
  intros value text s net Ho Hn. unfold in_subnet.
  destruct (ip_only_reparse _ _ Ho) as [a [_ [_ Hr]]].
  rewrite Ho. cbn [bind]. rewrite Hr. unfold _to_subnet. cbv zeta.
  cbn [_make_key str_of cache_lookup]. rewrite Hn.
  unfold maxsize. cbn [firstn snd cache_lookup key_eqb]. reflexivity.
Qed.

(** The same text asked about twice, first as a [str], then as an instance
    of a subclass: two entries. *)
Lemma cache_invariant_witness :
  let cache := snd (in_subnet (Some "10.10.5.5") (SubclassStr "10.10.0.0/16")
                      (snd (in_subnet (Some "10.10.5.5") (ExactStr "10.10.0.0/16") []))) in
  List.length cache = 2%nat /\
  (List.length cache <= maxsize)%nat /\
  NoDup (map fst cache) /\
  (forall key net,
     cache_lookup key cache = Some net ->
     ip_network (Some (key_text key)) true = Ok net).
Proof.
  split; [vm_compute; reflexivity |].
  destruct (cache_invariant _
              (reachable_call (Some "10.10.5.5") (SubclassStr "10.10.0.0/16") _
                 (reachable_call (Some "10.10.5.5") (ExactStr "10.10.0.0/16") []
                    reachable_init)))
    as [Hlen [Hnd [Hok _]]].
  auto.
Defined.

Lemma ip_only_reading (value : pystr) :
  (only <- ip_only value ;; ip_address only)
  = match extracted_address value with
    | Some a => Ok a
    | None => ip_address None
    end.
Proof.
  rewrite ip_only_extracted. cbn [bind].
  destruct (extracted_address value) as [a |] eqn:He; cbn [option_map];
    [| reflexivity].
  assert (Ho : ip_only value = Ok (Some (address_text a)))
    by (rewrite ip_only_extracted, He; reflexivity).
  apply ip_only_reparse in Ho. destruct Ho as [a' [He' [_ Hr]]].
  rewrite He in He'. inversion He'; subst a'. exact Hr.
Qed.

(** X16 (a call that fails leaves the cache alone).  When the value yields
    no address, or the subnet does not parse as a strict network, [in_subnet]
    answers [False] and the cache afterwards is the cache before: a failed
    conversion is never stored, so it is attempted again on the next call. *)
Theorem failed_call_keeps_cache (value : pystr) (subnet : str_arg) (cache : lru_store) :
  reachable cache ->
  ip_only value = Ok None \/ is_Ok (ip_network (Some (str_of subnet)) true) = false ->
  in_subnet value subnet cache = (Ok (PyBool false), cache).
Proof.
  intros Hc H. unfold in_subnet. destruct H as [H | H].
  - rewrite H. reflexivity.
  - destruct (only <- ip_only value ;; ip_address only) as [addr | e];
      [| reflexivity].
    unfold _to_subnet. cbv zeta. apply reachable_cache_ok in Hc.
    destruct (cache_lookup (_make_key subnet) cache) as [net |] eqn:E.
    + pose proof (cache_lookup_ok _ _ _ Hc E) as Hn.
      rewrite key_text_make_key in Hn. rewrite Hn in H. discriminate.
    + destruct (ip_network (Some (str_of subnet)) true); [discriminate | reflexivity].
Qed.

Lemma failed_call_keeps_cache_witness :
  let warm := snd (in_subnet (Some "10.10.5.5") (ExactStr "10.10.0.0/16") []) in
  in_subnet (Some "10.10.5.5") (ExactStr "10.10.5.5/16") warm = (Ok (PyBool false), warm).
Proof.
  apply (failed_call_keeps_cache (Some "10.10.5.5") (ExactStr "10.10.5.5/16") _
           (reachable_call (Some "10.10.5.5") (ExactStr "10.10.0.0/16") [] reachable_init)).
  right. vm_compute. reflexivity.
Defined.

(** X17 (a call that is answered moves the key to the front).  When the
    value yields an address and the subnet parses, the cache afterwards has
    the key of the subnet in front, followed by the other entries in their
    old order, cut to [maxsize]; a lookup of the key then finds the network.
    The key is the one [lru_cache] makes of the argument, so an entry stored
    for the same text under the other kind of key stays where it was. *)
Theorem answered_call_moves_to_front (value : pystr) (subnet : str_arg)
        (text : string) (cache : lru_store) (net : IPNetwork) :
  reachable cache ->
  ip_only value = Ok (Some text) ->
  ip_network (Some (str_of subnet)) true = Ok net ->
  snd (in_subnet value subnet cache)
  = firstn maxsize ((_make_key subnet, net) :: cache_remove (_make_key subnet) cache) /\
  cache_lookup (_make_key subnet) (snd (in_subnet value subnet cache)) = Some net.
Proof.
  intros Hc Ho Hn.
  assert (Hs : snd (in_subnet value subnet cache)
               = firstn maxsize ((_make_key subnet, net)
                                 :: cache_remove (_make_key subnet) cache)).
  { unfold in_subnet. rewrite ip_only_reading.
    destruct (ip_only_reparse _ _ Ho) as [a [-> _]].
    unfold _to_subnet. cbv zeta.
    destruct (cache_lookup (_make_key subnet) cache) as [net' |] eqn:E.
    - pose proof (cache_lookup_ok _ _ _ (reachable_cache_ok _ Hc) E) as Hn'.
      rewrite key_text_make_key, Hn in Hn'.
      inversion Hn'; subst net'. cbn [snd].
      symmetry. apply firstn_all2. cbn [List.length].
      pose proof (cache_remove_hit_length _ _ _ E).
      pose proof (reachable_bounded _ Hc). lia.
    - rewrite Hn. cbn [snd]. rewrite (cache_remove_absent _ _ E). reflexivity. }
  split; [exact Hs |]. rewrite Hs. unfold maxsize. cbn [firstn cache_lookup].
  rewrite key_eqb_refl. reflexivity.
Qed.

(** On a cache that holds [10.10.0.0/16] under the key of a [str], the same
    text as an instance of a subclass gets an entry of its own in front. *)
Lemma answered_call_moves_to_front_witness :
  let warm := snd (in_subnet (Some "10.10.5.5") (ExactStr "10.10.0.0/16") []) in
  exists net,
    snd (in_subnet (Some "10.1.2.3") (SubclassStr "10.10.0.0/16") warm)
    = [(KeyArgs "10.10.0.0/16", net); (KeyStr "10.10.0.0/16", net)] /\
    cache_lookup (KeyArgs "10.10.0.0/16")
      (snd (in_subnet (Some "10.1.2.3") (SubclassStr "10.10.0.0/16") warm))
    = Some net.
Proof.
  intros warm.
  destruct (ip_network (Some "10.10.0.0/16") true) as [net |] eqn:Hn;
    [| vm_compute in Hn; discriminate].
  exists net.
  destruct (answered_call_moves_to_front (Some "10.1.2.3") (SubclassStr "10.10.0.0/16")
              "10.1.2.3" warm net
              (reachable_call (Some "10.10.5.5") (ExactStr "10.10.0.0/16") []
                 reachable_init)
              eq_refl Hn) as [Hs Hl].
  split; [| exact Hl]. rewrite Hs.
  vm_compute in Hn. inversion Hn; subst net. vm_compute. reflexivity.
Defined.

(* ------------------------------------------------------------------------ *)
(** * The claims *)
(* ------------------------------------------------------------------------ *)

(** C1 (the host boundary).  For IPv4 the claim holds as stated
    ([is_net_ip4_full_prefix], [is_net_ip4_short_prefix]), and so does the
    full-prefix half for IPv6 ([is_net_ip6_full_prefix]).  The remaining part
    fails: on an IPv6 network with a prefix shorter than 128, here
    [2001:db8::/32], [is_net_ip6] answers [True] but [is_host_ip6] answers
    [None] instead of [False], because its body has no [return False] after
    the [try] statement ([is_net_ip6_short_prefix] shows this for every such
    network). *)
Theorem host_boundary_ip6_host_answer :
  (exists n, IPv6Network (Some "2001:db8::/32") = Ok n /\ _prefixlen n = 32) /\
  is_net_ip6 (Some "2001:db8::/32") = Ok (PyBool true) /\
  is_host_ip6 (Some "2001:db8::/32") = Ok PyNone /\
  is_host_ip4 (Some "10.10.0.0/16") = Ok (PyBool false).
Proof.
  split; [eexists; split; vm_compute; reflexivity |].
  repeat split; vm_compute; reflexivity.
Qed.

(** C2 (text that is no IP form).  On ["hello"], which no constructor
    accepts, seven predicates answer [False] and [ip_only] answers [None], but
    [is_host_ip6] and [is_host_ip] answer [None], not the boolean [False];
    [not_ip_form_results] shows the same for every such text. *)
Theorem non_ip_text_host_answers :
  parses_as_ip_form (Some "hello") = false /\
  is_host_ip6 (Some "hello") = Ok PyNone /\
  is_host_ip (Some "hello") = Ok PyNone /\
  is_host_ip4 (Some "hello") = Ok (PyBool false) /\
  ip_only (Some "hello") = Ok None.
Proof. repeat split; vm_compute; reflexivity. Qed.

(** C3 (subnet membership).  Whatever the cache holds after earlier calls,
    [in_subnet] returns a boolean, and it is [True] exactly when [ip_only]
    yields a text, the subnet parses as a strict network, and the address the
    text denotes is of the network's family and its number lies between the
    network address and the broadcast address.  The text [ip_only] yields
    always denotes an address, the one extracted from the value, so the
    failures are those of the claim: no extraction, no network, or another
    family. *)
Theorem in_subnet_iff (value : pystr) (subnet : str_arg) (cache : lru_store) :
  reachable cache ->
  exists b,
    fst (in_subnet value subnet cache) = Ok (PyBool b) /\
    (b = true <->
     exists text addr net,
       ip_only value = Ok (Some text) /\
       ip_address (Some text) = Ok addr /\
       ip_network (Some (str_of subnet)) true = Ok net /\
       cls_of addr = net_cls net /\
       _ip (network_address net) <= _ip addr <= broadcast_address net) /\
    (forall text,
       ip_only value = Ok (Some text) ->
       exists addr,
         extracted_address value = Some addr /\
         ip_address (Some text) = Ok addr).
Proof.
  intros Hc. apply reachable_cache_ok in Hc.
  exists (in_subnet_answer value (str_of subnet)).
  split; [apply in_subnet_result, Hc |].
  split.
  - unfold in_subnet_answer.
    destruct (ip_only value) as [[text |] | e] eqn:Ho; cbn [bind].
    + destruct (ip_address (Some text)) as [addr | e] eqn:Ha.
      * destruct (ip_network (Some (str_of subnet)) true) as [net | e] eqn:Hn.
        -- pose proof (address_class_valid _ _ _ (ip_address_inv _ _ Ha)) as Hv.
           rewrite (contains_range _ _ _ Hn Hv). split.
           ++ intros [Hf Hr]. exists text, addr, net. auto.
           ++ intros [t [a [n [Ht [Ha' [Hn' H]]]]]].
              inversion Ht; subst t. rewrite Ha in Ha'. inversion Ha'; subst a.
              inversion Hn'; subst n. exact H.
        -- split; [discriminate |].
           intros [t [a [n [_ [_ [Hn' _]]]]]]. discriminate.
      * split; [discriminate |].
        intros [t [a [n [Ht [Ha' _]]]]]. inversion Ht; subst t. congruence.
    + split; [discriminate |]. intros [t [a [n [Ht _]]]]. discriminate.
    + split; [discriminate |]. intros [t [a [n [Ht _]]]]. discriminate.
  - intros text Ho. apply ip_only_reparse in Ho.
    destruct Ho as [addr [He [_ Hr]]]. eauto.
Qed.

Lemma in_subnet_iff_witness :
  exists b,
    fst (in_subnet (Some "10.10.5.5") (ExactStr "10.10.0.0/16") []) = Ok (PyBool b) /\
    (b = true <->
     exists text addr net,
       ip_only (Some "10.10.5.5") = Ok (Some text) /\
       ip_address (Some text) = Ok addr /\
       ip_network (Some "10.10.0.0/16") true = Ok net /\
       cls_of addr = net_cls net /\
       _ip (network_address net) <= _ip addr <= broadcast_address net) /\
    (forall text,
       ip_only (Some "10.10.5.5") = Ok (Some text) ->
       exists addr,
         extracted_address (Some "10.10.5.5") = Some addr /\
         ip_address (Some text) = Ok addr).
Proof. exact (in_subnet_iff (Some "10.10.5.5") (ExactStr "10.10.0.0/16") [] reachable_init). Defined.

(** C4 (what [ip_only] extracts).  The strategies are tried in the order
    address, interface, network, and the result is [None] when all fail.  An
    address yields its own canonical text; an interface form yields the text
    of its address part; a network form yields the text of an address with
    the number and family of the network's base address.  The text is
    canonical: extracting from it again returns it unchanged.  The three
    examples of the specification evaluate as it says. *)
Theorem ip_only_extracts :
  (forall value a,
     ip_address value = Ok a ->
     exists s, address_str a = Ok s /\ ip_only value = Ok (Some s)) /\
  (forall value e i,
     ip_address value = Raise e -> ip_interface value = Ok i ->
     exists a s, ip i = Ok a /\ _ip a = _ip (if_address i) /\
                 cls_of a = cls_of (if_address i) /\
                 address_str a = Ok s /\ ip_only value = Ok (Some s)) /\
  (forall value n,
     ip_network value true = Ok n ->
     exists a s, cls_of a = net_cls n /\ _ip a = _ip (network_address n) /\
                 address_str a = Ok s /\ ip_only value = Ok (Some s)) /\
  (forall value e e',
     ip_address value = Raise e -> ip_interface value = Raise e' ->
     is_Ok (ip_network value true) = false /\ ip_only value = Ok None) /\
  (forall value text,
     ip_only value = Ok (Some text) -> ip_only (Some text) = Ok (Some text)) /\
  ip_only (Some "10.1.2.3") = Ok (Some "10.1.2.3") /\
  ip_only (Some "10.1.2.3/24") = Ok (Some "10.1.2.3") /\
  ip_only (Some "10.10.0.0/16") = Ok (Some "10.10.0.0").
Proof.
  split; [| split; [| split; [| split; [| split]]]].
  - intros value a Ha. exists (address_text a).
    rewrite ip_only_spec, Ha. split; [| reflexivity].
    apply address_str_text. eapply address_class_valid, ip_address_inv, Ha.
  - intros value e i Ha Hi. destruct (ip_interface_ip _ _ Hi) as [Hip Hv].
    exists (interface_ip i), (address_text (interface_ip i)).
    rewrite ip_only_spec, Ha, Hi.
    repeat split; auto using address_str_text.
  - intros value n Hn.
    destruct (ip_network_is_interface _ _ Hn) as [i [Hi [Hai Hni]]].
    pose proof (ip_network_wf _ _ Hn) as Hwf. cbv zeta in Hwf.
    destruct Hwf as [_ [Hcls _]].
    rewrite ip_only_spec. destruct (ip_address value) as [a | e] eqn:Ha.
    + destruct (ip_address_is_interface _ _ Ha) as [i' [Hi' Hai']].
      rewrite Hi in Hi'. inversion Hi'; subst i'.
      exists a, (address_text a). rewrite <- Hai', Hai.
      repeat split; auto.
      apply address_str_text. rewrite <- Hai, Hai'.
      eapply address_class_valid, ip_address_inv, Ha.
    + rewrite Hi. destruct (ip_interface_ip _ _ Hi) as [_ Hv].
      exists (interface_ip i), (address_text (interface_ip i)).
      unfold interface_ip at 1 2. simpl. rewrite Hai.
      repeat split; auto using address_str_text.
  - intros value e e' Ha Hi. rewrite ip_only_spec, Ha, Hi.
    destruct (ip_interface_raises_ip_network _ _ Hi) as [e'' ->]. auto.
  - exact ip_only_idempotent.
  - repeat split; vm_compute; reflexivity.
Qed.

(** C5 (nothing raises, but two answers are not negative booleans).  For
    every text, every subnet, every cache and every XPath argument, each of
    the nine predicates, [ip_only], [in_subnet] and each bound function
    returns normally.  On text that is no IP form [ip_only] returns [None],
    [in_subnet] and the bound [in-subnet] return [False], and seven of the
    predicates, with their bound functions, return [False]; a bound function
    whose argument has no first node with a text returns [False] as well.
    The claim fails for the two predicates that end in [is_host_ip6]: on
    every text that is no IP form, such as ["hello"], [is_host_ip6] and
    [is_host_ip], and with them the bound [ip6-host] and [ip-host], return
    [None], which is no boolean. *)
Theorem degraded_answers {C : Type} (dummy : C) (value : pystr)
        (subnet : str_arg) (cache : lru_store) (ele : xpath_value) :
  (forall name f, In (name, f) _ns_ext_predicates ->
     (exists v, f value = Ok v /\ bool_or_None v) /\
     (exists v, make_nsf f dummy ele = Ok v /\ bool_or_None v)) /\
  (exists r, ip_only value = Ok r) /\
  (exists b, fst (in_subnet value subnet cache) = Ok (PyBool b)) /\
  (exists b, fst (nsf_in_subnet dummy ele subnet cache) = Ok (PyBool b)) /\
  (parses_as_ip_form value = false ->
     (forall name f, In (name, f) _ns_ext_predicates ->
        f value = Ok (if answers_through_is_host_ip6 name
                      then PyNone else PyBool false) /\
        (first_text ele = Ok value ->
         make_nsf f dummy ele = Ok (if answers_through_is_host_ip6 name
                                    then PyNone else PyBool false))) /\
     ip_only value = Ok None /\
     in_subnet value subnet cache = (Ok (PyBool false), cache) /\
     (first_text ele = Ok value ->
      nsf_in_subnet dummy ele subnet cache = (Ok (PyBool false), cache))) /\
  (is_Ok (first_text ele) = false ->
     (forall f, make_nsf f dummy ele = Ok (PyBool false)) /\
     nsf_in_subnet dummy ele subnet cache = (Ok (PyBool false), cache)) /\
  parses_as_ip_form (Some "hello") = false /\
  is_host_ip6 (Some "hello") = Ok PyNone /\
  is_host_ip (Some "hello") = Ok PyNone /\
  make_nsf is_host_ip6 dummy (XNodeSet [Element (Some "hello")]) = Ok PyNone /\
  make_nsf is_host_ip dummy (XNodeSet [Element (Some "hello")]) = Ok PyNone /\
  make_nsf is_host_ip4 dummy (XNodeSet [Element (Some "hello")]) = Ok (PyBool false).
Proof.
  split; [| split; [| split; [| split; [| split; [| split]]]]].
  - intros name f Hin. split.
    + destruct (predicates_return name f value Hin) as [v [Hv Hb]]. eauto.
    + rewrite make_nsf_spec. destruct (first_text ele) as [text | e].
      * destruct (predicates_return name f text Hin) as [v [-> Hb]]. eauto.
      * exists (PyBool false). split; [reflexivity | right; eauto].
  - rewrite ip_only_spec. eexists. reflexivity.
  - apply in_subnet_returns_bool.
  - rewrite nsf_in_subnet_spec. destruct (first_text ele) as [text | e].
    + apply in_subnet_returns_bool.
    + exists false. reflexivity.
  - intros Hno. apply not_ip_form_results in Hno.
    destruct Hno as [A4 [N4 [H4 [A6 [N6 [H6 [A [N [H Ho]]]]]]]]].
    assert (Hin_subnet : in_subnet value subnet cache = (Ok (PyBool false), cache))
      by (unfold in_subnet; rewrite Ho; reflexivity).
    split; [| split; [exact Ho | split; [exact Hin_subnet |]]].
    + intros name f Hin.
      assert (Hf : f value = Ok (if answers_through_is_host_ip6 name
                                 then PyNone else PyBool false)).
      { unfold _ns_ext_predicates in Hin. simpl in Hin.
        repeat (destruct Hin as [Hin | Hin]; [inversion Hin; subst; clear Hin |]);
          try contradiction; assumption. }
      split; [exact Hf |].
      intros Ht. rewrite make_nsf_spec, Ht, Hf. reflexivity.
    + intros Ht. rewrite nsf_in_subnet_spec, Ht. exact Hin_subnet.
  - intros Hno. split.
    + intros f. rewrite make_nsf_spec.
      destruct (first_text ele); [discriminate | reflexivity].
    + rewrite nsf_in_subnet_spec.
      destruct (first_text ele); [discriminate | reflexivity].
  - repeat split; vm_compute; reflexivity.
Qed.

(** C6 (the family-combined predicates).  [is_any_ip] and [is_net_ip] are the
    boolean disjunction of their two family predicates ([is_any_ip_or],
    [is_net_ip_or]).  [is_host_ip] is not boolean: on ["hello"] the IPv4
    predicate answers [False], the IPv6 predicate [None], and Python's [or]
    hands back that [None]. *)
Theorem is_host_ip_not_boolean :
  is_host_ip4 (Some "hello") = Ok (PyBool false) /\
  is_host_ip6 (Some "hello") = Ok PyNone /\
  is_host_ip (Some "hello") = Ok PyNone /\
  is_host_ip (Some "hello")
  = py_or (is_host_ip4 (Some "hello")) (is_host_ip6 (Some "hello")).
Proof. repeat split; vm_compute; reflexivity. Qed.

(** C7 (what [in_subnet] accepts on the left).  Whenever [ip_only] extracts
    a text from the value, be it an address, an interface form or a network
    form, that text denotes the extracted address: the base address when the
    value is a network, the address part when it is an interface.
    [in_subnet] then answers the membership of this address in the network
    the subnet denotes: [True] exactly when the subnet parses as a strict
    network of the address's family whose range, from network address to
    broadcast address, holds the address's number.  So [10.10.0.0/16] is in
    [10.0.0.0/8], because [10.10.0.0] is extracted from it. *)
Theorem in_subnet_tests_extracted (value : pystr) (subnet : str_arg)
        (cache : lru_store) (text : string) :
  reachable cache ->
  ip_only value = Ok (Some text) ->
  exists addr,
    extracted_address value = Some addr /\
    address_str addr = Ok text /\
    ip_address (Some text) = Ok addr /\
    (forall n, ip_network value true = Ok n ->
       cls_of addr = net_cls n /\ _ip addr = _ip (network_address n)) /\
    (forall i, ip_interface value = Ok i ->
       cls_of addr = cls_of (if_address i) /\ _ip addr = _ip (if_address i)) /\
    fst (in_subnet value subnet cache) =
    Ok (PyBool match ip_network (Some (str_of subnet)) true with
               | Ok net => __contains__ net addr
               | Raise _ => false
               end) /\
    (fst (in_subnet value subnet cache) = Ok (PyBool true) <->
     exists net,
       ip_network (Some (str_of subnet)) true = Ok net /\
       cls_of addr = net_cls net /\
       _ip (network_address net) <= _ip addr <= broadcast_address net) /\
    ip_only (Some "10.10.0.0/16") = Ok (Some "10.10.0.0") /\
    (forall outer, str_of outer = "10.0.0.0/8" ->
       fst (in_subnet (Some "10.10.0.0/16") outer cache) = Ok (PyBool true)).
Proof.
  intros Hc Ho. apply reachable_cache_ok in Hc.
  destruct (ip_only_reparse _ _ Ho) as [addr [He [Hs Hr]]].
  assert (Hans : fst (in_subnet value subnet cache) =
                 Ok (PyBool match ip_network (Some (str_of subnet)) true with
                            | Ok net => __contains__ net addr
                            | Raise _ => false
                            end)).
  { rewrite (in_subnet_result _ _ _ Hc), in_subnet_answer_extracted, He.
    reflexivity. }
  exists addr.
  split; [exact He |]. split; [exact Hs |]. split; [exact Hr |].
  split; [| split; [| split; [exact Hans | split; [| split]]]].
  - intros n Hn. destruct (extracted_of_network _ _ Hn) as [a [Ha H]].
    rewrite He in Ha. inversion Ha; subst a. exact H.
  - intros i Hi. unfold extracted_address in He.
    destruct (ip_address value) as [a | e] eqn:Ha.
    + destruct (ip_address_is_interface _ _ Ha) as [i' [Hi' Hai']].
      assert (Hii : i' = i) by congruence. rewrite Hii in Hai'.
      assert (Haa : a = addr) by congruence. rewrite Haa in Hai'.
      rewrite Hai'. auto.
    + rewrite Hi in He. inversion He; subst addr. auto.
  - rewrite Hans.
    destruct (ip_network (Some (str_of subnet)) true) as [net | e] eqn:Hn.
    + pose proof (address_class_valid _ _ _ (ip_address_inv _ _ Hr)) as Hv.
      pose proof (contains_range _ _ _ Hn Hv) as Hrange. split.
      * intros H. exists net. split; [reflexivity |]. apply Hrange. congruence.
      * intros [net' [Hn' H]]. inversion Hn'; subst net'.
        apply Hrange in H. rewrite H. reflexivity.
    + split; [discriminate |]. intros [net' [Hn' _]]. discriminate.
  - vm_compute. reflexivity.
  - intros outer Hout. rewrite (in_subnet_result _ _ _ Hc), Hout.
    vm_compute. reflexivity.
Qed.

(** The network form [10.10.0.0/16] on the left: its base address
    [10.10.0.0] is extracted and lies in [10.0.0.0/8]. *)
Lemma in_subnet_tests_extracted_witness :
  fst (in_subnet (Some "10.10.0.0/16") (ExactStr "10.0.0.0/8") []) = Ok (PyBool true) /\
  fst (in_subnet (Some "10.10.0.0/16") (SubclassStr "10.0.0.0/8") []) = Ok (PyBool true) /\
  exists addr,
    extracted_address (Some "10.10.0.0/16") = Some addr /\
    address_str addr = Ok "10.10.0.0" /\
    ip_address (Some "10.10.0.0") = Ok addr /\
    (fst (in_subnet (Some "10.10.0.0/16") (ExactStr "10.0.0.0/8") []) = Ok (PyBool true) <->
     exists net,
       ip_network (Some "10.0.0.0/8") true = Ok net /\
       cls_of addr = net_cls net /\
       _ip (network_address net) <= _ip addr <= broadcast_address net).
Proof.
  destruct (in_subnet_tests_extracted (Some "10.10.0.0/16") (ExactStr "10.0.0.0/8") []
              "10.10.0.0" reachable_init eq_refl)
    as [addr [He [Hs [Hr [_ [_ [_ [Hiff [_ Hex]]]]]]]]].
  split; [exact (Hex (ExactStr "10.0.0.0/8") eq_refl) |].
  split; [exact (Hex (SubclassStr "10.0.0.0/8") eq_refl) |].
  exists addr. auto.
Defined.

(** C8 (the cache is pure memoisation).  In any two states the cache can
    reach, [in_subnet] gives the same answer on the same arguments; the state
    a call leaves behind is again reachable, and asking again in that state
    repeats the answer.  The predicates and [ip_only] take no state at all:
    they are functions of their argument. *)
Theorem in_subnet_cache_independent (value : pystr) (subnet : str_arg)
        (c1 c2 : lru_store) :
  reachable c1 -> reachable c2 ->
  fst (in_subnet value subnet c1) = fst (in_subnet value subnet c2) /\
  reachable (snd (in_subnet value subnet c1)) /\
  fst (in_subnet value subnet (snd (in_subnet value subnet c1)))
  = fst (in_subnet value subnet c1).
Proof.
  intros H1 H2.
  pose proof (reachable_call value subnet c1 H1) as H3.
  rewrite !in_subnet_result by (apply reachable_cache_ok; assumption).
  auto.
Qed.

(** Two different reachable states: the empty cache, and the cache after a
    first question about the same subnet. *)
Lemma in_subnet_cache_independent_witness :
  let warm := snd (in_subnet (Some "10.10.5.5") (ExactStr "10.10.0.0/16") []) in
  fst (in_subnet (Some "10.1.2.3") (ExactStr "10.10.0.0/16") [])
  = fst (in_subnet (Some "10.1.2.3") (ExactStr "10.10.0.0/16") warm) /\
  reachable (snd (in_subnet (Some "10.1.2.3") (ExactStr "10.10.0.0/16") [])) /\
  fst (in_subnet (Some "10.1.2.3") (ExactStr "10.10.0.0/16")
         (snd (in_subnet (Some "10.1.2.3") (ExactStr "10.10.0.0/16") [])))
  = fst (in_subnet (Some "10.1.2.3") (ExactStr "10.10.0.0/16") []).
Proof.
  exact (in_subnet_cache_independent (Some "10.1.2.3") (ExactStr "10.10.0.0/16") []
           (snd (in_subnet (Some "10.10.5.5") (ExactStr "10.10.0.0/16") []))
           reachable_init
           (reachable_call (Some "10.10.5.5") (ExactStr "10.10.0.0/16") [] reachable_init)).
Defined.

(** C9 (the binding's failure policy).  A bound predicate answers [False]
    when [ele[0].text] cannot be taken, which is the case for a missing
    argument, an empty node-set and an item without text attribute, and
    otherwise answers what its predicate answers on the text of the first
    node; the bound [in-subnet] does the same with [in_subnet]. *)
Theorem bound_function_policy {C : Type} (dummy : C) (ele : xpath_value)
        (subnet : str_arg) (cache : lru_store) :
  (forall name f, In (name, f) _ns_ext_predicates ->
     make_nsf f dummy ele =
     match first_text ele with
     | Ok text => f text
     | Raise _ => Ok (PyBool false)
     end) /\
  nsf_in_subnet dummy ele subnet cache =
  match first_text ele with
  | Ok text => in_subnet text subnet cache
  | Raise _ => (Ok (PyBool false), cache)
  end /\
  first_text XNone = Raise TypeError /\
  first_text (XNodeSet []) = Raise IndexError /\
  (forall s rest, first_text (XNodeSet (SmartString s :: rest)) = Raise AttributeError) /\
  (forall text rest, first_text (XNodeSet (Element text :: rest)) = Ok text).
Proof.
  split; [| split; [apply nsf_in_subnet_spec | repeat split]].
  intros name f Hin. rewrite make_nsf_spec.
  destruct (first_text ele) as [text | e]; [| reflexivity].
  destruct (predicates_return name f text Hin) as [v [-> _]]. reflexivity.
Qed.

(** C10 (the subnet must be a strict network).  A subnet text that reads as
    an address with a prefix but has host bits set below the prefix, an
    interface form, is refused by the strict network parse, and [in_subnet]
    answers [False] for every value. *)
Theorem in_subnet_strict_subnet (value : pystr) (subnet : str_arg)
        (cache : lru_store) (i : IPInterface) :
  reachable cache ->
  ip_interface (Some (str_of subnet)) = Ok i ->
  has_host_bits (if_address i) (if_netmask i) = true ->
  fst (in_subnet value subnet cache) = Ok (PyBool false).
Proof.
  intros Hc Hi Hh. apply reachable_cache_ok in Hc.
  rewrite (in_subnet_result _ _ _ Hc). unfold in_subnet_answer.
  rewrite (host_bits_refused _ _ Hi Hh).
  destruct (only <- ip_only value ;; ip_address only); reflexivity.
Qed.

(** [10.10.5.5/16] is an interface form, and a "net" for [is_net_ip4], yet
    no address is in it, not even its own. *)
Lemma in_subnet_strict_subnet_witness :
  is_net_ip4 (Some "10.10.5.5/16") = Ok (PyBool true) /\
  fst (in_subnet (Some "10.10.5.5") (ExactStr "10.10.5.5/16") []) = Ok (PyBool false).
Proof.
  split; [vm_compute; reflexivity |].
  destruct (ip_interface (Some "10.10.5.5/16")) as [i | e] eqn:Hi;
    [| vm_compute in Hi; discriminate].
  apply (in_subnet_strict_subnet (Some "10.10.5.5") (ExactStr "10.10.5.5/16") [] i
           reachable_init Hi).
  vm_compute in Hi. inversion Hi. vm_compute. reflexivity.
Defined.
